(** * Determinant finder: Matrix entity and Gaussian-elimination calculator

    A shallow embedding of [entities/matrix.py],
    [entities/determinant_calculator.py] and
    [use_cases/calculate_determinant_use_case.py].

    Python values are modelled as they reach the code: a matrix element is
    an [int] (unbounded, [Z]), a [float] (IEEE-754 binary64, the Standard
    Library's [spec_float] at precision 53 and maximal exponent 1024) or
    some other object.  Exceptions are the [Raise] results of an error
    monad. *)

From Stdlib Require Import ZArith Lia String List Bool.
From Stdlib Require Import Floats.SpecFloat.
From stdpp Require Import base list.

Local Open Scope Z_scope.

(** ** Exceptions and the error monad *)

Inductive exn : Type :=
  | ValueError (msg : string)
  | IndexError (msg : string)
  | ZeroDivisionError
  | OverflowError
  | TypeError.

Inductive result (A : Type) : Type :=
  | Ok (a : A)
  | Raise (e : exn).
Arguments Ok {A} a.
Arguments Raise {A} e.

Definition bind {A B : Type} (m : result A) (k : A -> result B) : result B :=
  match m with
  | Ok a => k a
  | Raise e => Raise e
  end.

Notation "'let*' x ':=' m 'in' k" := (bind m (fun x => k))
  (at level 10, x pattern, m at level 100, k at level 200).

Definition is_ok {A : Type} (m : result A) : bool :=
  match m with Ok _ => true | Raise _ => false end.

(** The error kinds of the specification, as the messages the code raises
    them with. *)
Definition msg_empty : string := "Matrix cannot be empty".
Definition msg_rows_lists : string := "All rows must be lists".
Definition msg_same_length : string := "All rows must have the same length".
Definition msg_numbers : string := "All elements must be numbers".
Definition msg_not_square : string := "Matrix must be square to calculate determinant".
Definition msg_index : string := "Index out of bounds".
Definition msg_exclude : string := "Exclude indices out of bounds".

Definition InvalidShapeError (e : exn) : Prop :=
  e = ValueError msg_empty \/ e = ValueError msg_rows_lists \/
  e = ValueError msg_same_length.
Definition InvalidElementError (e : exn) : Prop := e = ValueError msg_numbers.
Definition NotSquareError (e : exn) : Prop := e = ValueError msg_not_square.
Definition IndexOutOfRangeError (e : exn) : Prop :=
  e = IndexError msg_index \/ e = IndexError msg_exclude.

(** ** Python numbers *)

Module Py.

(** binary64 *)
Definition prec : Z := 53.
Definition emax : Z := 1024.
Definition float : Type := spec_float.

Definition fadd : float -> float -> float := SFadd prec emax.
Definition fsub : float -> float -> float := SFsub prec emax.
Definition fmul : float -> float -> float := SFmul prec emax.
Definition fdiv : float -> float -> float := SFdiv prec emax.
Definition fopp : float -> float := SFopp.
Definition fabs : float -> float := SFabs.
Definition fltb : float -> float -> bool := SFltb.

Definition is_zero (f : float) : bool :=
  match f with S754_zero _ => true | _ => false end.
Definition is_infinite (f : float) : bool :=
  match f with S754_infinity _ => true | _ => false end.
Definition is_finite (f : float) : bool :=
  match f with S754_zero _ | S754_finite _ _ _ => true | _ => false end.

(** The literals [1.0], [0.0] and [1e-10] (0x1.b7cdfd9d7bdbbp-34). *)
Definition one : float := S754_finite false 4503599627370496 (-52).
Definition zero : float := S754_zero false.
Definition eps : float := S754_finite false 7737125245533627 (-86).

(** An object met in a matrix cell: the constructor accepts [int] and
    [float] and rejects the rest, of which a [str] is the representative. *)
Inductive value : Type :=
  | Int (z : Z)
  | Float (f : float)
  | Str (s : string).

(** [isinstance(v, (int, float))] *)
Definition is_number (v : value) : bool :=
  match v with Int _ | Float _ => true | Str _ => false end.

(** [float(z)] for an int: correctly rounded, [OverflowError] when the
    int is too large to convert. *)
Definition float_of_int (z : Z) : result float :=
  let f := binary_normalize prec emax z 0 false in
  if is_infinite f then Raise OverflowError else Ok f.

Definition to_float (v : value) : result float :=
  match v with
  | Int z => float_of_int z
  | Float f => Ok f
  | Str _ => Raise TypeError
  end.

(** [abs(v)] *)
Definition abs (v : value) : result value :=
  match v with
  | Int z => Ok (Int (Z.abs z))
  | Float f => Ok (Float (fabs f))
  | Str _ => Raise TypeError
  end.

(** Exact comparison of an int with a float (Python never rounds the int
    here); [None] for a NaN. *)
Definition compare_int_float (z : Z) (f : float) : option comparison :=
  match f with
  | S754_nan => None
  | S754_infinity s => Some (if s then Gt else Lt)
  | S754_zero _ => Some (z ?= 0)
  | S754_finite s m e =>
      let sm := if s then Z.neg m else Z.pos m in
      Some (if 0 <=? e then z ?= sm * 2 ^ e else z * 2 ^ (- e) ?= sm)
  end.

Definition compare (a b : value) : result (option comparison) :=
  match a, b with
  | Int x, Int y => Ok (Some (x ?= y))
  | Float x, Float y => Ok (SFcompare x y)
  | Int x, Float y => Ok (compare_int_float x y)
  | Float x, Int y => Ok (option_map CompOpp (compare_int_float y x))
  | _, _ => Raise TypeError
  end.

(** [a < b] and [a > b] *)
Definition lt (a b : value) : result bool :=
  let* c := compare a b in
  Ok (match c with Some Lt => true | _ => false end).
Definition gt (a b : value) : result bool :=
  let* c := compare a b in
  Ok (match c with Some Gt => true | _ => false end).

(** [a / b] of two ints: the correctly rounded quotient. *)
Definition int_truediv (a b : Z) : result float :=
  if b =? 0 then Raise ZeroDivisionError
  else
    let s := xorb (a <? 0) (b <? 0) in
    if a =? 0 then Ok (S754_zero s)
    else
      let '(q, e, l) := SFdiv_core_binary prec emax (Z.abs a) 0 (Z.abs b) 0 in
      let f := binary_round_aux prec emax s q e l in
      if is_infinite f then Raise OverflowError else Ok f.

(** [a / b] *)
Definition truediv (a b : value) : result value :=
  match a, b with
  | Int x, Int y => let* f := int_truediv x y in Ok (Float f)
  | _, _ =>
      let* x := to_float a in
      let* y := to_float b in
      if is_zero y then Raise ZeroDivisionError else Ok (Float (fdiv x y))
  end.

(** [a * b] and [a - b]: exact on two ints, in binary64 as soon as one
    operand is a float (the int operand is converted first). *)
Definition mul (a b : value) : result value :=
  match a, b with
  | Int x, Int y => Ok (Int (x * y))
  | _, _ =>
      let* x := to_float a in
      let* y := to_float b in
      Ok (Float (fmul x y))
  end.

Definition sub (a b : value) : result value :=
  match a, b with
  | Int x, Int y => Ok (Int (x - y))
  | _, _ =>
      let* x := to_float a in
      let* y := to_float b in
      Ok (Float (fsub x y))
  end.

(** [-a] *)
Definition neg (a : value) : result value :=
  match a with
  | Int x => Ok (Int (- x))
  | Float x => Ok (Float (fopp x))
  | Str _ => Raise TypeError
  end.

(** [str(v)], as an f-string field [{v}] renders it; only how it ends
    matters here.  The conversion of an int to decimal digits has a
    limit, 4300 digits by default, the sign not counted: beyond it the
    conversion raises [ValueError]. *)
Definition max_str_digits : Z := 4300.

Definition msg_int_str : string :=
  "Exceeds the limit (4300 digits) for integer string conversion; use sys.set_int_max_str_digits() to increase the limit".

Definition str (v : value) : result unit :=
  match v with
  | Int z =>
      if Z.abs z <? 10 ^ max_str_digits then Ok tt
      else Raise (ValueError msg_int_str)
  | Float _ | Str _ => Ok tt
  end.

End Py.


(** [f"{v:8.3f}"] and [f"{v:.4f}"] render the binary64 value of [v]; an int
    is converted first, and a [str] has no such format code. *)
Definition msg_format : string := "Unknown format code 'f' for object of type 'str'".

Definition format_f (v : Py.value) : result Py.float :=
  match v with
  | Py.Int z => Py.float_of_int z
  | Py.Float f => Ok f
  | Py.Str _ => Raise (ValueError msg_format)
  end.

(** ** Lists, indexing and loops *)

Definition msg_list_index : string := "list index out of range".

(** [l[i]] and [l[i] = x] for an index [i >= 0] *)
Definition getitem {A : Type} (l : list A) (i : nat) : result A :=
  match l !! i with
  | Some x => Ok x
  | None => Raise (IndexError msg_list_index)
  end.

Definition setitem {A : Type} (l : list A) (i : nat) (x : A) : result (list A) :=
  if decide (i < length l)%nat then Ok (<[i:=x]> l)
  else Raise (IndexError msg_list_index).

(** [range(lo, hi)] *)
Definition range (lo hi : nat) : list nat := seq lo (hi - lo).

(** A [for] loop over [xs] threading the loop-carried variables [s]; the
    body either goes on with new variables or returns from the enclosing
    function. *)
Inductive ctl (S R : Type) : Type :=
  | Next (s : S)
  | Return (r : R).
Arguments Next {S R} s.
Arguments Return {S R} r.

Fixpoint for_ {S R : Type} (xs : list nat) (body : nat -> S -> result (ctl S R))
    (s : S) : result (ctl S R) :=
  match xs with
  | [] => Ok (Next s)
  | x :: xs' =>
      let* c := body x s in
      match c with
      | Next s' => for_ xs' body s'
      | Return r => Ok (Return r)
      end
  end.

(** A loop whose body never returns early. *)
Fixpoint for_each {S : Type} (xs : list nat) (body : nat -> S -> result S)
    (s : S) : result S :=
  match xs with
  | [] => Ok s
  | x :: xs' => let* s' := body x s in for_each xs' body s'
  end.

(** ** entities/matrix.py *)

(** What the constructor may find as a row of [data]: a list of objects,
    or something that is not a list. *)
Inductive item : Type :=
  | Row (cells : list Py.value)
  | NotList (repr : string).

Definition is_list (it : item) : bool :=
  match it with Row _ => true | NotList _ => false end.

Definition cells (it : item) : list Py.value :=
  match it with Row c => c | NotList _ => [] end.

Definition len (it : item) : nat := length (cells it).

Module Matrix.

Record t : Type := mk {
  _data : list (list Py.value);
  _rows : nat;
  _cols : nat
}.

Definition _validate_matrix (data : list item) : result unit :=
  match data with
  | [] => Raise (ValueError msg_empty)
  | first :: _ =>
      if negb (forallb is_list data) then Raise (ValueError msg_rows_lists)
      else if negb (forallb (fun row => Nat.eqb (len row) (len first)) data)
      then Raise (ValueError msg_same_length)
      else if negb (forallb Py.is_number (concat (map cells data)))
      then Raise (ValueError msg_numbers)
      else Ok tt
  end.

Definition __init__ (data : list item) : result t :=
  let* _ := _validate_matrix data in
  Ok {| _data := map cells data;
        _rows := length data;
        _cols := match data with first :: _ => len first | [] => O end |}.

Definition rows (self : t) : nat := _rows self.
Definition cols (self : t) : nat := _cols self.
Definition is_square (self : t) : bool := Nat.eqb (_rows self) (_cols self).

(** [0 <= row < self._rows and 0 <= col < self._cols] *)
Definition in_bounds (self : t) (row col : Z) : bool :=
  (0 <=? row) && (row <? Z.of_nat (_rows self)) &&
  (0 <=? col) && (col <? Z.of_nat (_cols self)).

Definition get_element (self : t) (row col : Z) : result Py.value :=
  if negb (in_bounds self row col) then Raise (IndexError msg_index)
  else
    let* r := getitem (_data self) (Z.to_nat row) in
    getitem r (Z.to_nat col).

(** [set_element]: the matrix after the call, and how the call ended.
    The assignment comes first.  The debug line that follows it renders
    [row], [col] and [value] in an f-string, whether or not the line is
    logged: [row] and [col] are then below the counts, which are list
    lengths, and render; an int [value] beyond the limit of the int to
    str conversion raises [ValueError] there, with the element already
    stored. *)
Definition set_element (self : t) (row col : Z) (value : Py.value)
    : t * result unit :=
  if negb (in_bounds self row col) then (self, Raise (IndexError msg_index))
  else
    match (let* r := getitem (_data self) (Z.to_nat row) in
           let* r' := setitem r (Z.to_nat col) value in
           setitem (_data self) (Z.to_nat row) r') with
    | Ok d =>
        ({| _data := d; _rows := _rows self; _cols := _cols self |},
         Py.str value)
    | Raise e => (self, Raise e)
    end.

Definition get_submatrix (self : t) (exclude_row exclude_col : Z) : result t :=
  if negb (in_bounds self exclude_row exclude_col)
  then Raise (IndexError msg_exclude)
  else
    let* submatrix_data :=
      for_each (range 0 (_rows self)) (fun i submatrix_data =>
        if negb (Z.of_nat i =? exclude_row) then
          let* row :=
            for_each (range 0 (_cols self)) (fun j row =>
              if negb (Z.of_nat j =? exclude_col) then
                let* r := getitem (_data self) i in
                let* x := getitem r j in
                Ok (row ++ [x])
              else Ok row) [] in
          Ok (submatrix_data ++ [row])
        else Ok submatrix_data) [] in
    __init__ (map Row submatrix_data).

Definition to_list (self : t) : list (list Py.value) :=
  map (fun row => row) (_data self).

End Matrix.

(** ** entities/determinant_calculator.py *)

(** The lines of the calculation trace.  A line keeps the values that the
    f-string renders: a number under a fixed-point format code as the
    binary64 value it is converted to, a number rendered by [str] as it
    is ([str] of a number is taken as total). *)
Inductive line : Type :=
  | LHeader (rows cols : nat)
  | LRule
  | LInitial
  | LMatrixRow (cells : list Py.float)
  | LStep (i : nat)
  | LSwapped (i max_row row_swaps : nat)
  | LPivotZero
  | LDetZero
  | LPivot (p : Py.value)
  | LFactor (k : nat) (a p : Py.value) (factor : Py.float)
  | LRowOp (k : nat) (factor : Py.float) (i : nat)
  | LFinalTriangular
  | LCalculating
  | LDiagonal (i : nat) (d : Py.value)
  | LProductFirst (val : Py.value)
  | LProduct (determinant val : Py.value)
  | LSignChange (row_swaps : nat)
  | LFinalNegated (magnitude determinant : Py.value)
  | LNoSignChange (row_swaps : nat)
  | LFinal (determinant : Py.value).

Module DeterminantCalculator.

Abbreviation grid := (list (list Py.value)).

(** [matrix_data[k][j]] *)
Definition cell (matrix_data : grid) (k j : nat) : result Py.value :=
  let* r := getitem matrix_data k in
  getitem r j.

(** [matrix_data[k][j] = x]: the row object at index [k] is updated in
    place. *)
Definition set_cell (matrix_data : grid) (k j : nat) (x : Py.value) : result grid :=
  let* r := getitem matrix_data k in
  let* r' := setitem r j x in
  setitem matrix_data k r'.

(** The pivot search of column [i]. *)
Definition find_max_row (matrix_data : grid) (i n : nat) : result nat :=
  for_each (range (i + 1) n) (fun k max_row =>
    let* a := cell matrix_data k i in
    let* a := Py.abs a in
    let* b := cell matrix_data max_row i in
    let* b := Py.abs b in
    let* c := Py.gt a b in
    Ok (if c then k else max_row)) i.

(** [matrix_data[i], matrix_data[max_row] = matrix_data[max_row], matrix_data[i]] *)
Definition swap_rows (matrix_data : grid) (i max_row : nat) : result grid :=
  let* a := getitem matrix_data max_row in
  let* b := getitem matrix_data i in
  let* matrix_data := setitem matrix_data i a in
  setitem matrix_data max_row b.

(** [abs(matrix_data[i][i]) < 1e-10] *)
Definition pivot_is_zero (matrix_data : grid) (i : nat) : result bool :=
  let* p := cell matrix_data i i in
  let* p := Py.abs p in
  Py.lt p (Py.Float Py.eps).

(** [abs(matrix_data[k][i]) > 1e-10] *)
Definition to_eliminate (matrix_data : grid) (k i : nat) : result bool :=
  let* a := cell matrix_data k i in
  let* a := Py.abs a in
  Py.gt a (Py.Float Py.eps).

(** [matrix_data[k][i] / matrix_data[i][i]] *)
Definition get_factor (matrix_data : grid) (k i : nat) : result Py.value :=
  let* a := cell matrix_data k i in
  let* p := cell matrix_data i i in
  Py.truediv a p.

(** [matrix_data[k][j] -= factor * matrix_data[i][j]] *)
Definition update_cell (matrix_data : grid) (i k j : nat) (factor : Py.value)
    : result grid :=
  let* old := cell matrix_data k j in
  let* p := cell matrix_data i j in
  let* prod := Py.mul factor p in
  let* new := Py.sub old prod in
  set_cell matrix_data k j new.

(** The loop variables of the elimination: the working copy and the
    row-swap counter. *)
Definition state : Type := grid * nat.

(** The pivot search of column [i] and the row swap that follows it. *)
Definition select_pivot (n i : nat) (st : state) : result state :=
  let '(matrix_data, row_swaps) := st in
  let* max_row := find_max_row matrix_data i n in
  if negb (Nat.eqb max_row i) then
    let* matrix_data := swap_rows matrix_data i max_row in
    Ok (matrix_data, S row_swaps)
  else Ok (matrix_data, row_swaps).

(** One turn of the loop over the pivot columns in [calculate]. *)
Definition column_step (n i : nat) (st : state) : result (ctl state Py.value) :=
  let* st := select_pivot n i st in
  let '(matrix_data, row_swaps) := st in
  let* singular := pivot_is_zero matrix_data i in
  if singular then Ok (Return (Py.Float Py.zero))
  else
    let* matrix_data :=
      for_each (range (i + 1) n) (fun k matrix_data =>
        let* c := to_eliminate matrix_data k i in
        if c then
          let* factor := get_factor matrix_data k i in
          for_each (range i n) (fun j matrix_data =>
            update_cell matrix_data i k j factor) matrix_data
        else Ok matrix_data) matrix_data in
    Ok (Next (matrix_data, row_swaps)).

(** The product of the diagonal, from [1.0]. *)
Definition diagonal_product (matrix_data : grid) (n : nat) : result Py.value :=
  for_each (range 0 n) (fun i determinant =>
    let* d := cell matrix_data i i in
    Py.mul determinant d) (Py.Float Py.one).

Definition calculate (matrix : Matrix.t) : result Py.value :=
  if negb (Matrix.is_square matrix) then Raise (ValueError msg_not_square)
  else
    let matrix_data := Matrix.to_list matrix in
    let n := Matrix.rows matrix in
    let* c := for_ (range 0 n) (column_step n) (matrix_data, O) in
    match c with
    | Return r => Ok r
    | Next (matrix_data, row_swaps) =>
        let* determinant := diagonal_product matrix_data n in
        if Nat.eqb (row_swaps mod 2) 1 then Py.neg determinant
        else Ok determinant
    end.

(** [_add_matrix_to_steps]: one line per row, every element under the
    format code [8.3f]. *)
Fixpoint format_row (row : list Py.value) : result (list Py.float) :=
  match row with
  | [] => Ok []
  | elem :: row' =>
      let* f := format_f elem in
      let* fs := format_row row' in
      Ok (f :: fs)
  end.

Fixpoint _add_matrix_to_steps (steps : list line) (matrix_data : grid)
    : result (list line) :=
  match matrix_data with
  | [] => Ok steps
  | row :: rest =>
      let* row_str := format_row row in
      _add_matrix_to_steps (steps ++ [LMatrixRow row_str]) rest
  end.

(** The loop variables of [calculate_with_steps]: those of [calculate]
    and the trace. *)
Definition state_steps : Type := grid * nat * list line.

(** The loop over the columns [j] of one row elimination. *)
Definition eliminate_row_steps (i n k : nat) (factor : Py.value)
    (matrix_data : grid) (steps : list line) : result (grid * list line) :=
  for_each (range i n) (fun j '(matrix_data, steps) =>
    let* old_value := cell matrix_data k j in
    let* matrix_data := update_cell matrix_data i k j factor in
    if Nat.eqb j i then
      let* f := format_f factor in
      Ok (matrix_data, steps ++ [LRowOp (k + 1) f (i + 1)])
    else Ok (matrix_data, steps)) (matrix_data, steps).

(** One turn of the loop over the pivot columns in
    [calculate_with_steps]. *)
Definition select_pivot_steps (n i : nat) (st : state_steps) : result state_steps :=
  let '(matrix_data, row_swaps, steps) := st in
  let steps := steps ++ [LStep (i + 1)] in
  let* max_row := find_max_row matrix_data i n in
  if negb (Nat.eqb max_row i) then
    let* matrix_data := swap_rows matrix_data i max_row in
    let row_swaps := S row_swaps in
    let steps := steps ++ [LSwapped (i + 1) (max_row + 1) row_swaps] in
    let* steps := _add_matrix_to_steps steps matrix_data in
    Ok (matrix_data, row_swaps, steps)
  else Ok (matrix_data, row_swaps, steps).

Definition column_step_steps (n i : nat) (st : state_steps)
    : result (ctl state_steps (Py.value * list line)) :=
  let* st := select_pivot_steps n i st in
  let '(matrix_data, row_swaps, steps) := st in
  let* singular := pivot_is_zero matrix_data i in
  if singular then
    Ok (Return (Py.Float Py.zero, steps ++ [LPivotZero] ++ [LDetZero]))
  else
    let* p := cell matrix_data i i in
    let steps := steps ++ [LPivot p] in
    let* ms :=
      for_each (range (i + 1) n) (fun k '(matrix_data, steps) =>
        let* c := to_eliminate matrix_data k i in
        if c then
          let* factor := get_factor matrix_data k i in
          let* a := cell matrix_data k i in
          let* p := cell matrix_data i i in
          let* f := format_f factor in
          let steps := steps ++ [LFactor (k + 1) a p f] in
          let* ms := eliminate_row_steps i n k factor matrix_data steps in
          let '(matrix_data, steps) := ms in
          let* steps := _add_matrix_to_steps steps matrix_data in
          Ok (matrix_data, steps)
        else Ok (matrix_data, steps)) (matrix_data, steps) in
    let '(matrix_data, steps) := ms in
    Ok (Next (matrix_data, row_swaps, steps)).

(** The diagonal is first collected, with one line per element ... *)
Definition collect_diagonal (matrix_data : grid) (n : nat) (steps : list line)
    : result (list Py.value * list line) :=
  for_each (range 0 n) (fun i '(diagonal_products, steps) =>
    let* d := cell matrix_data i i in
    let* d' := cell matrix_data i i in
    Ok (diagonal_products ++ [d], steps ++ [LDiagonal (i + 1) d']))
    ([], steps).

(** ... and then multiplied up, with one line per partial product. *)
Fixpoint multiply_diagonal (i : nat) (diagonal_products : list Py.value)
    (determinant : Py.value) (steps : list line)
    : result (Py.value * list line) :=
  match diagonal_products with
  | [] => Ok (determinant, steps)
  | val :: rest =>
      let* determinant := Py.mul determinant val in
      let steps :=
        if Nat.eqb i 0 then steps ++ [LProductFirst val]
        else steps ++ [LProduct determinant val] in
      multiply_diagonal (S i) rest determinant steps
  end.

Definition calculate_with_steps (matrix : Matrix.t)
    : result (Py.value * list line) :=
  let steps := [] in
  if negb (Matrix.is_square matrix) then Raise (ValueError msg_not_square)
  else
    let steps := steps ++ [LHeader (Matrix.rows matrix) (Matrix.cols matrix)] in
    let steps := steps ++ [LRule] in
    let matrix_data := map (fun row => row) (Matrix.to_list matrix) in
    let n := Matrix.rows matrix in
    let steps := steps ++ [LInitial] in
    let* steps := _add_matrix_to_steps steps matrix_data in
    let* c := for_ (range 0 n) (column_step_steps n) (matrix_data, O, steps) in
    match c with
    | Return r => Ok r
    | Next (matrix_data, row_swaps, steps) =>
        let steps := steps ++ [LFinalTriangular] in
        let* steps := _add_matrix_to_steps steps matrix_data in
        let steps := steps ++ [LCalculating] in
        let* ds := collect_diagonal matrix_data n steps in
        let '(diagonal_products, steps) := ds in
        let* ds := multiply_diagonal 0 diagonal_products (Py.Float Py.one) steps in
        let '(determinant, steps) := ds in
        if Nat.eqb (row_swaps mod 2) 1 then
          let* determinant := Py.neg determinant in
          let steps := steps ++ [LSignChange row_swaps] in
          let* magnitude := Py.abs determinant in
          Ok (determinant, steps ++ [LFinalNegated magnitude determinant])
        else
          Ok (determinant,
              steps ++ [LNoSignChange row_swaps] ++ [LFinal determinant])
    end.

End DeterminantCalculator.


(** ** use_cases/calculate_determinant_use_case.py *)

Module CalculateDeterminantUseCase.

Definition execute (matrix_data : list item)
    : result (Py.value * list line) :=
  let* matrix := Matrix.__init__ matrix_data in
  DeterminantCalculator.calculate_with_steps matrix.

(** No operation inside the [try] block can raise on a list of rows, so
    the [except] branch is not reached. *)
Definition validate_matrix_data (matrix_data : list item) : bool * string :=
  match matrix_data with
  | [] => (false, msg_empty)
  | first :: _ =>
      if negb (forallb is_list matrix_data) then (false, msg_rows_lists)
      else if negb (forallb (fun row => Nat.eqb (len row) (len first)) matrix_data)
      then (false, msg_same_length)
      else if negb (forallb Py.is_number (concat (map cells matrix_data)))
      then (false, msg_numbers)
      else if negb (Nat.eqb (length matrix_data) (len first))
      then (false, msg_not_square)
      else (true, EmptyString)
  end.

End CalculateDeterminantUseCase.

(** * Properties *)

(** ** The error monad and the loops *)

Lemma bind_Ok {A B : Type} (m : result A) (k : A -> result B) (b : B) :
  bind m k = Ok b -> exists a, m = Ok a /\ k a = Ok b.
Proof. destruct m as [a|e]; simpl; [eauto | discriminate]. Qed.

Lemma bind_Raise {A B : Type} (m : result A) (k : A -> result B) (e : exn) :
  bind m k = Raise e -> m = Raise e \/ exists a, m = Ok a /\ k a = Raise e.
Proof. destruct m as [a|e']; simpl; [eauto | intros [= ->]; auto]. Qed.

(** [raises P m]: an exception raised by [m] satisfies [P]. *)
Definition raises {A : Type} (P : exn -> Prop) (m : result A) : Prop :=
  match m with Ok _ => True | Raise e => P e end.

Lemma raises_bind {A B : Type} (P : exn -> Prop) (m : result A) (k : A -> result B) :
  raises P m -> (forall a, m = Ok a -> raises P (k a)) -> raises P (bind m k).
Proof. destruct m; simpl; auto. Qed.

Lemma raises_for_each {S : Type} (P : exn -> Prop) (body : nat -> S -> result S) xs :
  (forall x s, raises P (body x s)) -> forall s, raises P (for_each xs body s).
Proof.
  intros Hb. induction xs as [|x xs IH]; intros s; simpl; [exact Logic.I|].
  apply raises_bind; auto.
Qed.

Lemma raises_for_ {S R : Type} (P : exn -> Prop)
    (body : nat -> S -> result (ctl S R)) xs :
  (forall x s, raises P (body x s)) -> forall s, raises P (for_ xs body s).
Proof.
  intros Hb. induction xs as [|x xs IH]; intros s; simpl; [exact Logic.I|].
  apply raises_bind; auto. intros [s'|r] _; simpl; auto.
Qed.

(** The exceptions that the arithmetic, the indexing and the rendering of
    the calculator can raise: never a [ValueError] about the shape. *)
Definition runtime_error (e : exn) : Prop :=
  match e with
  | ValueError msg => msg = msg_format
  | _ => True
  end.

Lemma runtime_error_not_square e : runtime_error e -> ~ NotSquareError e.
Proof. intros H ->. discriminate H. Qed.

Create HintDb raises discriminated.

Ltac raises_step :=
  first
    [ exact Logic.I
    | solve [auto with raises]
    | apply raises_bind; [| intros ? _]
    | apply raises_for_each; intros
    | apply raises_for_; intros
    | match goal with
      | |- raises _ (match ?x with _ => _ end) => destruct x
      end
    | progress simpl ].

Ltac raises_tac := repeat raises_step.

Section Raises.

Import DeterminantCalculator.

Lemma raises_getitem {A : Type} (l : list A) i : raises runtime_error (getitem l i).
Proof. unfold getitem. destruct (l !! i); exact Logic.I. Qed.

Lemma raises_setitem {A : Type} (l : list A) i x :
  raises runtime_error (setitem l i x).
Proof. unfold setitem. case_decide; exact Logic.I. Qed.

Lemma raises_float_of_int z : raises runtime_error (Py.float_of_int z).
Proof. unfold Py.float_of_int. destruct (Py.is_infinite _); exact Logic.I. Qed.

Lemma raises_to_float v : raises runtime_error (Py.to_float v).
Proof. destruct v; simpl; auto using raises_float_of_int. Qed.

Lemma raises_format_f v : raises runtime_error (format_f v).
Proof. destruct v; simpl; auto using raises_float_of_int. Qed.

Lemma raises_abs v : raises runtime_error (Py.abs v).
Proof. destruct v; exact Logic.I. Qed.

Lemma raises_neg v : raises runtime_error (Py.neg v).
Proof. destruct v; exact Logic.I. Qed.

Lemma raises_compare a b : raises runtime_error (Py.compare a b).
Proof. destruct a, b; exact Logic.I. Qed.

Hint Resolve raises_getitem raises_setitem raises_float_of_int raises_to_float
  raises_format_f raises_abs raises_neg raises_compare : raises.

Lemma raises_lt a b : raises runtime_error (Py.lt a b).
Proof. unfold Py.lt. raises_tac. Qed.

Lemma raises_gt a b : raises runtime_error (Py.gt a b).
Proof. unfold Py.gt. raises_tac. Qed.

Lemma raises_int_truediv a b : raises runtime_error (Py.int_truediv a b).
Proof.
  unfold Py.int_truediv. destruct (b =? 0); [exact Logic.I|].
  destruct (a =? 0); [exact Logic.I|].
  destruct (SFdiv_core_binary _ _ _ _ _ _) as [[q e] l].
  destruct (Py.is_infinite _); exact Logic.I.
Qed.

Hint Resolve raises_lt raises_gt raises_int_truediv : raises.

Lemma raises_truediv a b : raises runtime_error (Py.truediv a b).
Proof. destruct a, b; unfold Py.truediv; raises_tac. Qed.

Lemma raises_mul a b : raises runtime_error (Py.mul a b).
Proof. destruct a, b; unfold Py.mul; raises_tac. Qed.

Lemma raises_sub a b : raises runtime_error (Py.sub a b).
Proof. destruct a, b; unfold Py.sub; raises_tac. Qed.

Hint Resolve raises_truediv raises_mul raises_sub : raises.

Lemma raises_cell g k j : raises runtime_error (cell g k j).
Proof. unfold cell. raises_tac. Qed.

Lemma raises_set_cell g k j x : raises runtime_error (set_cell g k j x).
Proof. unfold set_cell. raises_tac. Qed.

Hint Resolve raises_cell raises_set_cell : raises.

Lemma raises_find_max_row g i n : raises runtime_error (find_max_row g i n).
Proof. unfold find_max_row. raises_tac. Qed.

Lemma raises_swap_rows g i r : raises runtime_error (swap_rows g i r).
Proof. unfold swap_rows. raises_tac. Qed.

Lemma raises_pivot_is_zero g i : raises runtime_error (pivot_is_zero g i).
Proof. unfold pivot_is_zero. raises_tac. Qed.

Lemma raises_to_eliminate g k i : raises runtime_error (to_eliminate g k i).
Proof. unfold to_eliminate. raises_tac. Qed.

Lemma raises_get_factor g k i : raises runtime_error (get_factor g k i).
Proof. unfold get_factor. raises_tac. Qed.

Lemma raises_update_cell g i k j f : raises runtime_error (update_cell g i k j f).
Proof. unfold update_cell. raises_tac. Qed.

Hint Resolve raises_find_max_row raises_swap_rows raises_pivot_is_zero
  raises_to_eliminate raises_get_factor raises_update_cell : raises.

Lemma raises_select_pivot n i st : raises runtime_error (select_pivot n i st).
Proof. unfold select_pivot. destruct st. raises_tac. Qed.

Hint Resolve raises_select_pivot : raises.

Lemma raises_column_step n i st : raises runtime_error (column_step n i st).
Proof. unfold column_step. raises_tac. Qed.

Lemma raises_diagonal_product g n : raises runtime_error (diagonal_product g n).
Proof. unfold diagonal_product. raises_tac. Qed.

Lemma raises_format_row row : raises runtime_error (format_row row).
Proof. induction row; simpl; raises_tac. Qed.

Hint Resolve raises_column_step raises_diagonal_product raises_format_row : raises.

Lemma raises_add_matrix g : forall steps,
  raises runtime_error (_add_matrix_to_steps steps g).
Proof. induction g; intros; simpl; raises_tac. Qed.

Hint Resolve raises_add_matrix : raises.

Lemma raises_eliminate_row_steps i n k f g steps :
  raises runtime_error (eliminate_row_steps i n k f g steps).
Proof. unfold eliminate_row_steps. raises_tac. Qed.

Hint Resolve raises_eliminate_row_steps : raises.

Lemma raises_select_pivot_steps n i st :
  raises runtime_error (select_pivot_steps n i st).
Proof. unfold select_pivot_steps. destruct st as [[g s] t]. raises_tac. Qed.

Hint Resolve raises_select_pivot_steps : raises.

Lemma raises_column_step_steps n i st :
  raises runtime_error (column_step_steps n i st).
Proof. unfold column_step_steps. raises_tac. Qed.

Lemma raises_collect_diagonal g n steps :
  raises runtime_error (collect_diagonal g n steps).
Proof. unfold collect_diagonal. raises_tac. Qed.

Lemma raises_multiply_diagonal ds : forall i d steps,
  raises runtime_error (multiply_diagonal i ds d steps).
Proof. induction ds; intros; simpl; raises_tac. Qed.

Hint Resolve raises_column_step_steps raises_collect_diagonal
  raises_multiply_diagonal : raises.

Lemma raises_calculate_square m :
  Matrix.is_square m = true -> raises runtime_error (calculate m).
Proof. unfold calculate. intros ->. simpl. raises_tac. Qed.

Lemma raises_calculate_with_steps_square m :
  Matrix.is_square m = true -> raises runtime_error (calculate_with_steps m).
Proof. unfold calculate_with_steps. intros ->. simpl. raises_tac. Qed.

End Raises.

(** ** Non-square input *)

(** C4: [calculate] and [calculate_with_steps] each raise the not-square
    error exactly on the matrices that are not square, and then the
    [ValueError] is all that comes back: no number and no trace. *)
Theorem not_square_error_iff (m : Matrix.t) :
  ((exists e, DeterminantCalculator.calculate m = Raise e /\ NotSquareError e)
     <-> Matrix.is_square m = false) /\
  ((exists e, DeterminantCalculator.calculate_with_steps m = Raise e /\ NotSquareError e)
     <-> Matrix.is_square m = false) /\
  (Matrix.is_square m = false ->
     DeterminantCalculator.calculate m = Raise (ValueError msg_not_square) /\
     DeterminantCalculator.calculate_with_steps m = Raise (ValueError msg_not_square)).
Proof.
  assert (Hns : Matrix.is_square m = false ->
     DeterminantCalculator.calculate m = Raise (ValueError msg_not_square) /\
     DeterminantCalculator.calculate_with_steps m = Raise (ValueError msg_not_square)).
  { intros H. unfold DeterminantCalculator.calculate,
      DeterminantCalculator.calculate_with_steps. rewrite H. auto. }
  split; [|split]; [| |exact Hns].
  - split.
    + intros (e & He & Hn). destruct (Matrix.is_square m) eqn:Hsq; [|reflexivity].
      pose proof (raises_calculate_square m Hsq) as Hr. rewrite He in Hr.
      exfalso. exact (runtime_error_not_square e Hr Hn).
    + intros H. exists (ValueError msg_not_square). split; [apply Hns, H | reflexivity].
  - split.
    + intros (e & He & Hn). destruct (Matrix.is_square m) eqn:Hsq; [|reflexivity].
      pose proof (raises_calculate_with_steps_square m Hsq) as Hr. rewrite He in Hr.
      exfalso. exact (runtime_error_not_square e Hr Hn).
    + intros H. exists (ValueError msg_not_square). split; [apply Hns, H | reflexivity].
Qed.

(** ** Construction and validation *)

Definition shape_bad (data : list item) : Prop :=
  data = [] \/
  (exists row, In row data /\ is_list row = false) \/
  (exists row row', In row data /\ In row' data /\ len row <> len row').

Definition element_bad (data : list item) : Prop :=
  exists row element,
    In row data /\ In element (cells row) /\ Py.is_number element = false.

Definition first_len (data : list item) : nat :=
  match data with first :: _ => len first | [] => O end.

Lemma forallb_false_ex {A : Type} (f : A -> bool) (l : list A) :
  forallb f l = false <-> exists x, In x l /\ f x = false.
Proof.
  induction l as [|a l IH]; simpl.
  - split; [discriminate | intros (x & [] & _)].
  - rewrite andb_false_iff, IH. split.
    + intros [H|(x & Hx & Hf)]; eauto.
    + intros (x & [->|Hx] & Hf); eauto.
Qed.

Lemma same_length_spec (data : list item) (first : item) :
  In first data ->
  forallb (fun row => Nat.eqb (len row) (len first)) data = false <->
  exists row row', In row data /\ In row' data /\ len row <> len row'.
Proof.
  intros Hin. rewrite forallb_false_ex. split.
  - intros (x & Hx & Hf). apply Nat.eqb_neq in Hf. eauto.
  - intros (r & r' & Hr & Hr' & Hne).
    destruct (Nat.eq_dec (len r) (len first)) as [E|E].
    + exists r'. split; [assumption|]. apply Nat.eqb_neq. congruence.
    + exists r. split; [assumption|]. apply Nat.eqb_neq. assumption.
Qed.

Lemma numbers_spec (data : list item) :
  forallb Py.is_number (concat (map cells data)) = false <-> element_bad data.
Proof.
  rewrite forallb_false_ex. unfold element_bad. split.
  - intros (x & Hx & Hf). apply in_concat in Hx as (l & Hl & Hxl).
    apply in_map_iff in Hl as (row & <- & Hrow). eauto.
  - intros (row & x & Hrow & Hx & Hf). exists x. split; [|assumption].
    apply in_concat. exists (cells row). split; [|assumption].
    apply in_map. assumption.
Qed.

(** The outcome of the validation, case by case. *)
Lemma validate_matrix_cases (data : list item) :
  (shape_bad data /\ exists e, Matrix._validate_matrix data = Raise e /\ InvalidShapeError e) \/
  (~ shape_bad data /\ element_bad data /\
     Matrix._validate_matrix data = Raise (ValueError msg_numbers)) \/
  (~ shape_bad data /\ ~ element_bad data /\ Matrix._validate_matrix data = Ok tt).
Proof.
  unfold Matrix._validate_matrix. destruct data as [|first rest].
  { left. split; [left; reflexivity|]. eexists; split; [reflexivity|]. left; reflexivity. }
  set (data := first :: rest).
  assert (Hin : In first data) by (left; reflexivity).
  destruct (forallb is_list data) eqn:H1; cbn [negb].
  2:{ left. split.
      - right; left. apply forallb_false_ex. exact H1.
      - eexists; split; [reflexivity|]. right; left; reflexivity. }
  destruct (forallb (fun row => Nat.eqb (len row) (len first)) data) eqn:H2; cbn [negb].
  2:{ left. split.
      - right; right. apply (same_length_spec data first Hin). exact H2.
      - eexists; split; [reflexivity|]. right; right; reflexivity. }
  assert (Hshape : ~ shape_bad data).
  { intros [H|[H|H]].
    - discriminate H.
    - apply forallb_false_ex in H. congruence.
    - apply (same_length_spec data first Hin) in H. congruence. }
  destruct (forallb Py.is_number (concat (map cells data))) eqn:H3; cbn [negb].
  - right; right. split; [assumption|]. split; [|reflexivity].
    intros H. apply numbers_spec in H. congruence.
  - right; left. split; [assumption|]. split; [|reflexivity].
    apply numbers_spec. exact H3.
Qed.

(** The outcome of the constructor by the shape and the elements of the
    data. *)
Lemma constructor_cases (data : list item) :
  (shape_bad data ->
     exists e, Matrix.__init__ data = Raise e /\ InvalidShapeError e) /\
  (~ shape_bad data -> element_bad data ->
     exists e, Matrix.__init__ data = Raise e /\ InvalidElementError e) /\
  (~ shape_bad data -> ~ element_bad data ->
     exists m, Matrix.__init__ data = Ok m /\
       Matrix._data m = map cells data /\
       Matrix.rows m = length data /\
       Matrix.cols m = first_len data).
Proof.
  unfold Matrix.__init__.
  destruct (validate_matrix_cases data)
    as [(Hs & e & He & Hk) | [(Hs & Hb & He) | (Hs & Hb & He)]];
    rewrite He; simpl.
  - split; [|split]; [eauto | tauto | tauto].
  - split; [|split]; [tauto | | tauto].
    intros _ _. eexists; split; reflexivity.
  - split; [|split]; [tauto | tauto |].
    intros _ _. eexists; split; [reflexivity|]. auto.
Qed.

Lemma init_Ok_inv (data : list item) (m : Matrix.t) :
  Matrix.__init__ data = Ok m ->
  ~ shape_bad data /\ ~ element_bad data /\
  m = Matrix.mk (map cells data) (length data) (first_len data).
Proof.
  unfold Matrix.__init__.
  destruct (validate_matrix_cases data)
    as [(Hs & e & He & Hk) | [(Hs & Hb & He) | (Hs & Hb & He)]];
    rewrite He; simpl; try discriminate.
  intros [= <-]. auto.
Qed.

(** C9: the validation entry point builds no Matrix, answers [True]
    exactly when the constructor accepts the data and the matrix is
    square, and otherwise gives the message of the error that the
    calculation would end with. *)
Theorem validate_matrix_data_agrees (data : list item) :
  (fst (CalculateDeterminantUseCase.validate_matrix_data data) = true <->
     exists m, Matrix.__init__ data = Ok m /\ Matrix.is_square m = true) /\
  (fst (CalculateDeterminantUseCase.validate_matrix_data data) = true ->
     snd (CalculateDeterminantUseCase.validate_matrix_data data) = EmptyString) /\
  (forall msg,
     CalculateDeterminantUseCase.validate_matrix_data data = (false, msg) ->
     CalculateDeterminantUseCase.execute data = Raise (ValueError msg)).
Proof.
  unfold CalculateDeterminantUseCase.validate_matrix_data,
    CalculateDeterminantUseCase.execute, Matrix.__init__, Matrix._validate_matrix.
  destruct data as [|first rest].
  { simpl. split; [|split].
    - split; [discriminate | intros (m & H & _); discriminate H].
    - discriminate.
    - intros msg [= <-]. reflexivity. }
  set (data := first :: rest).
  destruct (forallb is_list data); cbn [negb].
  2:{ simpl. split; [|split].
      - split; [discriminate | intros (m & H & _); discriminate H].
      - discriminate.
      - intros msg [= <-]. reflexivity. }
  destruct (forallb (fun row => Nat.eqb (len row) (len first)) data); cbn [negb].
  2:{ simpl. split; [|split].
      - split; [discriminate | intros (m & H & _); discriminate H].
      - discriminate.
      - intros msg [= <-]. reflexivity. }
  destruct (forallb Py.is_number (concat (map cells data))); cbn [negb].
  2:{ simpl. split; [|split].
      - split; [discriminate | intros (m & H & _); discriminate H].
      - discriminate.
      - intros msg [= <-]. reflexivity. }
  cbn [bind].
  destruct (Nat.eqb (length data) (len first)) eqn:Hsq; cbn [negb fst snd].
  - split; [|split].
    + split; [|reflexivity]. intros _. eexists; split; [reflexivity|].
      unfold Matrix.is_square; cbn [Matrix._rows Matrix._cols]. exact Hsq.
    + reflexivity.
    + discriminate.
  - split; [|split].
    + split; [discriminate|]. intros (m & [= <-] & H).
      unfold Matrix.is_square in H; cbn [Matrix._rows Matrix._cols] in H.
      change (Nat.eqb (length data) (len first) = true) in H. congruence.
    + discriminate.
    + intros msg [= <-]. unfold DeterminantCalculator.calculate_with_steps,
        Matrix.is_square; cbn [Matrix._rows Matrix._cols]. rewrite Hsq. reflexivity.
Qed.

(** ** The invariant of a Matrix *)

(** The row and column counts describe the store. *)
Definition shaped (m : Matrix.t) : Prop :=
  Matrix._rows m = length (Matrix._data m) /\
  Forall (fun row => length row = Matrix._cols m) (Matrix._data m).

(** Every stored element is an [int] or a [float]. *)
Definition numeric (m : Matrix.t) : Prop :=
  Forall (Forall (fun x => Py.is_number x = true)) (Matrix._data m).

Definition invariant (m : Matrix.t) : Prop :=
  (1 <= Matrix._rows m)%nat /\ shaped m /\ numeric m.

(** A finite real number: an [int], or a [float] that is neither an
    infinity nor a NaN. *)
Definition finite_number (x : Py.value) : bool :=
  match x with
  | Py.Int _ => true
  | Py.Float f => Py.is_finite f
  | Py.Str _ => false
  end.

(** The invariant as the data model words it. *)
Definition claimed_invariant (m : Matrix.t) : Prop :=
  (1 <= Matrix._rows m)%nat /\ (1 <= Matrix._cols m)%nat /\
  Forall (fun row => length row = Matrix._cols m) (Matrix._data m) /\
  Forall (Forall (fun x => finite_number x = true)) (Matrix._data m).

Lemma init_invariant (data : list item) (m : Matrix.t) :
  Matrix.__init__ data = Ok m -> invariant m.
Proof.
  intros H. apply init_Ok_inv in H as (Hs & Hb & ->).
  unfold invariant, shaped, numeric; cbn [Matrix._rows Matrix._cols Matrix._data].
  destruct data as [|first rest].
  { exfalso. apply Hs. left. reflexivity. }
  split; [simpl; lia|]. split; [split|].
  - rewrite length_map. reflexivity.
  - apply Forall_forall. intros row Hrow.
    apply list_elem_of_In, in_map_iff in Hrow as (it & <- & Hit).
    destruct (Nat.eq_dec (length (cells it)) (first_len (first :: rest))) as [E|E];
      [exact E|].
    exfalso. apply Hs. right; right. exists it, first.
    split; [assumption|]. split; [left; reflexivity | exact E].
  - apply Forall_forall. intros row Hrow.
    apply list_elem_of_In, in_map_iff in Hrow as (it & <- & Hit).
    apply Forall_forall. intros x Hx. apply list_elem_of_In in Hx.
    destruct (Py.is_number x) eqn:E; [reflexivity|].
    exfalso. apply Hb. exists it, x. auto.
Qed.

Lemma get_submatrix_invariant (m m' : Matrix.t) (exclude_row exclude_col : Z) :
  Matrix.get_submatrix m exclude_row exclude_col = Ok m' -> invariant m'.
Proof.
  unfold Matrix.get_submatrix.
  destruct (negb (Matrix.in_bounds m exclude_row exclude_col)); [discriminate|].
  intros H. apply bind_Ok in H as (d & _ & H). exact (init_invariant _ _ H).
Qed.

Lemma set_element_shaped (m m' : Matrix.t) (row col : Z) (value : Py.value)
    (out : result unit) :
  Matrix.set_element m row col value = (m', out) ->
  (Matrix._rows m' = Matrix._rows m /\ Matrix._cols m' = Matrix._cols m) /\
  map length (Matrix._data m') = map length (Matrix._data m) /\
  (shaped m -> shaped m') /\
  (Py.is_number value = true -> numeric m -> numeric m').
Proof.
  unfold Matrix.set_element.
  destruct (negb (Matrix.in_bounds m row col)); [intros [= <- _]; auto|].
  unfold getitem. destruct (Matrix._data m !! Z.to_nat row) as [r|] eqn:Hrow;
    cbn [bind]; [|intros [= <- _]; auto].
  unfold setitem. case_decide; cbn [bind]; [|intros [= <- _]; auto].
  case_decide; [|intros [= <- _]; auto].
  intros [= <- _]. unfold shaped, numeric; cbn [Matrix._rows Matrix._cols Matrix._data].
  assert (Hlen : map length (<[Z.to_nat row:=<[Z.to_nat col:=value]> r]> (Matrix._data m))
                 = map length (Matrix._data m)).
  { change (map length) with (fmap (M := list) (length (A := Py.value))).
    rewrite list_fmap_insert, length_insert. apply list_insert_id.
    rewrite list_lookup_fmap, Hrow. reflexivity. }
  split; [auto|]. split; [exact Hlen|]. split.
  - intros [Hn Hall]. split; [rewrite length_insert; exact Hn|].
    apply Forall_insert; [exact Hall|]. rewrite length_insert.
    exact (proj1 (Forall_lookup _ _) Hall _ _ Hrow).
  - intros Hv Hall. apply Forall_insert; [exact Hall|].
    apply Forall_insert; [|exact Hv].
    exact (proj1 (Forall_lookup _ _) Hall _ _ Hrow).
Qed.

(** C7, as the code has it: a Matrix that the constructor or the
    submatrix extraction returns has at least one row, rows of exactly
    [cols] elements, and only [int] and [float] elements (an infinity or
    a NaN among them is accepted); [set_element], however the call ends,
    leaves the row count, the column count and the length of every row
    as they were, and keeps the elements numbers, and with them the
    invariant, when it is given a number. *)
Theorem matrix_invariant :
  (forall data m, Matrix.__init__ data = Ok m -> invariant m) /\
  (forall m r c m', Matrix.get_submatrix m r c = Ok m' -> invariant m') /\
  (forall m r c v m' out, Matrix.set_element m r c v = (m', out) ->
     Matrix.rows m' = Matrix.rows m /\ Matrix.cols m' = Matrix.cols m /\
     map length (Matrix._data m') = map length (Matrix._data m) /\
     (Py.is_number v = true -> numeric m -> numeric m') /\
     (Py.is_number v = true -> invariant m -> invariant m')).
Proof.
  split; [exact init_invariant|]. split.
  { intros m r c m' H. exact (get_submatrix_invariant _ _ _ _ H). }
  intros m r c v m' out H.
  destruct (set_element_shaped _ _ _ _ _ _ H) as ((Er & Ec) & Hlen & Hs' & Hn').
  split; [exact Er|]. split; [exact Ec|]. split; [exact Hlen|].
  split; [exact Hn'|].
  intros Hv (Hr & Hs & Hn).
  split; [rewrite Er; exact Hr|]. split; [exact (Hs' Hs) | exact (Hn' Hv Hn)].
Qed.

(** The constructor accepts an infinity, which is no finite real number. *)
Lemma claimed_invariant_fails :
  exists m, Matrix.__init__ [Row [Py.Float (S754_infinity false)]] = Ok m /\
            ~ claimed_invariant m.
Proof.
  eexists. split; [reflexivity|].
  intros (_ & _ & _ & H). cbn [Matrix._data] in H.
  apply Forall_cons_1 in H as [H _]. apply Forall_cons_1 in H as [H _].
  discriminate H.
Qed.

(** ** The singular short-circuit *)





Definition unwrap {A : Type} (d : A) (r : result A) : A :=
  match r with Ok a => a | Raise _ => d end.


(** ** The two code paths *)

(** Simulation of one loop by another: whenever the second succeeds from
    related variables, so does the first, and the results are related. *)
Lemma for_each_sim {S T : Type} (R : S -> T -> Prop)
    (b1 : nat -> S -> result S) (b2 : nat -> T -> result T) (xs : list nat) :
  (forall x s t t', R s t -> b2 x t = Ok t' -> exists s', b1 x s = Ok s' /\ R s' t') ->
  forall s t t', R s t -> for_each xs b2 t = Ok t' ->
    exists s', for_each xs b1 s = Ok s' /\ R s' t'.
Proof.
  intros Hb. induction xs as [|x xs IH]; intros s t t' HR H; simpl in *.
  - injection H as <-. eauto.
  - apply bind_Ok in H as (t1 & H1 & H2).
    destruct (Hb x s t t1 HR H1) as (s1 & -> & HR1). simpl. eauto.
Qed.

Definition ctl_rel {S T R Q : Type} (RS : S -> T -> Prop) (RR : R -> Q -> Prop)
    (c : ctl S R) (d : ctl T Q) : Prop :=
  match c, d with
  | Next s, Next t => RS s t
  | Return r, Return q => RR r q
  | _, _ => False
  end.

Lemma for__sim {S T R Q : Type} (RS : S -> T -> Prop) (RR : R -> Q -> Prop)
    (b1 : nat -> S -> result (ctl S R)) (b2 : nat -> T -> result (ctl T Q))
    (xs : list nat) :
  (forall x s t d, RS s t -> b2 x t = Ok d ->
     exists c, b1 x s = Ok c /\ ctl_rel RS RR c d) ->
  forall s t d, RS s t -> for_ xs b2 t = Ok d ->
    exists c, for_ xs b1 s = Ok c /\ ctl_rel RS RR c d.
Proof.
  intros Hb. induction xs as [|x xs IH]; intros s t d HR H; simpl in *.
  - injection H as <-. exists (Next s). auto.
  - apply bind_Ok in H as (d1 & H1 & H2).
    destruct (Hb x s t d1 HR H1) as (c1 & -> & HR1). simpl.
    destruct c1 as [s1|r1], d1 as [t1|q1]; simpl in HR1; try contradiction.
    + eauto.
    + injection H2 as <-. exists (Return r1). auto.
Qed.

Section Agreement.

Import DeterminantCalculator.

(** The variables of [calculate_with_steps] without the trace. *)
Definition erase (st : state_steps) : state := (fst (fst st), snd (fst st)).

Lemma select_pivot_erase n i st st' :
  select_pivot_steps n i st = Ok st' ->
  select_pivot n i (erase st) = Ok (erase st').
Proof.
  destruct st as [[g rs] steps]. unfold select_pivot_steps, select_pivot, erase.
  cbn [fst snd]. intros H. apply bind_Ok in H as (r & -> & H). cbn [bind].
  destruct (negb (Nat.eqb r i)).
  - apply bind_Ok in H as (g' & -> & H). cbn [bind].
    apply bind_Ok in H as (steps' & _ & [= <-]). reflexivity.
  - injection H as <-. reflexivity.
Qed.

Lemma eliminate_row_erase i n k factor g steps g' steps' :
  eliminate_row_steps i n k factor g steps = Ok (g', steps') ->
  for_each (range i n) (fun j g => update_cell g i k j factor) g = Ok g'.
Proof.
  unfold eliminate_row_steps. intros H.
  destruct (for_each_sim (fun (a : grid) (b : grid * list line) => a = fst b)
              (fun j g => update_cell g i k j factor)
              (fun j '(matrix_data, steps) =>
                 let* old_value := cell matrix_data k j in
                 let* matrix_data := update_cell matrix_data i k j factor in
                 if Nat.eqb j i then
                   let* f := format_f factor in
                   Ok (matrix_data, steps ++ [LRowOp (k + 1) f (i + 1)])
                 else Ok (matrix_data, steps))
              (range i n)) with (s := g) (t := (g, steps)) (t' := (g', steps'))
    as (s' & Hs & E); auto.
  - intros x s [t1 t2] [u1 u2] -> Hx. cbn [fst] in *.
    apply bind_Ok in Hx as (old & _ & Hx). apply bind_Ok in Hx as (g1 & -> & Hx).
    exists g1. split; [reflexivity|]. destruct (Nat.eqb x i).
    + apply bind_Ok in Hx as (f & _ & [= <- _]). reflexivity.
    + injection Hx as <- _. reflexivity.
  - rewrite Hs. cbn [fst] in E. congruence.
Qed.

Lemma column_step_erase n i st d :
  column_step_steps n i st = Ok d ->
  exists c, column_step n i (erase st) = Ok c /\
    ctl_rel (fun s t => s = erase t) (fun r q => r = fst q) c d.
Proof.
  unfold column_step_steps, column_step. intros H.
  apply bind_Ok in H as (st1 & Hsel & H).
  rewrite (select_pivot_erase _ _ _ _ Hsel). cbn [bind].
  destruct st1 as [[g rs] steps]. unfold erase at 1. cbn [fst snd].
  apply bind_Ok in H as (sing & -> & H). cbn [bind]. destruct sing.
  - injection H as <-. eexists. split; [reflexivity|]. reflexivity.
  - apply bind_Ok in H as (p & _ & H). apply bind_Ok in H as ([g' steps'] & Hloop & H).
    injection H as <-.
    eapply (for_each_sim (fun (a : grid) (b : grid * list line) => a = fst b)
              (fun k matrix_data =>
                 let* c := to_eliminate matrix_data k i in
                 if c then
                   let* factor := get_factor matrix_data k i in
                   for_each (range i n) (fun j matrix_data =>
                     update_cell matrix_data i k j factor) matrix_data
                 else Ok matrix_data)) with (s := g) in Hloop as (s' & Hs & E);
      [ | | reflexivity].
    { rewrite Hs. cbn [bind fst] in *. subst s'.
      eexists. split; [reflexivity|]. reflexivity. }
    intros x s [t1 t2] [u1 u2] -> Hx. cbn [fst] in *.
    apply bind_Ok in Hx as (c & -> & Hx). cbn [bind]. destruct c.
      * apply bind_Ok in Hx as (factor & -> & Hx). cbn [bind].
        apply bind_Ok in Hx as (a & _ & Hx). apply bind_Ok in Hx as (p' & _ & Hx).
        apply bind_Ok in Hx as (f & _ & Hx).
        apply bind_Ok in Hx as ([g1 s1] & Hrow & Hx).
        apply bind_Ok in Hx as (s2 & _ & [= <- _]).
        exists g1. split; [|reflexivity].
        exact (eliminate_row_erase _ _ _ _ _ _ _ _ Hrow).
      * injection Hx as <- _. eauto.
Qed.

(** The running product over a list of diagonal elements. *)
Fixpoint product (determinant : Py.value) (ds : list Py.value) : result Py.value :=
  match ds with
  | [] => Ok determinant
  | val :: rest => let* determinant := Py.mul determinant val in product determinant rest
  end.

Lemma multiply_diagonal_product ds : forall i d steps det steps',
  multiply_diagonal i ds d steps = Ok (det, steps') -> product d ds = Ok det.
Proof.
  induction ds as [|v ds IH]; intros i d steps det steps' H; simpl in *.
  - injection H as <- _. reflexivity.
  - apply bind_Ok in H as (d1 & -> & H). simpl. eauto.
Qed.

Lemma product_multiply_diagonal ds : forall i d steps det,
  product d ds = Ok det -> exists steps', multiply_diagonal i ds d steps = Ok (det, steps').
Proof.
  induction ds as [|v ds IH]; intros i d steps det H; simpl in *.
  - injection H as <-. eauto.
  - apply bind_Ok in H as (d1 & -> & H). simpl. eauto.
Qed.

Definition collect_body (g : grid) (i : nat) (acc : list Py.value * list line)
    : result (list Py.value * list line) :=
  let '(diagonal_products, steps) := acc in
  let* d := cell g i i in
  let* d' := cell g i i in
  Ok (diagonal_products ++ [d], steps ++ [LDiagonal (i + 1) d']).

Definition product_body (g : grid) (i : nat) (determinant : Py.value)
    : result Py.value :=
  let* d := cell g i i in Py.mul determinant d.

Lemma collect_product g xs : forall acc steps ds steps',
  for_each xs (collect_body g) (acc, steps) = Ok (ds, steps') ->
  exists ds0, ds = acc ++ ds0 /\
    forall d0, for_each xs (product_body g) d0 = product d0 ds0.
Proof.
  induction xs as [|x xs IH]; intros acc steps ds steps' H; simpl in *.
  - injection H as <- _. exists []. rewrite app_nil_r. auto.
  - apply bind_Ok in H as ([acc1 steps1] & H1 & H).
    unfold collect_body in H1. apply bind_Ok in H1 as (d & Hd & H1).
    rewrite Hd in H1. cbn [bind] in H1. injection H1 as <- <-.
    destruct (IH _ _ _ _ H) as (ds0 & -> & Hp). exists (d :: ds0).
    split; [rewrite <- app_assoc; reflexivity|].
    intros d0. unfold product_body at 1. rewrite Hd. cbn [bind product].
    destruct (Py.mul d0 d); simpl; auto.
Qed.

Lemma product_collect g xs : forall d0 det acc steps,
  for_each xs (product_body g) d0 = Ok det ->
  exists (ds0 : list Py.value) steps',
    for_each xs (collect_body g) (acc, steps) = Ok (acc ++ ds0, steps') /\
    product d0 ds0 = Ok det.
Proof.
  induction xs as [|x xs IH]; intros d0 det acc steps H; cbn [for_each] in *.
  - injection H as <-. exists [], steps. rewrite app_nil_r. auto.
  - apply bind_Ok in H as (d1 & H1 & H).
    unfold product_body in H1. apply bind_Ok in H1 as (d & Hd & H1).
    destruct (IH _ _ (acc ++ [d]) (steps ++ [LDiagonal (x + 1) d]) H)
      as (ds0 & steps' & Hc & Hp).
    exists (d :: ds0), steps'. split.
    + assert (E : collect_body g x (acc, steps)
                  = Ok (acc ++ [d], steps ++ [LDiagonal (x + 1) d]))
        by (unfold collect_body; rewrite Hd; reflexivity).
      rewrite E. cbn [bind]. rewrite Hc.
      rewrite <- app_assoc. reflexivity.
    + cbn [product]. rewrite H1. exact Hp.
Qed.

(** Whenever [calculate_with_steps] returns, [calculate] returns the
    same number. *)
Lemma calculate_of_steps m d t :
  calculate_with_steps m = Ok (d, t) -> calculate m = Ok d.
Proof.
  unfold calculate_with_steps, calculate.
  destruct (negb (Matrix.is_square m)); [discriminate|].
  rewrite (map_id (Matrix.to_list m)). cbn [app].
  intros H. apply bind_Ok in H as (steps0 & _ & H).
  apply bind_Ok in H as (c & Hloop & H).
  eapply (for__sim (fun s t => s = erase t) (fun (r : Py.value) q => r = fst q)
            (column_step (Matrix.rows m))) with (s := (Matrix.to_list m, O))
    in Hloop as (c' & Hc' & Hrel).
  - rewrite Hc'. cbn [bind].
    destruct c' as [[g rs]|r], c as [[[g1 rs1] steps1]|[r1 t1]];
      simpl in Hrel; try contradiction.
    + injection Hrel as -> ->.
      apply bind_Ok in H as (steps2 & _ & H).
      apply bind_Ok in H as ([ds steps3] & Hcol & H).
      apply bind_Ok in H as ([det steps4] & Hmul & H).
      apply (collect_product g1) in Hcol as (ds0 & -> & Hp).
      apply multiply_diagonal_product in Hmul.
      unfold diagonal_product. change (fun i determinant =>
        let* d := cell g1 i i in Py.mul determinant d) with (product_body g1).
      rewrite Hp. cbn [app] in Hmul. rewrite Hmul. cbn [bind].
      destruct (Nat.eqb (rs1 mod 2) 1).
      * apply bind_Ok in H as (det' & -> & H). apply bind_Ok in H as (mg & _ & H).
        congruence.
      * congruence.
    + subst r. congruence.
  - intros x s0 t0 d0 -> Hx. exact (column_step_erase _ _ _ _ Hx).
  - reflexivity.
Qed.

(** A value that the fixed-point format codes can render: a float, or an
    int within the range of binary64. *)
Definition renderable (v : Py.value) : Prop := is_ok (format_f v) = true.

Definition renderable_grid (g : grid) : Prop := Forall (Forall renderable) g.

Definition is_float (v : Py.value) : Prop :=
  match v with Py.Float _ => True | _ => False end.

Lemma is_float_renderable v : is_float v -> renderable v.
Proof. destruct v; simpl; try contradiction. reflexivity. Qed.

Lemma format_f_renderable v : renderable v -> exists f, format_f v = Ok f.
Proof. unfold renderable. destruct (format_f v); [eauto | discriminate]. Qed.

Lemma format_row_renderable row :
  Forall renderable row -> exists fs, format_row row = Ok fs.
Proof.
  induction 1 as [|v row Hv _ IH]; simpl; [eauto|].
  destruct (format_f_renderable v Hv) as (f & ->). destruct IH as (fs & ->).
  simpl. eauto.
Qed.

Lemma add_matrix_renderable g : forall steps,
  renderable_grid g -> exists steps', _add_matrix_to_steps steps g = Ok steps'.
Proof.
  induction g as [|row g IH]; intros steps H; simpl; [eauto|].
  apply Forall_cons_1 in H as [Hrow Hg].
  destruct (format_row_renderable row Hrow) as (fs & ->). simpl. auto.
Qed.

Lemma getitem_Ok {A : Type} (l : list A) i x : getitem l i = Ok x -> l !! i = Some x.
Proof. unfold getitem. destruct (l !! i); [congruence | discriminate]. Qed.

Lemma setitem_Ok {A : Type} (l l' : list A) i x :
  setitem l i x = Ok l' -> l' = <[i:=x]> l /\ (i < length l)%nat.
Proof. unfold setitem. case_decide; [intros [= <-]; auto | discriminate]. Qed.

Lemma set_cell_renderable g k j x g' :
  set_cell g k j x = Ok g' -> renderable x -> renderable_grid g -> renderable_grid g'.
Proof.
  unfold set_cell. intros H Hx Hg.
  apply bind_Ok in H as (r & Hr & H). apply bind_Ok in H as (r' & Hr' & H).
  apply getitem_Ok in Hr. apply setitem_Ok in Hr' as [-> _].
  apply setitem_Ok in H as [-> _].
  apply Forall_insert; [exact Hg|]. apply Forall_insert; [|exact Hx].
  exact (proj1 (Forall_lookup _ _) Hg _ _ Hr).
Qed.

Lemma swap_rows_renderable g i r g' :
  swap_rows g i r = Ok g' -> renderable_grid g -> renderable_grid g'.
Proof.
  unfold swap_rows. intros H Hg.
  apply bind_Ok in H as (a & Ha & H). apply bind_Ok in H as (b & Hb & H).
  apply bind_Ok in H as (g1 & H1 & H).
  apply getitem_Ok in Ha, Hb. apply setitem_Ok in H1 as [-> _].
  apply setitem_Ok in H as [-> _].
  apply Forall_insert; [apply Forall_insert; [exact Hg|]|].
  - exact (proj1 (Forall_lookup _ _) Hg _ _ Ha).
  - exact (proj1 (Forall_lookup _ _) Hg _ _ Hb).
Qed.

Lemma truediv_float a b v : Py.truediv a b = Ok v -> is_float v.
Proof.
  destruct a, b; unfold Py.truediv; intros H;
    repeat (apply bind_Ok in H as (? & _ & H));
    repeat match type of H with
           | (if ?c then _ else _) = _ => destruct c
           end; try discriminate; injection H as <-; exact Logic.I.
Qed.

Lemma mul_float a b v : is_float a -> Py.mul a b = Ok v -> is_float v.
Proof.
  destruct a; try contradiction. intros _. destruct b; unfold Py.mul; intros H;
    repeat (apply bind_Ok in H as (? & _ & H)); try discriminate;
    injection H as <-; exact Logic.I.
Qed.

Lemma sub_float a b v : is_float b -> Py.sub a b = Ok v -> is_float v.
Proof.
  destruct b; try contradiction. intros _. destruct a; unfold Py.sub; intros H;
    repeat (apply bind_Ok in H as (? & _ & H)); try discriminate;
    injection H as <-; exact Logic.I.
Qed.

Lemma update_cell_renderable g i k j factor g' :
  is_float factor -> update_cell g i k j factor = Ok g' ->
  renderable_grid g -> renderable_grid g'.
Proof.
  unfold update_cell. intros Hf H Hg.
  apply bind_Ok in H as (old & _ & H). apply bind_Ok in H as (p & _ & H).
  apply bind_Ok in H as (prod & Hm & H). apply bind_Ok in H as (new & Hs & H).
  apply (set_cell_renderable _ _ _ _ _ H); [|exact Hg].
  apply is_float_renderable. eapply sub_float; [|exact Hs].
  eapply mul_float; eauto.
Qed.

Lemma select_pivot_steps_of n i g rs g' rs' steps :
  select_pivot n i (g, rs) = Ok (g', rs') -> renderable_grid g ->
  exists steps',
    select_pivot_steps n i (g, rs, steps) = Ok (g', rs', steps') /\
    renderable_grid g'.
Proof.
  unfold select_pivot, select_pivot_steps. intros H Hg.
  apply bind_Ok in H as (r & -> & H). cbn [bind].
  destruct (negb (Nat.eqb r i)).
  - apply bind_Ok in H as (g1 & Hsw & [= <- <-]). rewrite Hsw. cbn [bind].
    pose proof (swap_rows_renderable _ _ _ _ Hsw Hg) as Hg1.
    destruct (add_matrix_renderable g1
                ((steps ++ [LStep (i + 1)]) ++ [LSwapped (i + 1) (r + 1) (S rs)]) Hg1)
      as (steps' & ->).
    cbn [bind]. eauto.
  - injection H as <- <-. eauto.
Qed.

Lemma eliminate_row_steps_of i n k factor g g' steps :
  for_each (range i n) (fun j g => update_cell g i k j factor) g = Ok g' ->
  is_float factor -> renderable_grid g ->
  exists steps',
    eliminate_row_steps i n k factor g steps = Ok (g', steps') /\
    renderable_grid g'.
Proof.
  intros H Hf Hg. unfold eliminate_row_steps.
  eapply (for_each_sim
            (fun (a : grid * list line) (b : grid) => fst a = b /\ renderable_grid b)
            (fun j '(matrix_data, steps) =>
               let* old_value := cell matrix_data k j in
               let* matrix_data := update_cell matrix_data i k j factor in
               if Nat.eqb j i then
                 let* f := format_f factor in
                 Ok (matrix_data, steps ++ [LRowOp (k + 1) f (i + 1)])
               else Ok (matrix_data, steps)))
    with (s := (g, steps)) in H as ([g1 steps1] & Hs & E & Hr).
  - cbn [fst] in E. subst g1. eauto.
  - intros x [s1 s2] t0 t1 [E Hr] Hx. cbn [fst] in E. subst t0.
    pose proof (update_cell_renderable _ _ _ _ _ _ Hf Hx Hr) as Hr1.
    pose proof Hx as Hx'. unfold update_cell in Hx'.
    apply bind_Ok in Hx' as (old & -> & _). cbn [bind]. rewrite Hx. cbn [bind].
    destruct (Nat.eqb x i).
    + destruct (format_f_renderable factor (is_float_renderable _ Hf)) as (f & ->).
      cbn [bind]. eexists. split; [reflexivity|]. auto.
    + eexists. split; [reflexivity|]. auto.
  - auto.
Qed.

Lemma column_step_steps_of n i g rs steps c :
  column_step n i (g, rs) = Ok c -> renderable_grid g ->
  exists d, column_step_steps n i (g, rs, steps) = Ok d /\
    ctl_rel (fun t s => erase t = s /\ renderable_grid (fst s))
            (fun (q : Py.value * list line) r => fst q = r) d c.
Proof.
  unfold column_step, column_step_steps. intros H Hg.
  match goal with
  | |- context [@for_each (grid * list line) (range (i + 1) n) ?b] => set (body := b)
  end.
  apply bind_Ok in H as ([g1 rs1] & Hsel & H).
  destruct (select_pivot_steps_of _ _ _ _ _ _ steps Hsel Hg) as (steps1 & -> & Hg1).
  cbn [bind]. apply bind_Ok in H as (sing & Hsing & H). rewrite Hsing. cbn [bind].
  destruct sing.
  - injection H as <-. eexists. split; [reflexivity|]. reflexivity.
  - pose proof Hsing as Hp. unfold pivot_is_zero in Hp.
    apply bind_Ok in Hp as (p & -> & _). cbn [bind].
    apply bind_Ok in H as (g2 & Hloop & [= <-]).
    eapply (for_each_sim
              (fun (a : grid * list line) (b : grid) => fst a = b /\ renderable_grid b)
              body)
      with (s := (g1, steps1 ++ [LPivot p])) in Hloop as ([g3 steps3] & Hs & E & Hr).
    + rewrite Hs. cbn [bind]. cbn [fst] in E. subst g3.
      eexists. split; [reflexivity|]. simpl. auto.
    + intros x [s1 s2] t0 t1 [E Hr] Hx. cbn [fst] in E. subst t0.
      unfold body.
      apply bind_Ok in Hx as (c0 & -> & Hx). cbn [bind]. destruct c0.
      * apply bind_Ok in Hx as (factor & Hfac & Hx). rewrite Hfac. cbn [bind].
        pose proof Hfac as Hf'. unfold get_factor in Hf'.
        apply bind_Ok in Hf' as (a & -> & Hf'). apply bind_Ok in Hf' as (p' & -> & Hf').
        cbn [bind]. apply truediv_float in Hf'.
        destruct (format_f_renderable factor (is_float_renderable _ Hf')) as (f & ->).
        cbn [bind].
        destruct (eliminate_row_steps_of _ _ _ _ _ _
                    (s2 ++ [LFactor (x + 1) a p' f]) Hx Hf' Hr) as (st' & -> & Hr').
        cbn [bind]. destruct (add_matrix_renderable t1 st' Hr') as (st'' & ->).
        cbn [bind]. eexists. split; [reflexivity|]. auto.
      * injection Hx as <-. eexists. split; [reflexivity|]. auto.
    + auto.
Qed.

Lemma neg_abs_Ok d d' : Py.neg d = Ok d' -> exists a, Py.abs d' = Ok a.
Proof. destruct d; simpl; intros H; try discriminate; injection H as <-; simpl; eauto. Qed.

(** When every element can be rendered, [calculate_with_steps] returns
    whenever [calculate] does. *)
Lemma steps_of_calculate m d :
  renderable_grid (Matrix.to_list m) ->
  calculate m = Ok d -> exists t, calculate_with_steps m = Ok (d, t).
Proof.
  unfold calculate_with_steps, calculate. intros Hg.
  destruct (negb (Matrix.is_square m)); [discriminate|].
  rewrite (map_id (Matrix.to_list m)). cbn [app].
  destruct (add_matrix_renderable (Matrix.to_list m)
              [LHeader (Matrix.rows m) (Matrix.cols m); LRule; LInitial] Hg)
    as (steps0 & ->).
  cbn [bind]. intros H. apply bind_Ok in H as (c & Hloop & H).
  eapply (for__sim (fun t s => erase t = s /\ renderable_grid (fst s))
            (fun (q : Py.value * list line) r => fst q = r)
            (column_step_steps (Matrix.rows m)))
    with (s := (Matrix.to_list m, O, steps0)) in Hloop as (c' & Hc' & Hrel).
  - rewrite Hc'. cbn [bind].
    destruct c' as [[[g1 rs1] steps1]|[r1 t1]], c as [[g rs]|r];
      simpl in Hrel; try contradiction.
    + destruct Hrel as [[= -> ->] Hr].
      destruct (add_matrix_renderable g (steps1 ++ [LFinalTriangular]) Hr)
        as (steps2 & ->).
      cbn [bind]. apply bind_Ok in H as (det & Hdet & H).
      unfold diagonal_product in Hdet.
      destruct (product_collect g _ _ _ [] (steps2 ++ [LCalculating]) Hdet)
        as (ds0 & steps3 & Hcol & Hp).
      unfold collect_diagonal.
      change (fun i '(diagonal_products, steps) =>
                let* d := cell g i i in
                let* d' := cell g i i in
                Ok (diagonal_products ++ [d], steps ++ [LDiagonal (i + 1) d']))
        with (collect_body g).
      rewrite Hcol. cbn [bind app].
      destruct (product_multiply_diagonal ds0 0 _ steps3 _ Hp) as (steps4 & ->).
      cbn [bind]. destruct (Nat.eqb (rs mod 2) 1).
      * rewrite H. cbn [bind]. destruct (neg_abs_Ok _ _ H) as (a & ->).
        cbn [bind]. eauto.
      * injection H as <-. eauto.
    + subst r. injection H as <-. destruct t1; eauto.
  - intros x [[g rs] steps] t0 d0 [E Hr] Hx. unfold erase in E. cbn [fst snd] in E.
    subst t0. cbn [fst] in Hr.
    exact (column_step_steps_of _ _ _ _ steps _ Hx Hr).
  - split; [reflexivity | exact Hg].
Qed.

End Agreement.


(** The matrix [[0, 10**400], [0, 0]]: singular at the first column, with
    an int that no binary64 holds. *)
Definition huge_int_2x2 : Matrix.t :=
  Matrix.mk [[Py.Int 0; Py.Int (10 ^ 400)]; [Py.Int 0; Py.Int 0]] 2 2.

(** C1, as the code has it: whenever [calculate_with_steps] returns
    [(d, trace)], [calculate] returns [d]; and when every element can be
    rendered under the fixed-point format codes (a float, or an int
    within the binary64 range), [calculate_with_steps] returns whenever
    [calculate] does, with the same number. *)
Theorem calculate_paths_agree (m : Matrix.t) :
  (forall d t, DeterminantCalculator.calculate_with_steps m = Ok (d, t) ->
     DeterminantCalculator.calculate m = Ok d) /\
  (renderable_grid (Matrix.to_list m) ->
     forall d, DeterminantCalculator.calculate m = Ok d ->
     exists t, DeterminantCalculator.calculate_with_steps m = Ok (d, t)).
Proof.
  split.
  - intros d t. apply calculate_of_steps.
  - intros Hg d. apply steps_of_calculate. exact Hg.
Qed.

(** On [[0, 10**400], [0, 0]] the constructor succeeds, [calculate]
    returns [0.0] and [calculate_with_steps] raises [OverflowError] while
    rendering the initial matrix. *)
Lemma calculate_paths_disagree :
  Matrix.__init__ [Row [Py.Int 0; Py.Int (10 ^ 400)]; Row [Py.Int 0; Py.Int 0]]
    = Ok huge_int_2x2 /\
  Matrix.is_square huge_int_2x2 = true /\
  DeterminantCalculator.calculate huge_int_2x2 = Ok (Py.Float Py.zero) /\
  DeterminantCalculator.calculate_with_steps huge_int_2x2 = Raise OverflowError.
Proof. repeat split; vm_compute; reflexivity. Qed.

(** * Further properties of the Matrix accessors *)

Lemma in_bounds_spec (m : Matrix.t) (row col : Z) :
  Matrix.in_bounds m row col = true <->
  (0 <= row < Z.of_nat (Matrix._rows m) /\ 0 <= col < Z.of_nat (Matrix._cols m)).
Proof.
  unfold Matrix.in_bounds. rewrite !andb_true_iff, !Z.leb_le, !Z.ltb_lt. tauto.
Qed.

Lemma shaped_lookup (m : Matrix.t) (row col : Z) :
  shaped m -> Matrix.in_bounds m row col = true ->
  exists r x, Matrix._data m !! Z.to_nat row = Some r /\
              r !! Z.to_nat col = Some x /\
              length r = Matrix._cols m.
Proof.
  intros [Hn Hall] Hb. apply in_bounds_spec in Hb as [Hr Hc].
  destruct (lookup_lt_is_Some_2 (Matrix._data m) (Z.to_nat row)) as [r Hrow];
    [lia|].
  pose proof (proj1 (Forall_lookup _ _) Hall _ _ Hrow) as Hlen.
  cbv beta in Hlen.
  destruct (lookup_lt_is_Some_2 r (Z.to_nat col)) as [x Hx]; [lia|].
  eauto.
Qed.

(** [get_element] reads the addressed cell when both indices are within
    the counts, and raises the index error otherwise, negative indices
    included. *)
Theorem get_element_bounds (m : Matrix.t) (row col : Z) :
  shaped m ->
  (Matrix.in_bounds m row col = true ->
     exists r x, Matrix._data m !! Z.to_nat row = Some r /\
                 r !! Z.to_nat col = Some x /\
                 Matrix.get_element m row col = Ok x) /\
  (Matrix.in_bounds m row col = false ->
     Matrix.get_element m row col = Raise (IndexError msg_index)).
Proof.
  intros Hs. unfold Matrix.get_element. split; intros Hb; rewrite Hb; cbn [negb].
  - destruct (shaped_lookup m row col Hs Hb) as (r & x & Hr & Hx & _).
    exists r, x. unfold getitem. rewrite Hr. cbn [bind]. rewrite Hx. auto.
  - reflexivity.
Qed.

(** The 2 x 2 matrix [[1, 2], [3, 4]] of the specification. *)
Definition example_2x2 : Matrix.t :=
  Matrix.mk [[Py.Int 1; Py.Int 2]; [Py.Int 3; Py.Int 4]] 2 2.

Lemma example_2x2_shaped : shaped example_2x2.
Proof. split; [reflexivity|]. repeat constructor. Qed.

Lemma get_element_bounds_witness :
  (Matrix.in_bounds example_2x2 1 0 = true ->
     exists r x, Matrix._data example_2x2 !! Z.to_nat 1 = Some r /\
                 r !! Z.to_nat 0 = Some x /\
                 Matrix.get_element example_2x2 1 0 = Ok x) /\
  (Matrix.in_bounds example_2x2 1 0 = false ->
     Matrix.get_element example_2x2 1 0 = Raise (IndexError msg_index)).
Proof. exact (get_element_bounds example_2x2 1 0 example_2x2_shaped). Defined.

(** [set_element] raises the index error, and changes nothing, exactly on
    the indices that [get_element] rejects.  On the others it stores the
    value: afterwards [get_element] returns the stored value at that
    position and what it returned before at every other position.  The
    call then ends as the rendering of the value in the debug line ends:
    it raises [ValueError], with the value stored, on an int of more than
    4300 decimal digits, and returns on every other value. *)
Theorem set_get_element (m : Matrix.t) (row col : Z) (value : Py.value) :
  shaped m ->
  (Matrix.in_bounds m row col = false ->
     Matrix.set_element m row col value = (m, Raise (IndexError msg_index))) /\
  (Matrix.in_bounds m row col = true ->
     exists m', Matrix.set_element m row col value = (m', Py.str value) /\
       Matrix.get_element m' row col = Ok value /\
       forall row' col', (row', col') <> (row, col) ->
         Matrix.get_element m' row' col' = Matrix.get_element m row' col') /\
  (forall z, value = Py.Int z -> 10 ^ 4300 <= Z.abs z ->
     Py.str value = Raise (ValueError Py.msg_int_str)) /\
  ((forall z, value = Py.Int z -> Z.abs z < 10 ^ 4300) -> Py.str value = Ok tt).
Proof.
  intros Hs. split; [|split; [|split]].
  - intros Hb. unfold Matrix.set_element. rewrite Hb. reflexivity.
  - intros Hb.
    destruct (shaped_lookup m row col Hs Hb) as (r & x & Hr & Hx & Hlen).
    pose proof (lookup_lt_Some _ _ _ Hr) as Hrl.
    pose proof (lookup_lt_Some _ _ _ Hx) as Hxl.
    eexists. split.
    { unfold Matrix.set_element. rewrite Hb. cbn [negb]. unfold getitem.
      rewrite Hr. cbn [bind]. unfold setitem.
      rewrite (decide_True (P := (Z.to_nat col < length r)%nat)) by exact Hxl.
      cbn [bind].
      rewrite (decide_True (P := (Z.to_nat row < length (Matrix._data m))%nat))
        by exact Hrl.
      reflexivity. }
    split.
    { unfold Matrix.get_element, Matrix.in_bounds in *.
      cbn [Matrix._rows Matrix._cols Matrix._data]. rewrite Hb. cbn [negb].
      unfold getitem. rewrite list_lookup_insert_eq by exact Hrl. cbn [bind].
      rewrite list_lookup_insert_eq by exact Hxl. reflexivity. }
    intros row' col' Hne. unfold Matrix.get_element, Matrix.in_bounds.
    cbn [Matrix._rows Matrix._cols Matrix._data].
    destruct (negb _) eqn:Hb'; [reflexivity|].
    apply negb_false_iff in Hb'. fold (Matrix.in_bounds m row' col') in Hb'.
    apply in_bounds_spec in Hb' as [Hr' Hc'].
    unfold getitem. destruct (decide (Z.to_nat row' = Z.to_nat row)) as [E|E].
    + rewrite E, list_lookup_insert_eq by exact Hrl. rewrite Hr. cbn [bind].
      assert (Z.to_nat col' <> Z.to_nat col).
      { intros E'. apply Hne. apply in_bounds_spec in Hb as [? ?].
        f_equal; lia. }
      rewrite list_lookup_insert_ne by auto. reflexivity.
    + rewrite list_lookup_insert_ne by auto. reflexivity.
  - intros z -> Hz. unfold Py.str, Py.max_str_digits.
    destruct (Z.ltb_spec (Z.abs z) (10 ^ 4300)) as [H|H]; [|reflexivity].
    exfalso. apply (Z.lt_irrefl (Z.abs z)). exact (Z.lt_le_trans _ _ _ H Hz).
  - intros H. unfold Py.str, Py.max_str_digits. destruct value as [z|f|t]; try reflexivity.
    destruct (Z.ltb_spec (Z.abs z) (10 ^ 4300)) as [H'|H']; [reflexivity|].
    exfalso. apply (Z.lt_irrefl (Z.abs z)).
    exact (Z.lt_le_trans _ _ _ (H z eq_refl) H').
Qed.

Lemma set_get_element_witness :
  (Matrix.in_bounds example_2x2 0 1 = false ->
     Matrix.set_element example_2x2 0 1 (Py.Int 7)
       = (example_2x2, Raise (IndexError msg_index))) /\
  (Matrix.in_bounds example_2x2 0 1 = true ->
     exists m', Matrix.set_element example_2x2 0 1 (Py.Int 7)
                  = (m', Py.str (Py.Int 7)) /\
       Matrix.get_element m' 0 1 = Ok (Py.Int 7) /\
       forall row' col', (row', col') <> (0, 1) ->
         Matrix.get_element m' row' col' = Matrix.get_element example_2x2 row' col') /\
  (forall z, Py.Int 7 = Py.Int z -> 10 ^ 4300 <= Z.abs z ->
     Py.str (Py.Int 7) = Raise (ValueError Py.msg_int_str)) /\
  ((forall z, Py.Int 7 = Py.Int z -> Z.abs z < 10 ^ 4300) ->
     Py.str (Py.Int 7) = Ok tt).
Proof. exact (set_get_element example_2x2 0 1 (Py.Int 7) example_2x2_shaped). Defined.

(** * Submatrix extraction *)

Lemma for_each_app {S : Type} (body : nat -> S -> result S) xs ys s :
  for_each (xs ++ ys) body s = let* s' := for_each xs body s in for_each ys body s'.
Proof.
  revert s. induction xs as [|x xs IH]; intros s; simpl; [reflexivity|].
  destruct (body x s); simpl; auto.
Qed.

Lemma range_S (n : nat) : range 0 (S n) = range 0 n ++ [n].
Proof. unfold range. rewrite !Nat.sub_0_r, seq_S. reflexivity. Qed.

Lemma delete_snoc {A : Type} (l : list A) (x : A) (e : nat) :
  delete e (l ++ [x]) =
  if decide (e = length l) then l else delete e l ++ [x].
Proof.
  revert e. induction l as [|a l IH]; intros e; simpl.
  - destruct e; reflexivity.
  - destruct e as [|e]; simpl; [reflexivity|].
    rewrite IH. destruct (decide (e = length l)), (decide (S e = S (length l)));
      try reflexivity; lia.
Qed.

Lemma delete_out_of_range {A : Type} (l : list A) (e : nat) :
  (length l <= e)%nat -> delete e l = l.
Proof.
  intros H. rewrite delete_take_drop, take_ge, drop_ge by lia.
  apply app_nil_r.
Qed.

(** A loop that collects [f j] for the indices [j < k] other than [e]
    builds the first [k] elements of the list without the one at [e]. *)
Lemma for_each_skip {A : Type} (f : nat -> result A) (skip : nat -> bool)
    (e : nat) (r : list A) :
  (forall j, skip j = true <-> j = e) ->
  (forall j x, r !! j = Some x -> f j = Ok x) ->
  forall k, (k <= length r)%nat ->
    for_each (range 0 k)
      (fun j acc => if negb (skip j) then let* x := f j in Ok (acc ++ [x]) else Ok acc)
      [] = Ok (delete e (take k r)).
Proof.
  intros Hskip Hf. induction k as [|k IH]; intros Hk.
  - reflexivity.
  - rewrite range_S, for_each_app, IH by lia. cbn [bind for_each].
    destruct (lookup_lt_is_Some_2 r k) as [x Hx]; [lia|].
    rewrite (take_S_r r k x Hx), delete_snoc, length_take, Nat.min_l by lia.
    destruct (skip k) eqn:Hsk; cbn [negb].
    + apply Hskip in Hsk. subst k. rewrite decide_True by reflexivity.
      cbn [bind]. rewrite delete_out_of_range; [reflexivity|].
      rewrite length_take. lia.
    + assert (e <> k) by (intros ->; rewrite (proj2 (Hskip k) eq_refl) in Hsk;
                           discriminate).
      rewrite decide_False by auto. rewrite (Hf k x Hx). reflexivity.
Qed.

Lemma for_each_ext {S : Type} (b1 b2 : nat -> S -> result S) xs s :
  (forall x s, b1 x s = b2 x s) -> for_each xs b1 s = for_each xs b2 s.
Proof.
  intros H. revert s. induction xs as [|x xs IH]; intros s; simpl; [reflexivity|].
  rewrite H. destruct (b2 x s); simpl; auto.
Qed.

(** The data that [get_submatrix] collects before it builds the result. *)
Definition submatrix_data (m : Matrix.t) (exclude_row exclude_col : Z)
    : list (list Py.value) :=
  delete (Z.to_nat exclude_row)
    (map (delete (Z.to_nat exclude_col)) (Matrix._data m)).

Lemma submatrix_loops (m : Matrix.t) (exclude_row exclude_col : Z) :
  shaped m -> Matrix.in_bounds m exclude_row exclude_col = true ->
  for_each (range 0 (Matrix._rows m)) (fun i submatrix_data =>
    if negb (Z.of_nat i =? exclude_row) then
      let* row :=
        for_each (range 0 (Matrix._cols m)) (fun j row =>
          if negb (Z.of_nat j =? exclude_col) then
            let* r := getitem (Matrix._data m) i in
            let* x := getitem r j in
            Ok (row ++ [x])
          else Ok row) [] in
      Ok (submatrix_data ++ [row])
    else Ok submatrix_data) []
  = Ok (submatrix_data m exclude_row exclude_col).
Proof.
  intros [Hn Hall] Hb. apply in_bounds_spec in Hb as [Hr Hc].
  unfold submatrix_data.
  rewrite (for_each_skip
             (fun i => for_each (range 0 (Matrix._cols m)) (fun j row =>
                if negb (Z.of_nat j =? exclude_col) then
                  let* r := getitem (Matrix._data m) i in
                  let* x := getitem r j in
                  Ok (row ++ [x])
                else Ok row) [])
             (fun i => Z.of_nat i =? exclude_row) (Z.to_nat exclude_row)
             (map (delete (Z.to_nat exclude_col)) (Matrix._data m))).
  - rewrite take_ge; [reflexivity|]. rewrite length_map. lia.
  - intros j. rewrite Z.eqb_eq. lia.
  - intros i x Hx. rewrite list_lookup_fmap in Hx.
    destruct (Matrix._data m !! i) as [r|] eqn:Hri; [|discriminate].
    injection Hx as <-.
    pose proof (proj1 (Forall_lookup _ _) Hall _ _ Hri) as Hlen. cbv beta in Hlen.
    rewrite (for_each_ext _
               (fun j acc => if negb (Z.of_nat j =? exclude_col)
                             then let* x := getitem r j in Ok (acc ++ [x])
                             else Ok acc)).
    + rewrite (for_each_skip (fun j => getitem r j)
                 (fun j => Z.of_nat j =? exclude_col) (Z.to_nat exclude_col) r).
      * rewrite take_ge; [reflexivity | lia].
      * intros j. rewrite Z.eqb_eq. lia.
      * intros j y Hy. unfold getitem. rewrite Hy. reflexivity.
      * lia.
    + intros j acc. destruct (negb _); [|reflexivity].
      unfold getitem at 1. rewrite Hri. reflexivity.
  - rewrite length_map. lia.
Qed.

(** The constructor on a non-empty list of rows of one length that hold
    numbers only. *)
Lemma init_rows (d : list (list Py.value)) (c : nat) :
  d <> [] ->
  Forall (fun r => length r = c) d ->
  Forall (Forall (fun x => Py.is_number x = true)) d ->
  Matrix.__init__ (map Row d) = Ok (Matrix.mk d (length d) c).
Proof.
  intros Hne Hlen Hnum. destruct d as [|r0 d']; [contradiction|].
  pose proof (Forall_inv Hlen) as Hr0. cbv beta in Hr0.
  assert (H1 : forallb is_list (map Row (r0 :: d')) = true).
  { apply forallb_forall. intros it Hit. apply in_map_iff in Hit as (r & <- & _).
    reflexivity. }
  assert (H2 : forallb (fun row => Nat.eqb (len row) (len (Row r0)))
                 (map Row (r0 :: d')) = true).
  { apply forallb_forall. intros it Hit. apply in_map_iff in Hit as (r & <- & Hr).
    apply Nat.eqb_eq. unfold len; cbn [cells].
    apply list_elem_of_In in Hr.
    rewrite (proj1 (Forall_forall _ _) Hlen r Hr). auto. }
  assert (H3 : forallb Py.is_number (concat (map cells (map Row (r0 :: d')))) = true).
  { apply forallb_forall. intros x Hx. apply in_concat in Hx as (l & Hl & Hx).
    apply in_map_iff in Hl as (it & <- & Hit).
    apply in_map_iff in Hit as (r & <- & Hr). cbn [cells] in Hx.
    apply list_elem_of_In in Hr, Hx.
    exact (proj1 (Forall_forall _ _) (proj1 (Forall_forall _ _) Hnum r Hr) x Hx). }
  unfold Matrix.__init__, Matrix._validate_matrix.
  cbn [map] in *. rewrite H1, H2, H3. cbn [negb bind].
  rewrite map_map. cbn [cells length]. rewrite map_id, length_map.
  unfold len; cbn [cells]. rewrite Hr0. reflexivity.
Qed.

(** [get_submatrix] on a Matrix that satisfies the invariant: index error
    on out-of-range indices; otherwise "Matrix cannot be empty" on a
    single-row matrix, and on two or more rows the matrix without the
    given row and column, of [rows - 1] by [cols - 1] (which is [rows - 1]
    by 0 when the matrix has one column). *)
Theorem get_submatrix_spec (m : Matrix.t) (exclude_row exclude_col : Z) :
  invariant m ->
  (Matrix.in_bounds m exclude_row exclude_col = false ->
     Matrix.get_submatrix m exclude_row exclude_col
       = Raise (IndexError msg_exclude)) /\
  (Matrix.in_bounds m exclude_row exclude_col = true ->
     Matrix._rows m = 1%nat ->
     Matrix.get_submatrix m exclude_row exclude_col
       = Raise (ValueError msg_empty)) /\
  (Matrix.in_bounds m exclude_row exclude_col = true ->
     (2 <= Matrix._rows m)%nat ->
     Matrix.get_submatrix m exclude_row exclude_col
       = Ok (Matrix.mk (submatrix_data m exclude_row exclude_col)
               (Matrix._rows m - 1) (Matrix._cols m - 1))).
Proof.
  intros (_ & Hs & Hnum). unfold Matrix.get_submatrix.
  split; [intros ->; reflexivity|].
  assert (Hsub : Matrix.in_bounds m exclude_row exclude_col = true ->
            length (submatrix_data m exclude_row exclude_col)
              = (Matrix._rows m - 1)%nat).
  { intros Hb. unfold submatrix_data. destruct Hs as [Hn _].
    apply in_bounds_spec in Hb as [Hr _].
    rewrite length_delete, length_map; [lia|].
    apply lookup_lt_is_Some_2. rewrite length_map. lia. }
  split.
  - intros Hb H1. rewrite Hb. cbn [negb].
    rewrite (submatrix_loops m _ _ Hs Hb). cbn [bind].
    pose proof (Hsub Hb) as Hl. rewrite H1 in Hl.
    destruct (submatrix_data m exclude_row exclude_col); [reflexivity|discriminate].
  - intros Hb H2. rewrite Hb. cbn [negb].
    rewrite (submatrix_loops m _ _ Hs Hb). cbn [bind].
    pose proof (Hsub Hb) as Hl.
    rewrite (init_rows _ (Matrix._cols m - 1)).
    + rewrite Hl. reflexivity.
    + intros E. rewrite E in Hl. simpl in Hl. lia.
    + unfold submatrix_data. apply Forall_forall. intros r Hr.
      apply list_elem_of_delete_inv in Hr.
      apply list_elem_of_fmap in Hr as (r' & -> & Hr').
      destruct Hs as [_ Hall].
      pose proof (proj1 (Forall_forall _ _) Hall r' Hr') as Hlen. cbv beta in Hlen.
      apply in_bounds_spec in Hb as [_ Hc].
      rewrite length_delete; [lia|]. apply lookup_lt_is_Some_2. lia.
    + unfold submatrix_data. apply Forall_forall. intros r Hr.
      apply list_elem_of_delete_inv in Hr.
      apply list_elem_of_fmap in Hr as (r' & -> & Hr').
      pose proof (proj1 (Forall_forall _ _) Hnum r' Hr') as Hn'.
      apply Forall_forall. intros x Hx. apply list_elem_of_delete_inv in Hx.
      exact (proj1 (Forall_forall _ _) Hn' x Hx).
Qed.

Lemma example_2x2_invariant : invariant example_2x2.
Proof.
  split; [simpl; lia|]. split; [exact example_2x2_shaped|].
  repeat constructor.
Qed.

Lemma get_submatrix_spec_witness :
  Matrix.get_submatrix example_2x2 0 0 = Ok (Matrix.mk [[Py.Int 4]] 1 1).
Proof.
  apply (proj2 (proj2 (get_submatrix_spec example_2x2 0 0 example_2x2_invariant))).
  - reflexivity.
  - apply le_n.
Defined.

(** * Construction and [to_list] *)

(** [to_list] of a constructed Matrix gives back the rows the
    constructor was given, and the counts are those of the data. *)
Theorem to_list_init (data : list item) (m : Matrix.t) :
  Matrix.__init__ data = Ok m ->
  map Row (Matrix.to_list m) = data /\
  length (Matrix.to_list m) = Matrix.rows m /\
  Forall (fun row => length row = Matrix.cols m) (Matrix.to_list m).
Proof.
  intros H. pose proof (init_invariant _ _ H) as (_ & (Hn & Hall) & _).
  apply init_Ok_inv in H as (Hs & _ & ->).
  unfold Matrix.to_list, Matrix.rows, Matrix.cols in *.
  cbn [Matrix._data Matrix._rows Matrix._cols] in *.
  rewrite map_id. split; [|split].
  - rewrite map_map. rewrite <- (map_id data) at 2. apply map_ext_in.
    intros it Hit. destruct it as [c|s]; [reflexivity|].
    exfalso. apply Hs. right; left. exists (NotList s). auto.
  - rewrite length_map. reflexivity.
  - exact Hall.
Qed.

Lemma to_list_init_witness :
  map Row (Matrix.to_list example_2x2)
    = [Row [Py.Int 1; Py.Int 2]; Row [Py.Int 3; Py.Int 4]] /\
  length (Matrix.to_list example_2x2) = Matrix.rows example_2x2 /\
  Forall (fun row => length row = Matrix.cols example_2x2)
    (Matrix.to_list example_2x2).
Proof.
  apply (to_list_init [Row [Py.Int 1; Py.Int 2]; Row [Py.Int 3; Py.Int 4]]).
  reflexivity.
Defined.

(** * The shape of the trace *)

Section Trace.

Import DeterminantCalculator.

(** The rendering of a whole matrix: the rows of a snapshot. *)
Fixpoint format_matrix (g : grid) : result (list (list Py.float)) :=
  match g with
  | [] => Ok []
  | row :: rest =>
      let* fs := format_row row in
      let* fss := format_matrix rest in
      Ok (fs :: fss)
  end.

Lemma add_matrix_snapshot g : forall steps steps',
  _add_matrix_to_steps steps g = Ok steps' ->
  exists rows, format_matrix g = Ok rows /\
    steps' = steps ++ map LMatrixRow rows /\ length rows = length g.
Proof.
  induction g as [|row g IH]; intros steps steps' H; simpl in *.
  - injection H as <-. exists []. rewrite app_nil_r. auto.
  - apply bind_Ok in H as (fs & -> & H). cbn [bind].
    destruct (IH _ _ H) as (rows & -> & -> & Hl). cbn [bind].
    exists (fs :: rows). rewrite <- app_assoc. simpl. auto.
Qed.

(** [extends s s']: the trace [s'] is [s] with lines appended. *)
Definition extends (s s' : list line) : Prop := exists rest, s' = s ++ rest.

Lemma extends_refl s : extends s s.
Proof. exists []. symmetry. apply app_nil_r. Qed.

Lemma extends_trans s1 s2 s3 : extends s1 s2 -> extends s2 s3 -> extends s1 s3.
Proof. intros [r1 ->] [r2 ->]. exists (r1 ++ r2). symmetry. apply app_assoc. Qed.

Lemma extends_app s l : extends s (s ++ l).
Proof. exists l. reflexivity. Qed.

Lemma add_matrix_extends g steps steps' :
  _add_matrix_to_steps steps g = Ok steps' -> extends steps steps'.
Proof.
  intros H. apply add_matrix_snapshot in H as (rows & _ & -> & _).
  apply extends_app.
Qed.

(** A loop whose body only appends to the trace only appends to it. *)
Lemma for_each_extends {S : Type} (tr : S -> list line)
    (body : nat -> S -> result S) xs :
  (forall x s s', body x s = Ok s' -> extends (tr s) (tr s')) ->
  forall s s', for_each xs body s = Ok s' -> extends (tr s) (tr s').
Proof.
  intros Hb. induction xs as [|x xs IH]; intros s s' H; simpl in *.
  - injection H as <-. apply extends_refl.
  - apply bind_Ok in H as (s1 & H1 & H2).
    eapply extends_trans; [exact (Hb _ _ _ H1) | exact (IH _ _ H2)].
Qed.

Lemma for__extends {S R : Type} (tr : S -> list line) (trr : R -> list line)
    (body : nat -> S -> result (ctl S R)) xs :
  (forall x s s', body x s = Ok (Next s') -> extends (tr s) (tr s')) ->
  (forall x s r, body x s = Ok (Return r) -> extends (tr s) (trr r)) ->
  forall s,
    (forall s', for_ xs body s = Ok (Next s') -> extends (tr s) (tr s')) /\
    (forall r, for_ xs body s = Ok (Return r) -> extends (tr s) (trr r)).
Proof.
  intros Hn Hr. induction xs as [|x xs IH]; intros s; simpl.
  - split; [intros s' [= <-]; apply extends_refl | discriminate].
  - split.
    + intros s' H. apply bind_Ok in H as ([s1|r1] & H1 & H2); [|discriminate].
      eapply extends_trans; [exact (Hn _ _ _ H1) | exact (proj1 (IH s1) _ H2)].
    + intros r H. apply bind_Ok in H as ([s1|r1] & H1 & H2).
      * eapply extends_trans; [exact (Hn _ _ _ H1) | exact (proj2 (IH s1) _ H2)].
      * injection H2 as <-. exact (Hr _ _ _ H1).
Qed.

Lemma select_pivot_steps_extends n i st st' :
  select_pivot_steps n i st = Ok st' -> extends (snd st) (snd st').
Proof.
  destruct st as [[g rs] steps]. unfold select_pivot_steps. intros H.
  apply bind_Ok in H as (r & _ & H). destruct (negb (Nat.eqb r i)).
  - apply bind_Ok in H as (g' & _ & H). apply bind_Ok in H as (steps' & Ha & [= <-]).
    cbn [snd]. apply add_matrix_extends in Ha.
    eapply extends_trans; [|exact Ha]. rewrite <- app_assoc. apply extends_app.
  - injection H as <-. cbn [snd]. apply extends_app.
Qed.

Lemma eliminate_row_steps_extends i n k factor g steps g' steps' :
  eliminate_row_steps i n k factor g steps = Ok (g', steps') -> extends steps steps'.
Proof.
  unfold eliminate_row_steps. intros H.
  apply (for_each_extends (S := grid * list line) snd) in H; [exact H|].
  intros x [g1 s1] [g2 s2] Hx. cbn [snd].
  apply bind_Ok in Hx as (old & _ & Hx). apply bind_Ok in Hx as (g3 & _ & Hx).
  destruct (Nat.eqb x i).
  - apply bind_Ok in Hx as (f & _ & [= _ <-]). apply extends_app.
  - injection Hx as _ <-. apply extends_refl.
Qed.

Lemma column_step_steps_extends n i st :
  (forall st', column_step_steps n i st = Ok (Next st') ->
     extends (snd st) (snd st')) /\
  (forall r, column_step_steps n i st = Ok (Return r) ->
     extends (snd st) (snd r) /\
     exists steps, r = (Py.Float Py.zero, steps ++ [LPivotZero; LDetZero])).
Proof.
  unfold column_step_steps.
  destruct (select_pivot_steps n i st) as [[[g rs] steps]|e] eqn:Hsel;
    [|split; discriminate].
  apply select_pivot_steps_extends in Hsel. cbn [snd bind] in *.
  destruct (pivot_is_zero g i) as [[|]|e]; cbn [bind]; [| |split; discriminate].
  - split; [discriminate|]. intros r [= <-]. cbn [snd]. split; [|eauto].
    eapply extends_trans; [exact Hsel | apply extends_app].
  - split; [|intros r H; apply bind_Ok in H as (p & _ & H);
              apply bind_Ok in H as ([g1 s1] & _ & H); discriminate].
    intros st' H. apply bind_Ok in H as (p & _ & H).
    apply bind_Ok in H as ([g1 s1] & Hloop & [= <-]). cbn [snd].
    apply (for_each_extends (S := grid * list line) snd) in Hloop.
    + cbn [snd] in Hloop. eapply extends_trans; [exact Hsel|].
      eapply extends_trans; [apply extends_app | exact Hloop].
    + intros x [g2 s2] [g3 s3] Hx. cbn [snd].
      apply bind_Ok in Hx as (c & _ & Hx). destruct c.
      * apply bind_Ok in Hx as (factor & _ & Hx). apply bind_Ok in Hx as (a & _ & Hx).
        apply bind_Ok in Hx as (p' & _ & Hx). apply bind_Ok in Hx as (f & _ & Hx).
        apply bind_Ok in Hx as ([g4 s4] & Hrow & Hx).
        apply bind_Ok in Hx as (s5 & Hadd & [= _ <-]).
        apply eliminate_row_steps_extends in Hrow. apply add_matrix_extends in Hadd.
        eapply extends_trans; [apply extends_app|].
        eapply extends_trans; [exact Hrow | exact Hadd].
      * injection Hx as _ <-. apply extends_refl.
Qed.

Lemma for__Return {S R : Type} (body : nat -> S -> result (ctl S R)) xs :
  forall s r, for_ xs body s = Ok (Return r) ->
  exists x s', body x s' = Ok (Return r).
Proof.
  induction xs as [|x xs IH]; intros s r H; simpl in *; [discriminate|].
  apply bind_Ok in H as ([s1|r1] & H1 & H2).
  - eauto.
  - injection H2 as <-. eauto.
Qed.

Lemma collect_diagonal_extends g n steps ds steps' :
  collect_diagonal g n steps = Ok (ds, steps') -> extends steps steps'.
Proof.
  unfold collect_diagonal. intros H.
  apply (for_each_extends (S := list Py.value * list line) snd) in H; [exact H|].
  intros x [a1 s1] [a2 s2] Hx. cbn [snd].
  apply bind_Ok in Hx as (d & _ & Hx). apply bind_Ok in Hx as (d' & _ & [= _ <-]).
  apply extends_app.
Qed.

Lemma multiply_diagonal_extends ds : forall i d steps det steps',
  multiply_diagonal i ds d steps = Ok (det, steps') -> extends steps steps'.
Proof.
  induction ds as [|v ds IH]; intros i d steps det steps' H; simpl in *.
  - injection H as _ <-. apply extends_refl.
  - apply bind_Ok in H as (d1 & _ & H). apply IH in H.
    eapply extends_trans; [|exact H]. destruct (Nat.eqb i 0); apply extends_app.
Qed.

(** How a trace that [calculate_with_steps] returns ends. *)
Definition trace_end (d : Py.value) (t : list line) : Prop :=
  (d = Py.Float Py.zero /\ exists s, t = s ++ [LPivotZero; LDetZero]) \/
  (exists s row_swaps, t = s ++ [LNoSignChange row_swaps; LFinal d]) \/
  (exists s row_swaps a,
     Py.abs d = Ok a /\ t = s ++ [LSignChange row_swaps; LFinalNegated a d]).

(** The trace that [calculate_with_steps] returns starts with the header,
    the rule and the snapshot of the matrix it was given, one line per
    row, and ends with the lines that state the returned determinant:
    the zero-pivot lines with [0.0], or the sign note and the final
    determinant. *)
Theorem trace_shape (m : Matrix.t) (d : Py.value) (t : list line) :
  calculate_with_steps m = Ok (d, t) ->
  (exists rows rest,
     format_matrix (Matrix.to_list m) = Ok rows /\
     length rows = length (Matrix.to_list m) /\
     t = [LHeader (Matrix.rows m) (Matrix.cols m); LRule; LInitial]
           ++ map LMatrixRow rows ++ rest) /\
  trace_end d t.
Proof.
  unfold calculate_with_steps.
  destruct (negb (Matrix.is_square m)); [discriminate|].
  rewrite (map_id (Matrix.to_list m)). cbn [app].
  intros H. apply bind_Ok in H as (steps0 & H0 & H).
  apply add_matrix_snapshot in H0 as (rows & Hrows & -> & Hlen).
  apply bind_Ok in H as (c & Hloop & H).
  set (steps0 := [LHeader (Matrix.rows m) (Matrix.cols m); LRule; LInitial]
                   ++ map LMatrixRow rows) in *.
  assert (Hstart : forall t', extends steps0 t' ->
            exists rows0 rest,
              format_matrix (Matrix.to_list m) = Ok rows0 /\
              length rows0 = length (Matrix.to_list m) /\
              t' = [LHeader (Matrix.rows m) (Matrix.cols m); LRule; LInitial]
                     ++ map LMatrixRow rows0 ++ rest).
  { intros t' [rest ->]. exists rows, rest. split; [exact Hrows|].
    split; [exact Hlen|]. unfold steps0. rewrite <- app_assoc. reflexivity. }
  pose proof (for__extends (S := state_steps) (R := Py.value * list line) snd snd
                (column_step_steps (Matrix.rows m)) (range 0 (Matrix.rows m))
                (fun x s s' Hx => proj1 (column_step_steps_extends _ x s) s' Hx)
                (fun x s r Hx => proj1 (proj2 (column_step_steps_extends _ x s) r Hx))
                (Matrix.to_list m, O, steps0)) as [HN HR].
  cbn [snd] in HN, HR.
  destruct c as [[[g rs] steps1]|[r1 t1]].
  - specialize (HN _ Hloop). cbn [snd] in HN.
    apply bind_Ok in H as (steps2 & Ha & H).
    apply bind_Ok in H as ([ds steps3] & Hcol & H).
    apply bind_Ok in H as ([det steps4] & Hmul & H).
    apply add_matrix_extends in Ha. apply collect_diagonal_extends in Hcol.
    apply multiply_diagonal_extends in Hmul.
    assert (H4 : extends steps0 steps4).
    { eapply extends_trans; [exact HN|].
      eapply extends_trans; [apply extends_app|].
      eapply extends_trans; [exact Ha|].
      eapply extends_trans; [apply extends_app|].
      eapply extends_trans; [exact Hcol | exact Hmul]. }
    destruct (Nat.eqb (rs mod 2) 1).
    + apply bind_Ok in H as (det' & _ & H). apply bind_Ok in H as (a & Habs & [= <- <-]).
      split.
      * apply Hstart. eapply extends_trans; [exact H4|].
        eapply extends_trans; apply extends_app.
      * right; right. exists steps4, rs, a. rewrite <- app_assoc. auto.
    + injection H as <- <-. split.
      * apply Hstart. eapply extends_trans; [exact H4 | apply extends_app].
      * right; left. exists steps4, rs. reflexivity.
  - injection H as <- <-. specialize (HR _ Hloop). cbn [snd] in HR.
    split; [apply Hstart; exact HR|].
    apply for__Return in Hloop as (x & s' & Hx).
    apply (proj2 (column_step_steps_extends _ x s')) in Hx as (_ & steps & [= -> ->]).
    left. eauto.
Qed.

End Trace.


Definition example_result : Py.value * list line :=
  unwrap (Py.Float Py.zero, [])
    (DeterminantCalculator.calculate_with_steps example_2x2).

Lemma trace_shape_witness :
  (exists rows rest,
     format_matrix (Matrix.to_list example_2x2) = Ok rows /\
     length rows = length (Matrix.to_list example_2x2) /\
     snd example_result
       = [LHeader (Matrix.rows example_2x2) (Matrix.cols example_2x2);
          LRule; LInitial] ++ map LMatrixRow rows ++ rest) /\
  trace_end (fst example_result) (snd example_result).
Proof.
  apply (trace_shape example_2x2 (fst example_result) (snd example_result)).
  vm_compute. reflexivity.
Defined.

(** * [calculate] on matrices of floats *)

(** A loop whose body succeeds and keeps [P] on the indices it visits
    succeeds and keeps [P]. *)
Lemma for_each_inv {S : Type} (P : S -> Prop) (body : nat -> S -> result S) xs :
  (forall x s, In x xs -> P s -> exists s', body x s = Ok s' /\ P s') ->
  forall s, P s -> exists s', for_each xs body s = Ok s' /\ P s'.
Proof.
  induction xs as [|x xs IH]; intros Hb s Hs; simpl.
  - eauto.
  - destruct (Hb x s (or_introl eq_refl) Hs) as (s1 & -> & H1). simpl.
    apply IH; [|exact H1]. intros y s' Hy. apply Hb. right. exact Hy.
Qed.

Lemma in_range (x lo hi : nat) : In x (range lo hi) <-> (lo <= x < hi)%nat.
Proof. unfold range. rewrite in_seq. lia. Qed.

Section Floats.

Import DeterminantCalculator.

(** An [n] by [n] working copy that holds floats only. *)
Definition float_grid (n : nat) (g : grid) : Prop :=
  length g = n /\ Forall (fun r => length r = n /\ Forall is_float r) g.

Lemma float_grid_cell n g k j :
  float_grid n g -> (k < n)%nat -> (j < n)%nat ->
  exists r f, g !! k = Some r /\ r !! j = Some (Py.Float f) /\
              cell g k j = Ok (Py.Float f).
Proof.
  intros [Hn Hall] Hk Hj.
  destruct (lookup_lt_is_Some_2 g k) as [r Hr]; [lia|].
  destruct (proj1 (Forall_lookup _ _) Hall _ _ Hr) as [Hlen Hf].
  destruct (lookup_lt_is_Some_2 r j) as [x Hx]; [lia|].
  pose proof (proj1 (Forall_lookup _ _) Hf _ _ Hx) as Hfx.
  destruct x as [z|f|s]; try contradiction.
  exists r, f. unfold cell, getitem. rewrite Hr. cbn [bind]. rewrite Hx. auto.
Qed.

Lemma float_grid_set_cell n g k j f :
  float_grid n g -> (k < n)%nat -> (j < n)%nat ->
  exists r, g !! k = Some r /\
    set_cell g k j (Py.Float f) = Ok (<[k := <[j := Py.Float f]> r]> g) /\
    float_grid n (<[k := <[j := Py.Float f]> r]> g).
Proof.
  intros [Hn Hall] Hk Hj.
  destruct (lookup_lt_is_Some_2 g k) as [r Hr]; [lia|].
  destruct (proj1 (Forall_lookup _ _) Hall _ _ Hr) as [Hlen Hf].
  exists r. split; [exact Hr|]. split.
  - unfold set_cell, getitem, setitem. rewrite Hr. cbn [bind].
    rewrite (decide_True (P := (j < length r)%nat)) by lia. cbn [bind].
    rewrite (decide_True (P := (k < length g)%nat)) by lia. reflexivity.
  - split; [rewrite length_insert; exact Hn|].
    apply Forall_insert; [exact Hall|]. split; [rewrite length_insert; exact Hlen|].
    apply Forall_insert; [exact Hf | exact Logic.I].
Qed.

Lemma float_gt_Ok a b : exists c, Py.gt (Py.Float a) (Py.Float b) = Ok c.
Proof. unfold Py.gt. simpl. eauto. Qed.

Lemma float_lt_Ok a b : exists c, Py.lt (Py.Float a) (Py.Float b) = Ok c.
Proof. unfold Py.lt. simpl. eauto. Qed.

Lemma find_max_row_float n g i :
  float_grid n g -> (i < n)%nat ->
  exists r, find_max_row g i n = Ok r /\ (i <= r < n)%nat.
Proof.
  intros Hg Hi. unfold find_max_row.
  apply (for_each_inv (fun r => (i <= r < n)%nat)); [|lia].
  intros k r Hk Hr. apply in_range in Hk.
  destruct (float_grid_cell n g k i Hg) as (_ & a & _ & _ & ->); [lia | lia|].
  cbn [bind Py.abs].
  destruct (float_grid_cell n g r i Hg) as (_ & b & _ & _ & ->); [lia | lia|].
  cbn [bind Py.abs].
  destruct (float_gt_Ok (Py.fabs a) (Py.fabs b)) as (c & ->). cbn [bind].
  eexists. split; [reflexivity|]. destruct c; lia.
Qed.

Lemma swap_rows_float n g i r :
  float_grid n g -> (i < n)%nat -> (r < n)%nat ->
  exists g', swap_rows g i r = Ok g' /\ float_grid n g'.
Proof.
  intros [Hn Hall] Hi Hr.
  destruct (lookup_lt_is_Some_2 g r) as [a Ha]; [lia|].
  destruct (lookup_lt_is_Some_2 g i) as [b Hb]; [lia|].
  unfold swap_rows, getitem, setitem. rewrite Ha, Hb. cbn [bind].
  rewrite (decide_True (P := (i < length g)%nat)) by lia. cbn [bind].
  rewrite (decide_True (P := (r < length (<[i:=a]> g))%nat))
    by (rewrite length_insert; lia).
  eexists. split; [reflexivity|]. split; [rewrite !length_insert; exact Hn|].
  apply Forall_insert; [apply Forall_insert; [exact Hall|]|].
  - exact (proj1 (Forall_lookup _ _) Hall _ _ Ha).
  - exact (proj1 (Forall_lookup _ _) Hall _ _ Hb).
Qed.

Lemma select_pivot_float n g rs i :
  float_grid n g -> (i < n)%nat ->
  exists g' rs', select_pivot n i (g, rs) = Ok (g', rs') /\ float_grid n g'.
Proof.
  intros Hg Hi. unfold select_pivot.
  destruct (find_max_row_float n g i Hg Hi) as (r & -> & Hr). cbn [bind].
  destruct (negb (Nat.eqb r i)).
  - destruct (swap_rows_float n g i r Hg Hi) as (g' & -> & Hg'); [lia|].
    cbn [bind]. eauto.
  - eauto.
Qed.

Lemma pivot_is_zero_float n g i :
  float_grid n g -> (i < n)%nat ->
  exists ri p b, g !! i = Some ri /\ ri !! i = Some (Py.Float p) /\
    pivot_is_zero g i = Ok b /\ (b = false -> Py.is_zero p = false).
Proof.
  intros Hg Hi. destruct (float_grid_cell n g i i Hg Hi Hi) as (ri & p & Hri & Hp & Hc).
  exists ri, p. unfold pivot_is_zero. rewrite Hc. cbn [bind Py.abs].
  destruct (float_lt_Ok (Py.fabs p) Py.eps) as (b & Hb). rewrite Hb.
  exists b. repeat split; auto. intros ->. destruct p; try reflexivity.
  vm_compute in Hb. discriminate Hb.
Qed.

(** One row update: the row [k] changes, the pivot row [i] does not. *)
Lemma update_cell_float n g i k j factor ri :
  float_grid n g -> (i < n)%nat -> (k < n)%nat -> (j < n)%nat -> k <> i ->
  g !! i = Some ri ->
  exists g', update_cell g i k j (Py.Float factor) = Ok g' /\
    float_grid n g' /\ g' !! i = Some ri.
Proof.
  intros Hg Hi Hk Hj Hne Hri. unfold update_cell.
  destruct (float_grid_cell n g k j Hg Hk Hj) as (rk & old & Hrk & _ & ->).
  cbn [bind].
  destruct (float_grid_cell n g i j Hg Hi Hj) as (_ & p & _ & _ & ->).
  cbn [bind]. unfold Py.mul, Py.sub. cbn [Py.to_float bind].
  destruct (float_grid_set_cell n g k j (Py.fsub old (Py.fmul factor p)) Hg Hk Hj)
    as (r & Hr & -> & Hg').
  eexists. split; [reflexivity|]. split; [exact Hg'|].
  rewrite list_lookup_insert_ne by exact Hne. exact Hri.
Qed.

Lemma eliminate_column_float n g i ri p :
  float_grid n g -> (i < n)%nat ->
  g !! i = Some ri -> ri !! i = Some (Py.Float p) -> Py.is_zero p = false ->
  exists g',
    for_each (range (i + 1) n) (fun k matrix_data =>
      let* c := to_eliminate matrix_data k i in
      if c then
        let* factor := get_factor matrix_data k i in
        for_each (range i n) (fun j matrix_data =>
          update_cell matrix_data i k j factor) matrix_data
      else Ok matrix_data) g = Ok g' /\
    float_grid n g'.
Proof.
  intros Hg Hi Hri Hp Hz.
  destruct (for_each_inv (fun g => float_grid n g /\ g !! i = Some ri)
              (fun k matrix_data =>
                 let* c := to_eliminate matrix_data k i in
                 if c then
                   let* factor := get_factor matrix_data k i in
                   for_each (range i n) (fun j matrix_data =>
                     update_cell matrix_data i k j factor) matrix_data
                 else Ok matrix_data)
              (range (i + 1) n)) with (s := g) as (g' & Hloop & Hg' & _);
    [| auto | eauto].
  intros k g1 Hk [Hg1 Hri1]. apply in_range in Hk.
  unfold to_eliminate, get_factor.
  destruct (float_grid_cell n g1 k i Hg1) as (_ & a & _ & _ & Ha); [lia | lia|].
  rewrite Ha. cbn [bind Py.abs].
  destruct (float_gt_Ok (Py.fabs a) Py.eps) as (c & ->). cbn [bind].
  destruct c; [|eauto].
  assert (Hcii : cell g1 i i = Ok (Py.Float p)).
  { unfold cell, getitem. rewrite Hri1. cbn [bind]. rewrite Hp. reflexivity. }
  rewrite Hcii. cbn [bind]. unfold Py.truediv. cbn [Py.to_float bind].
  rewrite Hz. cbn [bind].
  apply (for_each_inv (fun g => float_grid n g /\ g !! i = Some ri)); [|auto].
  intros j g2 Hj [Hg2 Hri2]. apply in_range in Hj.
  destruct (update_cell_float n g2 i k j (Py.fdiv a p) ri Hg2)
    as (g3 & -> & Hg3 & Hri3); try lia; auto.
  eauto.
Qed.

Lemma column_step_float n i g rs :
  float_grid n g -> (i < n)%nat ->
  exists c, column_step n i (g, rs) = Ok c /\
    match c with
    | Next (g', _) => float_grid n g'
    | Return r => r = Py.Float Py.zero
    end.
Proof.
  intros Hg Hi. unfold column_step.
  destruct (select_pivot_float n g rs i Hg Hi) as (g1 & rs1 & -> & Hg1).
  cbn [bind].
  destruct (pivot_is_zero_float n g1 i Hg1 Hi) as (ri & p & b & Hri & Hp & -> & Hz).
  cbn [bind]. destruct b.
  - eexists. split; [reflexivity|]. reflexivity.
  - destruct (eliminate_column_float n g1 i ri p Hg1 Hi Hri Hp (Hz eq_refl))
      as (g2 & -> & Hg2).
    cbn [bind]. eexists. split; [reflexivity|]. exact Hg2.
Qed.

Lemma diagonal_product_float n g :
  float_grid n g -> exists f, diagonal_product g n = Ok (Py.Float f).
Proof.
  intros Hg. unfold diagonal_product.
  destruct (for_each_inv is_float
              (fun i determinant => let* d := cell g i i in Py.mul determinant d)
              (range 0 n)) with (s := Py.Float Py.one) as (d & Hd & Hf).
  - intros i d Hi Hd. apply in_range in Hi. destruct d; try contradiction.
    destruct (float_grid_cell n g i i Hg) as (_ & x & _ & _ & ->); [lia | lia|].
    cbn [bind]. unfold Py.mul. cbn [Py.to_float bind]. eexists.
    split; [reflexivity | exact Logic.I].
  - exact Logic.I.
  - destruct d; try contradiction. eauto.
Qed.

(** The column loop on a working copy of floats: it cannot fail. *)
Lemma column_loop_float n xs : forall g rs,
  float_grid n g -> (forall x, In x xs -> (x < n)%nat) ->
  exists c, for_ xs (column_step n) (g, rs) = Ok c /\
    match c with
    | Next (g', _) => float_grid n g'
    | Return r => r = Py.Float Py.zero
    end.
Proof.
  induction xs as [|x xs IH]; intros g rs Hg Hxs; simpl.
  - eexists. split; [reflexivity|]. exact Hg.
  - destruct (column_step_float n x g rs Hg (Hxs x (or_introl eq_refl)))
      as (c & -> & Hc).
    cbn [bind]. destruct c as [[g1 rs1]|r].
    + apply IH; [exact Hc|]. intros y Hy. apply Hxs. right. exact Hy.
    + eexists. split; [reflexivity|]. exact Hc.
Qed.

(** Every stored element is a float. *)
Definition all_floats (m : Matrix.t) : Prop :=
  Forall (Forall is_float) (Matrix._data m).

Lemma float_grid_to_list m :
  Matrix.is_square m = true -> shaped m -> all_floats m ->
  float_grid (Matrix.rows m) (Matrix.to_list m).
Proof.
  intros Hsq [Hn Hall] Hf. apply Nat.eqb_eq in Hsq.
  unfold Matrix.to_list, Matrix.rows. rewrite map_id.
  split; [symmetry; exact Hn|]. apply Forall_forall. intros r Hr. split.
  - rewrite Hsq. exact (proj1 (Forall_forall _ _) Hall r Hr).
  - exact (proj1 (Forall_forall _ _) Hf r Hr).
Qed.

Lemma float_grid_renderable n g : float_grid n g -> renderable_grid g.
Proof.
  intros [_ Hall]. apply Forall_forall. intros r Hr.
  destruct (proj1 (Forall_forall _ _) Hall r Hr) as [_ Hf].
  apply Forall_forall. intros x Hx. apply is_float_renderable.
  exact (proj1 (Forall_forall _ _) Hf x Hx).
Qed.

Lemma float_matrix_total (m : Matrix.t) :
  Matrix.is_square m = true -> shaped m -> all_floats m ->
  exists f t,
    calculate m = Ok (Py.Float f) /\
    calculate_with_steps m = Ok (Py.Float f, t).
Proof.
  intros Hsq Hs Hf. pose proof (float_grid_to_list m Hsq Hs Hf) as Hg.
  assert (Hc : exists f, calculate m = Ok (Py.Float f)).
  { unfold calculate. rewrite Hsq. cbn [negb].
    destruct (column_loop_float (Matrix.rows m) (range 0 (Matrix.rows m))
                (Matrix.to_list m) O Hg) as (c & -> & Hc).
    { intros x Hx. apply in_range in Hx. lia. }
    cbn [bind]. destruct c as [[g1 rs1]|r].
    - destruct (diagonal_product_float _ g1 Hc) as (f & ->). cbn [bind].
      destruct (Nat.eqb (rs1 mod 2) 1); simpl; eauto.
    - subst r. eauto. }
  destruct Hc as (f & Hc). exists f.
  destruct (steps_of_calculate m (Py.Float f) (float_grid_renderable _ _ Hg) Hc)
    as (t & Ht).
  eauto.
Qed.

(** On a square matrix of floats, NaN and infinities included, both
    entry points return, with one and the same float: no division by
    zero, no index error, no other exception. *)
Theorem calculate_total_on_floats (m : Matrix.t) :
  Matrix.is_square m = true -> shaped m -> all_floats m ->
  exists f t,
    calculate m = Ok (Py.Float f) /\
    calculate_with_steps m = Ok (Py.Float f, t).
Proof. exact (float_matrix_total m). Qed.

End Floats.

(** The matrix [[1.0, 2.0], [3.0, 4.0]]. *)
Definition float_2x2 : Matrix.t :=
  Matrix.mk
    [[Py.Float Py.one; Py.Float (S754_finite false 4503599627370496 (-51))];
     [Py.Float (S754_finite false 6755399441055744 (-51));
      Py.Float (S754_finite false 4503599627370496 (-50))]] 2 2.

Lemma float_2x2_shaped : shaped float_2x2.
Proof. split; [reflexivity|]. repeat constructor. Qed.

Lemma float_2x2_all_floats : all_floats float_2x2.
Proof. repeat constructor. Qed.

Lemma calculate_total_on_floats_witness :
  exists f t,
    DeterminantCalculator.calculate float_2x2 = Ok (Py.Float f) /\
    DeterminantCalculator.calculate_with_steps float_2x2 = Ok (Py.Float f, t).
Proof.
  exact (calculate_total_on_floats float_2x2 eq_refl float_2x2_shaped
           float_2x2_all_floats).
Defined.


(** * The use case after a successful validation *)

Lemma validate_true_inv (data : list item) :
  fst (CalculateDeterminantUseCase.validate_matrix_data data) = true ->
  Matrix.__init__ data
    = Ok (Matrix.mk (map cells data) (length data) (first_len data)) /\
  Nat.eqb (length data) (first_len data) = true.
Proof.
  unfold CalculateDeterminantUseCase.validate_matrix_data, Matrix.__init__,
    Matrix._validate_matrix.
  destruct data as [|first rest]; [discriminate|].
  set (data := first :: rest).
  destruct (forallb is_list data); cbn [negb]; [|discriminate].
  destruct (forallb (fun row => Nat.eqb (len row) (len first)) data);
    cbn [negb]; [|discriminate].
  destruct (forallb Py.is_number (concat (map cells data)));
    cbn [negb]; [|discriminate].
  change (first_len data) with (len first).
  destruct (Nat.eqb (length data) (len first)); cbn [negb fst]; [|discriminate].
  intros _. split; reflexivity.
Qed.

(** Every element of the data is a float, as the window passes them. *)
Definition float_data (data : list item) : Prop :=
  Forall (fun row => Forall is_float (cells row)) data.

(** When the validation entry point has answered [True], [execute] raises
    none of the validation errors (whatever it raises is an arithmetic,
    index or rendering error), and on data that holds floats only it
    returns a float and its trace. *)
Theorem execute_after_validation (data : list item) :
  fst (CalculateDeterminantUseCase.validate_matrix_data data) = true ->
  raises runtime_error (CalculateDeterminantUseCase.execute data) /\
  (float_data data ->
     exists f t, CalculateDeterminantUseCase.execute data = Ok (Py.Float f, t)).
Proof.
  intros Hv. destruct (validate_true_inv data Hv) as [Hinit Hsq].
  unfold CalculateDeterminantUseCase.execute. rewrite Hinit. cbn [bind].
  split.
  - apply raises_calculate_with_steps_square. exact Hsq.
  - intros Hf.
    destruct (float_matrix_total
                (Matrix.mk (map cells data) (length data) (first_len data)))
      as (f & t & _ & Ht).
    + exact Hsq.
    + exact (proj1 (proj2 (init_invariant _ _ Hinit))).
    + unfold all_floats. cbn [Matrix._data]. apply Forall_fmap.
      eapply Forall_impl; [exact Hf|]. intros row Hr. exact Hr.
    + eauto.
Qed.

Lemma execute_after_validation_witness :
  raises runtime_error
    (CalculateDeterminantUseCase.execute
       [Row [Py.Float Py.one; Py.Float Py.zero];
        Row [Py.Float Py.zero; Py.Float Py.one]]) /\
  (float_data [Row [Py.Float Py.one; Py.Float Py.zero];
               Row [Py.Float Py.zero; Py.Float Py.one]] ->
     exists f t,
       CalculateDeterminantUseCase.execute
         [Row [Py.Float Py.one; Py.Float Py.zero];
          Row [Py.Float Py.zero; Py.Float Py.one]] = Ok (Py.Float f, t)).
Proof.
  apply (execute_after_validation
           [Row [Py.Float Py.one; Py.Float Py.zero];
            Row [Py.Float Py.zero; Py.Float Py.one]]).
  reflexivity.
Defined.

(** * The identity matrix *)

Section Identity.

Import DeterminantCalculator.

Definition identity_entry (i j : nat) : Py.value :=
  if Nat.eqb i j then Py.Float Py.one else Py.Float Py.zero.

Definition identity_grid (n : nat) : grid :=
  map (fun i => map (identity_entry i) (seq 0 n)) (seq 0 n).

(** The [n] by [n] identity matrix, with float entries. *)
Definition identity (n : nat) : Matrix.t := Matrix.mk (identity_grid n) n n.

Lemma identity_cell n k j :
  (k < n)%nat -> (j < n)%nat -> cell (identity_grid n) k j = Ok (identity_entry k j).
Proof.
  intros Hk Hj. unfold cell, getitem, identity_grid.
  rewrite list_lookup_fmap, lookup_seq_lt by exact Hk. cbn [fmap option_fmap option_map bind].
  rewrite list_lookup_fmap, lookup_seq_lt by exact Hj. reflexivity.
Qed.

Lemma identity_column_step n i rs :
  (i < n)%nat ->
  column_step n i (identity_grid n, rs) = Ok (Next (identity_grid n, rs)).
Proof.
  intros Hi. unfold column_step, select_pivot.
  assert (Hmax : find_max_row (identity_grid n) i n = Ok i).
  { unfold find_max_row.
    destruct (for_each_inv (fun r => r = i)
                (fun k max_row =>
                   let* a := cell (identity_grid n) k i in
                   let* a := Py.abs a in
                   let* b := cell (identity_grid n) max_row i in
                   let* b := Py.abs b in
                   let* c := Py.gt a b in
                   Ok (if c then k else max_row))
                (range (i + 1) n)) with (s := i) as (r & Hr & ->);
      [| reflexivity | exact Hr].
    intros k r Hk ->. apply in_range in Hk.
    rewrite !identity_cell by lia. unfold identity_entry.
    rewrite Nat.eqb_refl. destruct (Nat.eqb_neq k i) as [_ ->]; [|lia].
    eexists. split; [vm_compute; reflexivity | reflexivity]. }
  rewrite Hmax. cbn [bind]. rewrite Nat.eqb_refl. cbn [negb bind].
  assert (Hpiv : pivot_is_zero (identity_grid n) i = Ok false).
  { unfold pivot_is_zero. rewrite identity_cell by lia. unfold identity_entry.
    rewrite Nat.eqb_refl. vm_compute. reflexivity. }
  rewrite Hpiv. cbn [bind].
  destruct (for_each_inv (fun g => g = identity_grid n)
              (fun k matrix_data =>
                 let* c := to_eliminate matrix_data k i in
                 if c then
                   let* factor := get_factor matrix_data k i in
                   for_each (range i n) (fun j matrix_data =>
                     update_cell matrix_data i k j factor) matrix_data
                 else Ok matrix_data)
              (range (i + 1) n)) with (s := identity_grid n) as (g & Hg & ->);
    [| reflexivity | rewrite Hg; reflexivity].
  intros k g Hk ->. apply in_range in Hk. unfold to_eliminate.
  rewrite identity_cell by lia. unfold identity_entry.
  destruct (Nat.eqb_neq k i) as [_ ->]; [|lia].
  eexists. split; [vm_compute; reflexivity | reflexivity].
Qed.

Lemma identity_column_loop n xs rs :
  (forall x, In x xs -> (x < n)%nat) ->
  for_ xs (column_step n) (identity_grid n, rs) = Ok (Next (identity_grid n, rs)).
Proof.
  induction xs as [|x xs IH]; intros Hxs; simpl; [reflexivity|].
  rewrite identity_column_step by (apply Hxs; left; reflexivity). cbn [bind].
  apply IH. intros y Hy. apply Hxs. right. exact Hy.
Qed.

Lemma calculate_identity_grid (n : nat) :
  calculate (identity n) = Ok (Py.Float Py.one).
Proof.
  unfold calculate, identity, Matrix.is_square, Matrix.to_list, Matrix.rows.
  cbn [Matrix._rows Matrix._cols Matrix._data]. rewrite Nat.eqb_refl, map_id.
  cbn [negb]. rewrite identity_column_loop.
  2:{ intros x Hx. apply in_range in Hx. lia. }
  cbn [bind]. unfold diagonal_product.
  destruct (for_each_inv (fun d => d = Py.Float Py.one)
              (fun i determinant =>
                 let* d := cell (identity_grid n) i i in Py.mul determinant d)
              (range 0 n)) with (s := Py.Float Py.one) as (d & Hd & ->);
    [| reflexivity | rewrite Hd; reflexivity].
  intros i d Hi ->. apply in_range in Hi. rewrite identity_cell by lia.
  unfold identity_entry. rewrite Nat.eqb_refl.
  eexists. split; [vm_compute; reflexivity | reflexivity].
Qed.

Lemma identity_constructed (n : nat) :
  (1 <= n)%nat -> Matrix.__init__ (map Row (identity_grid n)) = Ok (identity n).
Proof.
  intros Hn.
  assert (Hlen : length (identity_grid n) = n).
  { unfold identity_grid. rewrite length_map, length_seq. reflexivity. }
  rewrite (init_rows (identity_grid n) n).
  - rewrite Hlen. reflexivity.
  - intros E. rewrite E in Hlen. simpl in Hlen. lia.
  - unfold identity_grid. apply Forall_forall. intros r Hr. apply list_elem_of_In in Hr.
    apply in_map_iff in Hr as (i & <- & _).
    rewrite length_map, length_seq. reflexivity.
  - unfold identity_grid. apply Forall_forall. intros r Hr. apply list_elem_of_In in Hr.
    apply in_map_iff in Hr as (i & <- & _).
    apply Forall_forall. intros x Hx. apply list_elem_of_In in Hx.
    apply in_map_iff in Hx as (j & <- & _).
    unfold identity_entry. destruct (Nat.eqb i j); reflexivity.
Qed.

End Identity.

(** The constructor accepts the identity rows of any size [n >= 1], and
    the determinant of the matrix it builds is exactly [1.0]: elimination
    swaps no row and changes no row, whatever the size. *)
Theorem calculate_identity (n : nat) :
  (1 <= n)%nat ->
  exists m, Matrix.__init__ (map Row (identity_grid n)) = Ok m /\
            Matrix.rows m = n /\ Matrix.cols m = n /\
            DeterminantCalculator.calculate m = Ok (Py.Float Py.one).
Proof.
  intros Hn. exists (identity n). split; [apply identity_constructed; exact Hn|].
  split; [reflexivity|]. split; [reflexivity|]. apply calculate_identity_grid.
Qed.

Lemma calculate_identity_witness :
  exists m, Matrix.__init__ (map Row (identity_grid 3)) = Ok m /\
            Matrix.rows m = 3%nat /\ Matrix.cols m = 3%nat /\
            DeterminantCalculator.calculate m = Ok (Py.Float Py.one).
Proof.
  apply (calculate_identity 3). lia.
Defined.

(** * Rows without columns *)

(** The constructor accepts [n >= 1] empty rows: the result is a matrix
    with [n] rows and no column, on which every element access raises the
    index error and both determinant functions raise the not-square
    error. *)
Theorem empty_rows_matrix (n : nat) :
  (1 <= n)%nat ->
  exists m, Matrix.__init__ (repeat (Row []) n) = Ok m /\
            Matrix.rows m = n /\ Matrix.cols m = O /\
            (forall row col, Matrix.get_element m row col = Raise (IndexError msg_index)) /\
            DeterminantCalculator.calculate m = Raise (ValueError msg_not_square) /\
            DeterminantCalculator.calculate_with_steps m = Raise (ValueError msg_not_square).
Proof.
  intros Hn.
  assert (Hmap : repeat (Row []) n = map Row (repeat [] n)).
  { clear Hn. induction n as [|k IH]; simpl; [reflexivity | rewrite IH; reflexivity]. }
  exists (Matrix.mk (repeat [] n) n O). split.
  { rewrite Hmap, (init_rows (repeat [] n) O).
    - rewrite repeat_length. reflexivity.
    - destruct n; [lia | discriminate].
    - apply Forall_forall. intros r Hr. apply list_elem_of_In, repeat_spec in Hr. subst r. reflexivity.
    - apply Forall_forall. intros r Hr. apply list_elem_of_In, repeat_spec in Hr. subst r. constructor. }
  split; [reflexivity|]. split; [reflexivity|]. split.
  { intros row col. unfold Matrix.get_element.
    assert (Hb : Matrix.in_bounds (Matrix.mk (repeat [] n) n O) row col = false).
    { destruct (Matrix.in_bounds _ row col) eqn:E; [|reflexivity].
      apply in_bounds_spec in E. cbn [Matrix._rows Matrix._cols] in E. lia. }
    rewrite Hb. reflexivity. }
  assert (Hsq : Matrix.is_square (Matrix.mk (repeat [] n) n O) = false).
  { unfold Matrix.is_square. cbn [Matrix._rows Matrix._cols].
    apply Nat.eqb_neq. lia. }
  unfold DeterminantCalculator.calculate, DeterminantCalculator.calculate_with_steps.
  rewrite Hsq. split; reflexivity.
Qed.

Lemma empty_rows_matrix_witness :
  exists m, Matrix.__init__ (repeat (Row []) 2) = Ok m /\
            Matrix.rows m = 2%nat /\ Matrix.cols m = O /\
            (forall row col, Matrix.get_element m row col = Raise (IndexError msg_index)) /\
            DeterminantCalculator.calculate m = Raise (ValueError msg_not_square) /\
            DeterminantCalculator.calculate_with_steps m = Raise (ValueError msg_not_square).
Proof.
  apply (empty_rows_matrix 2). lia.
Defined.

(** * Pivot selection *)

Section Pivot.

Import DeterminantCalculator.

(** [abs(a) > abs(b)] on two floats. *)
Definition mag_gt (a b : Py.float) : bool :=
  match SFcompare (Py.fabs a) (Py.fabs b) with Some Gt => true | _ => false end.

Definition is_nan (f : Py.float) : bool :=
  match f with S754_nan => true | _ => false end.

Lemma mag_gt_irrefl a : mag_gt a a = false.
Proof.
  unfold mag_gt. destruct a as [s|s| |s m e]; simpl; try reflexivity.
  rewrite Z.compare_refl, Pos.compare_refl. reflexivity.
Qed.

Lemma finite_compare_cases (e1 e2 : Z) (m1 m2 : positive) :
  match (match e1 ?= e2 with Eq => Pos.compare_cont Eq m1 m2 | c => c end) with
  | Gt => (e2 < e1 \/ (e1 = e2 /\ (m2 < m1)%positive))
  | Lt => (e1 < e2 \/ (e1 = e2 /\ (m1 < m2)%positive))
  | Eq => e1 = e2 /\ m1 = m2
  end.
Proof.
  destruct (Z.compare_spec e1 e2) as [E|E|E]; [|left; exact E|left; exact E].
  change (Pos.compare_cont Eq m1 m2) with (Pos.compare m1 m2).
  destruct (Pos.compare_spec m1 m2); auto.
Qed.

Lemma mag_gt_trans a b c :
  is_nan a = false -> is_nan b = false ->
  mag_gt a b = false -> mag_gt c b = true -> mag_gt c a = true.
Proof.
  unfold mag_gt.
  destruct a as [sa|sa| |sa ma ea]; destruct b as [sb|sb| |sb mb eb];
    destruct c as [sc|sc| |sc mc ec]; simpl; try congruence; intros _ _.
  pose proof (finite_compare_cases ea eb ma mb) as H1.
  pose proof (finite_compare_cases ec eb mc mb) as H2.
  pose proof (finite_compare_cases ec ea mc ma) as H3.
  change (Pos.compare_cont Eq) with Pos.compare in *.
  destruct (match ea ?= eb with Eq => (ma ?= mb)%positive | c => c end);
    destruct (match ec ?= eb with Eq => (mc ?= mb)%positive | c => c end);
    destruct (match ec ?= ea with Eq => (mc ?= ma)%positive | c => c end);
    try congruence; intros _ _; exfalso; lia.
Qed.

Lemma mag_gt_asym a b : mag_gt a b = true -> mag_gt b a = false.
Proof.
  unfold mag_gt.
  destruct a as [sa|sa| |sa ma ea]; destruct b as [sb|sb| |sb mb eb];
    simpl; try congruence.
  pose proof (finite_compare_cases ea eb ma mb) as H1.
  pose proof (finite_compare_cases eb ea mb ma) as H2.
  change (Pos.compare_cont Eq) with Pos.compare in *.
  destruct (match ea ?= eb with Eq => (ma ?= mb)%positive | c => c end);
    destruct (match eb ?= ea with Eq => (mb ?= ma)%positive | c => c end);
    try congruence; intros _; exfalso; lia.
Qed.

(** [abs(matrix_data[k][i]) > abs(matrix_data[r][i])], the test of the
    pivot search. *)
Definition abs_gt (matrix_data : grid) (k r i : nat) : result bool :=
  let* a := cell matrix_data k i in
  let* a := Py.abs a in
  let* b := cell matrix_data r i in
  let* b := Py.abs b in
  Py.gt a b.

(** The float in row [k] of column [i]. *)
Definition col (g : grid) (i k : nat) : Py.float :=
  match cell g k i with Ok (Py.Float f) => f | _ => Py.zero end.

(** No entry of column [i] from row [i] down is a NaN. *)
Definition nan_free (g : grid) (i n : nat) : Prop :=
  forall k, (i <= k < n)%nat -> is_nan (col g i k) = false.

Lemma cell_col n g k i :
  float_grid n g -> (k < n)%nat -> (i < n)%nat ->
  cell g k i = Ok (Py.Float (col g i k)).
Proof.
  intros Hg Hk Hi. unfold col.
  destruct (float_grid_cell n g k i Hg Hk Hi) as (_ & f & _ & _ & ->). reflexivity.
Qed.

Lemma abs_gt_col n g k r i :
  float_grid n g -> (k < n)%nat -> (r < n)%nat -> (i < n)%nat ->
  abs_gt g k r i = Ok (mag_gt (col g i k) (col g i r)).
Proof.
  intros Hg Hk Hr Hi. unfold abs_gt.
  rewrite (cell_col n g k i Hg Hk Hi), (cell_col n g r i Hg Hr Hi). reflexivity.
Qed.

Lemma range_snoc (lo hi : nat) :
  (lo <= hi)%nat -> range lo (S hi) = range lo hi ++ [hi].
Proof.
  intros H. unfold range. replace (S hi - lo)%nat with (S (hi - lo)) by lia.
  rewrite seq_S. replace (lo + (hi - lo))%nat with hi by lia. reflexivity.
Qed.

Lemma find_max_row_upto n g i :
  float_grid n g -> nan_free g i n ->
  forall m, (i + 1 + m <= n)%nat ->
  exists r,
    for_each (range (i + 1) (i + 1 + m)) (fun k max_row =>
      let* a := cell g k i in
      let* a := Py.abs a in
      let* b := cell g max_row i in
      let* b := Py.abs b in
      let* c := Py.gt a b in
      Ok (if c then k else max_row)) i = Ok r /\
    (i <= r < i + 1 + m)%nat /\
    (forall k, (i <= k < i + 1 + m)%nat -> mag_gt (col g i k) (col g i r) = false) /\
    (forall k, (i <= k < r)%nat -> mag_gt (col g i r) (col g i k) = true).
Proof.
  intros Hg Hnan. induction m as [|m IH]; intros Hm.
  - exists i. replace (i + 1 + 0)%nat with (i + 1)%nat by lia.
    unfold range. rewrite Nat.sub_diag. simpl. split; [reflexivity|].
    split; [lia|]. split.
    + intros k Hk. replace k with i by lia. apply mag_gt_irrefl.
    + intros k Hk. lia.
  - destruct IH as (r & Hloop & Hr & Hmax & Hfirst); [lia|].
    replace (i + 1 + S m)%nat with (S (i + 1 + m)) by lia.
    rewrite range_snoc, for_each_app by lia. rewrite Hloop. cbn [bind for_each].
    rewrite (cell_col n g (i + 1 + m) i Hg), (cell_col n g r i Hg) by lia.
    cbn [bind Py.abs].
    change (Py.gt (Py.Float (Py.fabs (col g i (i + 1 + m))))
                  (Py.Float (Py.fabs (col g i r))))
      with (Ok (A := bool) (mag_gt (col g i (i + 1 + m)) (col g i r))).
    cbn [bind].
    destruct (mag_gt (col g i (i + 1 + m)) (col g i r)) eqn:Hc.
    + exists (i + 1 + m)%nat. split; [reflexivity|]. split; [lia|].
      assert (Hlt : forall k, (i <= k < i + 1 + m)%nat ->
                mag_gt (col g i (i + 1 + m)) (col g i k) = true).
      { intros k Hk. apply (mag_gt_trans _ (col g i r)).
        - apply Hnan. lia.
        - apply Hnan. lia.
        - apply Hmax. exact Hk.
        - exact Hc. }
      split; [|exact Hlt].
      intros k Hk. destruct (Nat.eq_dec k (i + 1 + m)%nat) as [->|Hne].
      * apply mag_gt_irrefl.
      * apply mag_gt_asym, Hlt. lia.
    + exists r. split; [reflexivity|]. split; [lia|]. split; [|exact Hfirst].
      intros k Hk. destruct (Nat.eq_dec k (i + 1 + m)%nat) as [->|Hne].
      * exact Hc.
      * apply Hmax. lia.
Qed.

End Pivot.

(** On a working copy of floats whose column [i] holds no NaN from row
    [i] down, the pivot search returns a row [r] of [i..n-1] such that no
    row of that range has an entry of column [i] greater in absolute value
    than row [r]'s ([abs(..) > abs(..)] is false), and every row of the
    range above [r] has one strictly smaller: the first row of the
    largest absolute value wins. *)
Theorem find_max_row_first_largest (n : nat) (g : DeterminantCalculator.grid) (i : nat) :
  float_grid n g -> (i < n)%nat -> nan_free g i n ->
  exists r, DeterminantCalculator.find_max_row g i n = Ok r /\
    (i <= r < n)%nat /\
    (forall k, (i <= k < n)%nat -> abs_gt g k r i = Ok false) /\
    (forall k, (i <= k < r)%nat -> abs_gt g r k i = Ok true).
Proof.
  intros Hg Hi Hnan.
  destruct (find_max_row_upto n g i Hg Hnan (n - (i + 1))) as (r & Hloop & Hr & Hmax & Hfirst);
    [lia|].
  replace (i + 1 + (n - (i + 1)))%nat with n in * by lia.
  exists r. split; [exact Hloop|]. split; [exact Hr|]. split.
  - intros k Hk. rewrite (abs_gt_col n) by (assumption || lia). f_equal. apply Hmax, Hk.
  - intros k Hk. rewrite (abs_gt_col n) by (assumption || lia). f_equal. apply Hfirst, Hk.
Qed.

Definition pivot_grid : DeterminantCalculator.grid :=
  let three := S754_finite false 6755399441055744 (-51) in
  let minus_three := S754_finite true 6755399441055744 (-51) in
  [ [Py.Float Py.one; Py.Float Py.one; Py.Float Py.zero];
    [Py.Float minus_three; Py.Float Py.one; Py.Float Py.one];
    [Py.Float three; Py.Float Py.zero; Py.Float Py.one] ].

Lemma pivot_grid_float : float_grid 3 pivot_grid.
Proof.
  split; [reflexivity|]. repeat constructor.
Qed.

Lemma pivot_grid_nan_free : nan_free pivot_grid 0 3.
Proof.
  intros k _. destruct k as [|[|[|k]]]; reflexivity.
Qed.

Lemma find_max_row_first_largest_witness :
  exists r, DeterminantCalculator.find_max_row pivot_grid 0 3 = Ok r /\
    (0 <= r < 3)%nat /\
    (forall k, (0 <= k < 3)%nat -> abs_gt pivot_grid k r 0 = Ok false) /\
    (forall k, (0 <= k < r)%nat -> abs_gt pivot_grid r k 0 = Ok true).
Proof.
  apply (find_max_row_first_largest 3 pivot_grid 0).
  - exact pivot_grid_float.
  - lia.
  - exact pivot_grid_nan_free.
Defined.

(** * The row swap *)

(** Swapping two rows of the working copy that exist puts each in the
    place of the other and leaves every other row, and the number of
    rows, as they were. *)
Theorem swap_rows_exchange (g : DeterminantCalculator.grid) (i r : nat) :
  (i < length g)%nat -> (r < length g)%nat ->
  exists g', DeterminantCalculator.swap_rows g i r = Ok g' /\
    length g' = length g /\
    g' !! i = g !! r /\ g' !! r = g !! i /\
    (forall k, k <> i -> k <> r -> g' !! k = g !! k).
Proof.
  intros Hi Hr.
  destruct (lookup_lt_is_Some_2 g r) as [a Ha]; [lia|].
  destruct (lookup_lt_is_Some_2 g i) as [b Hb]; [lia|].
  unfold DeterminantCalculator.swap_rows, getitem, setitem.
  rewrite Ha, Hb. cbn [bind].
  rewrite (decide_True (P := (i < length g)%nat)) by lia. cbn [bind].
  rewrite (decide_True (P := (r < length (<[i:=a]> g))%nat))
    by (rewrite length_insert; lia).
  eexists. split; [reflexivity|]. split; [rewrite !length_insert; reflexivity|].
  split; [|split].
  - destruct (Nat.eq_dec i r) as [->|Hne].
    + rewrite list_lookup_insert_eq by (rewrite length_insert; lia). congruence.
    + rewrite list_lookup_insert_ne by congruence.
      rewrite list_lookup_insert_eq by lia. congruence.
  - rewrite list_lookup_insert_eq by (rewrite length_insert; lia). congruence.
  - intros k Hki Hkr. rewrite !list_lookup_insert_ne by congruence. reflexivity.
Qed.

Lemma swap_rows_exchange_witness :
  exists g', DeterminantCalculator.swap_rows pivot_grid 0 1 = Ok g' /\
    length g' = length pivot_grid /\
    g' !! 0%nat = pivot_grid !! 1%nat /\ g' !! 1%nat = pivot_grid !! 0%nat /\
    (forall k, k <> 0%nat -> k <> 1%nat -> g' !! k = pivot_grid !! k).
Proof.
  apply (swap_rows_exchange pivot_grid 0 1); simpl; lia.
Defined.

(** * Failures of the calculation *)

Section Conversion.

(** ** An int that is not zero does not convert to a zero float *)

Lemma digits2_pos_lower (p : positive) :
  2 ^ (Z.pos (digits2_pos p) - 1) <= Z.pos p.
Proof.
  induction p as [p IH|p IH|]; cbn [digits2_pos].
  - rewrite Pos2Z.inj_succ.
    replace (Z.succ (Z.pos (digits2_pos p)) - 1) with (Z.succ (Z.pos (digits2_pos p) - 1)) by lia.
    rewrite Z.pow_succ_r by lia. lia.
  - rewrite Pos2Z.inj_succ.
    replace (Z.succ (Z.pos (digits2_pos p)) - 1) with (Z.succ (Z.pos (digits2_pos p) - 1)) by lia.
    rewrite Z.pow_succ_r by lia. lia.
  - simpl. lia.
Qed.

Lemma shr_1_lower (k : Z) (r : shr_record) :
  0 <= k -> 2 ^ (k + 1) <= shr_m r -> 2 ^ k <= shr_m (shr_1 r).
Proof.
  intros Hk H. rewrite Z.pow_add_r in H by lia. change (2 ^ 1) with 2 in H.
  assert (0 < 2 ^ k) by (apply Z.pow_pos_nonneg; lia).
  destruct r as [m b s]. cbn [shr_m] in H.
  destruct m as [|[p|p|]|p]; cbn [shr_1 shr_m]; lia.
Qed.

Lemma iter_shr_1_lower (p : positive) : forall (k : Z) (r : shr_record),
  0 <= k -> 2 ^ (k + Z.pos p) <= shr_m r -> 2 ^ k <= shr_m (SpecFloat.iter_pos shr_1 p r).
Proof.
  induction p as [p IH|p IH|]; intros k r Hk H; cbn [SpecFloat.iter_pos].
  - apply IH; [exact Hk|]. apply IH; [lia|]. apply shr_1_lower; [lia|].
    replace (k + Z.pos p + Z.pos p + 1) with (k + Z.pos p~1) by lia. exact H.
  - apply IH; [exact Hk|]. apply IH; [lia|].
    replace (k + Z.pos p + Z.pos p) with (k + Z.pos p~0) by lia. exact H.
  - apply shr_1_lower; assumption.
Qed.

Lemma shr_fexp_positive (p : positive) (e : Z) (l : location) :
  emin Py.prec Py.emax <= e ->
  0 < shr_m (fst (shr_fexp Py.prec Py.emax (Z.pos p) e l)) /\
  emin Py.prec Py.emax <= snd (shr_fexp Py.prec Py.emax (Z.pos p) e l).
Proof.
  intros He. unfold shr_fexp, shr.
  assert (Hm : shr_m (shr_record_of_loc (Z.pos p) l) = Z.pos p).
  { destruct l as [|[| |]]; reflexivity. }
  cbn [Zdigits2].
  destruct (fexp Py.prec Py.emax (Z.pos (digits2_pos p) + e) - e) as [|q|q] eqn:En;
    cbn [fst snd]; try (rewrite Hm; lia).
  unfold fexp, emin, Py.prec, Py.emax in *.
  split; [|lia].
  assert (2 ^ 0 <= shr_m (SpecFloat.iter_pos shr_1 q (shr_record_of_loc (Z.pos p) l))).
  { apply iter_shr_1_lower; [lia|]. rewrite Hm.
    transitivity (2 ^ (Z.pos (digits2_pos p) - 1)); [|apply digits2_pos_lower].
    apply Z.pow_le_mono_r; lia. }
  simpl in H. lia.
Qed.

Lemma round_nearest_even_positive (m : Z) (l : location) :
  0 < m -> 0 < round_nearest_even m l.
Proof.
  intros H. destruct l as [|[| |]]; cbn [round_nearest_even]; try lia.
  destruct (Z.even m); lia.
Qed.

Lemma binary_round_aux_nonzero (sx : bool) (p : positive) (e : Z) (l : location) :
  emin Py.prec Py.emax <= e ->
  Py.is_zero (binary_round_aux Py.prec Py.emax sx (Z.pos p) e l) = false.
Proof.
  intros He. unfold binary_round_aux.
  destruct (shr_fexp_positive p e l He) as [H1 H2].
  destruct (shr_fexp Py.prec Py.emax (Z.pos p) e l) as [mrs' e']. cbn [fst snd] in *.
  pose proof (round_nearest_even_positive (shr_m mrs') (loc_of_shr_record mrs') H1) as Hr.
  destruct (round_nearest_even (shr_m mrs') (loc_of_shr_record mrs')) as [|q|q]; try lia.
  destruct (shr_fexp_positive q e' loc_Exact H2) as [H3 _].
  destruct (shr_fexp Py.prec Py.emax (Z.pos q) e' loc_Exact) as [mrs'' e''].
  cbn [fst] in H3. destruct (shr_m mrs'') as [|q'|q']; try lia.
  destruct (e'' <=? Py.emax - Py.prec); reflexivity.
Qed.

Lemma binary_round_nonzero (sx : bool) (p : positive) :
  Py.is_zero (binary_round Py.prec Py.emax sx p 0) = false.
Proof.
  unfold binary_round, shl_align.
  destruct (fexp Py.prec Py.emax (Z.pos (digits2_pos p) + 0) - 0) as [|d|d] eqn:E;
    apply binary_round_aux_nonzero;
    unfold fexp, emin, Py.prec, Py.emax in *; lia.
Qed.

Lemma float_of_int_nonzero (z : Z) (f : Py.float) :
  z <> 0 -> Py.float_of_int z = Ok f -> Py.is_zero f = false.
Proof.
  intros Hz. unfold Py.float_of_int.
  destruct (Py.is_infinite (binary_normalize Py.prec Py.emax z 0 false)); [discriminate|].
  intros [= <-]. destruct z as [|p|p]; [contradiction| |]; apply binary_round_nonzero.
Qed.

End Conversion.

Section Overflow.

Import DeterminantCalculator.

(** [m] returns a value that satisfies [P], or raises [OverflowError]. *)
Definition fails_by_overflow {A : Type} (P : A -> Prop) (m : result A) : Prop :=
  match m with Ok a => P a | Raise e => e = OverflowError end.

Lemma overflow_bind {A B : Type} (P : A -> Prop) (Q : B -> Prop)
    (m : result A) (k : A -> result B) :
  fails_by_overflow P m -> (forall a, P a -> fails_by_overflow Q (k a)) ->
  fails_by_overflow Q (bind m k).
Proof. destruct m; simpl; auto. Qed.

Lemma overflow_for_each {S : Type} (P : S -> Prop) (body : nat -> S -> result S) xs :
  (forall x s, In x xs -> P s -> fails_by_overflow P (body x s)) ->
  forall s, P s -> fails_by_overflow P (for_each xs body s).
Proof.
  induction xs as [|x xs IH]; intros Hb s Hs; simpl; [exact Hs|].
  apply (overflow_bind P); [apply Hb; [left; reflexivity | exact Hs]|].
  intros s' Hs'. apply IH; [|exact Hs']. intros y t Hy. apply Hb. right. exact Hy.
Qed.

Lemma overflow_Ok {A : Type} (P : A -> Prop) (a : A) :
  P a -> fails_by_overflow P (Ok a).
Proof. intros H. exact H. Qed.

(** An [n] by [n] working copy that holds ints and floats only. *)
Definition num_grid (n : nat) (g : grid) : Prop :=
  length g = n /\
  Forall (fun r => length r = n /\ Forall (fun x => Py.is_number x = true) r) g.

(** A divisor that does not raise [ZeroDivisionError]. *)
Definition nonzero (v : Py.value) : Prop :=
  match v with
  | Py.Int z => z <> 0
  | Py.Float f => Py.is_zero f = false
  | Py.Str _ => False
  end.

Lemma num_grid_cell n g k j :
  num_grid n g -> (k < n)%nat -> (j < n)%nat ->
  exists r x, g !! k = Some r /\ r !! j = Some x /\ Py.is_number x = true /\
              cell g k j = Ok x.
Proof.
  intros [Hn Hall] Hk Hj.
  destruct (lookup_lt_is_Some_2 g k) as [r Hr]; [lia|].
  destruct (proj1 (Forall_lookup _ _) Hall _ _ Hr) as [Hlen Hf].
  destruct (lookup_lt_is_Some_2 r j) as [x Hx]; [lia|].
  pose proof (proj1 (Forall_lookup _ _) Hf _ _ Hx) as Hfx.
  exists r, x. unfold cell, getitem. rewrite Hr. cbn [bind]. rewrite Hx. auto.
Qed.

Lemma num_grid_set_cell n g k j v :
  num_grid n g -> (k < n)%nat -> (j < n)%nat -> Py.is_number v = true ->
  exists r, g !! k = Some r /\
    set_cell g k j v = Ok (<[k := <[j := v]> r]> g) /\
    num_grid n (<[k := <[j := v]> r]> g).
Proof.
  intros [Hn Hall] Hk Hj Hv.
  destruct (lookup_lt_is_Some_2 g k) as [r Hr]; [lia|].
  destruct (proj1 (Forall_lookup _ _) Hall _ _ Hr) as [Hlen Hf].
  exists r. split; [exact Hr|]. split.
  - unfold set_cell, getitem, setitem. rewrite Hr. cbn [bind].
    rewrite (decide_True (P := (j < length r)%nat)) by lia. cbn [bind].
    rewrite (decide_True (P := (k < length g)%nat)) by lia. reflexivity.
  - split; [rewrite length_insert; exact Hn|].
    apply Forall_insert; [exact Hall|]. split; [rewrite length_insert; exact Hlen|].
    apply Forall_insert; [exact Hf | exact Hv].
Qed.

Lemma abs_number v :
  Py.is_number v = true -> exists w, Py.abs v = Ok w /\ Py.is_number w = true.
Proof. destruct v; [eauto | eauto | discriminate]. Qed.

Lemma gt_number a b :
  Py.is_number a = true -> Py.is_number b = true -> exists c, Py.gt a b = Ok c.
Proof. destruct a, b; try discriminate; unfold Py.gt; simpl; eauto. Qed.

Lemma lt_number a b :
  Py.is_number a = true -> Py.is_number b = true -> exists c, Py.lt a b = Ok c.
Proof. destruct a, b; try discriminate; unfold Py.lt; simpl; eauto. Qed.

Lemma find_max_row_num n g i :
  num_grid n g -> (i < n)%nat ->
  exists r, find_max_row g i n = Ok r /\ (i <= r < n)%nat.
Proof.
  intros Hg Hi. unfold find_max_row.
  apply (for_each_inv (fun r => (i <= r < n)%nat)); [|lia].
  intros k r Hk Hr. apply in_range in Hk.
  destruct (num_grid_cell n g k i Hg) as (_ & a & _ & _ & Ha & ->); [lia | lia|].
  cbn [bind]. destruct (abs_number a Ha) as (a' & -> & Ha'). cbn [bind].
  destruct (num_grid_cell n g r i Hg) as (_ & b & _ & _ & Hb & ->); [lia | lia|].
  cbn [bind]. destruct (abs_number b Hb) as (b' & -> & Hb'). cbn [bind].
  destruct (gt_number a' b' Ha' Hb') as (c & ->). cbn [bind].
  eexists. split; [reflexivity|]. destruct c; lia.
Qed.

Lemma swap_rows_num n g i r :
  num_grid n g -> (i < n)%nat -> (r < n)%nat ->
  exists g', swap_rows g i r = Ok g' /\ num_grid n g'.
Proof.
  intros [Hn Hall] Hi Hr.
  destruct (lookup_lt_is_Some_2 g r) as [a Ha]; [lia|].
  destruct (lookup_lt_is_Some_2 g i) as [b Hb]; [lia|].
  unfold swap_rows, getitem, setitem. rewrite Ha, Hb. cbn [bind].
  rewrite (decide_True (P := (i < length g)%nat)) by lia. cbn [bind].
  rewrite (decide_True (P := (r < length (<[i:=a]> g))%nat))
    by (rewrite length_insert; lia).
  eexists. split; [reflexivity|]. split; [rewrite !length_insert; exact Hn|].
  apply Forall_insert; [apply Forall_insert; [exact Hall|]|].
  - exact (proj1 (Forall_lookup _ _) Hall _ _ Ha).
  - exact (proj1 (Forall_lookup _ _) Hall _ _ Hb).
Qed.

Lemma select_pivot_num n g rs i :
  num_grid n g -> (i < n)%nat ->
  exists g' rs', select_pivot n i (g, rs) = Ok (g', rs') /\ num_grid n g'.
Proof.
  intros Hg Hi. unfold select_pivot.
  destruct (find_max_row_num n g i Hg Hi) as (r & -> & Hr). cbn [bind].
  destruct (negb (Nat.eqb r i)).
  - destruct (swap_rows_num n g i r Hg Hi) as (g' & -> & Hg'); [lia|].
    cbn [bind]. eauto.
  - eauto.
Qed.

(** The singularity test leaves a pivot that is not zero. *)
Lemma pivot_is_zero_num n g i :
  num_grid n g -> (i < n)%nat ->
  exists ri p b, g !! i = Some ri /\ ri !! i = Some p /\ Py.is_number p = true /\
    pivot_is_zero g i = Ok b /\ (b = false -> nonzero p).
Proof.
  intros Hg Hi.
  destruct (num_grid_cell n g i i Hg Hi Hi) as (ri & p & Hri & Hp & Hnum & Hc).
  exists ri, p. unfold pivot_is_zero. rewrite Hc. cbn [bind].
  destruct (abs_number p Hnum) as (p' & Hp' & Hnum').
  destruct (lt_number p' (Py.Float Py.eps) Hnum' eq_refl) as (b & Hb).
  rewrite Hp'. cbn [bind]. rewrite Hb. exists b. repeat split; auto.
  intros ->. destruct p as [z|f|s]; [| |discriminate]; cbn [nonzero].
  - intros ->. injection Hp' as <-. vm_compute in Hb. discriminate Hb.
  - injection Hp' as <-. destruct f; try reflexivity.
    vm_compute in Hb. discriminate Hb.
Qed.

Lemma to_float_overflow v :
  Py.is_number v = true -> fails_by_overflow (fun _ => True) (Py.to_float v).
Proof.
  destruct v as [z|f|s]; [| exact (fun _ => Logic.I) | discriminate].
  intros _. unfold Py.to_float, Py.float_of_int.
  destruct (Py.is_infinite _); simpl; auto.
Qed.

(** The division is guarded: with a divisor that is not zero it returns a
    float or overflows. *)
Lemma truediv_guarded a p :
  Py.is_number a = true -> Py.is_number p = true -> nonzero p ->
  fails_by_overflow (fun v => Py.is_number v = true) (Py.truediv a p).
Proof.
  intros Ha Hp Hnz.
  destruct a as [x|x|s]; [| |discriminate]; destruct p as [y|y|s]; try discriminate;
    cbn [nonzero] in Hnz; unfold Py.truediv.
  - unfold Py.int_truediv. destruct (Z.eqb_spec y 0) as [E|_]; [contradiction|].
    destruct (x =? 0); [reflexivity|].
    destruct (SFdiv_core_binary _ _ _ _ _ _) as [[q e] l].
    destruct (Py.is_infinite _); reflexivity.
  - apply (overflow_bind (fun _ => True)); [apply to_float_overflow; reflexivity|].
    intros fx _. cbn [Py.to_float bind]. rewrite Hnz. reflexivity.
  - cbn [Py.to_float bind]. destruct (Py.float_of_int y) as [fy|e] eqn:Ey.
    + cbn [bind]. rewrite (float_of_int_nonzero y fy Hnz Ey). reflexivity.
    + pose proof (to_float_overflow (Py.Int y) eq_refl) as H.
      cbn [Py.to_float] in H. rewrite Ey in H. exact H.
  - cbn [Py.to_float bind]. rewrite Hnz. reflexivity.
Qed.

Lemma mul_overflow a b :
  Py.is_number a = true -> Py.is_number b = true ->
  fails_by_overflow (fun v => Py.is_number v = true) (Py.mul a b).
Proof.
  intros Ha Hb. destruct a as [x|x|s]; [| |discriminate];
    destruct b as [y|y|s]; try discriminate; unfold Py.mul; try reflexivity.
  - apply (overflow_bind (fun _ => True)); [apply to_float_overflow; reflexivity|].
    intros fx _. reflexivity.
  - cbn [Py.to_float bind].
    apply (overflow_bind (fun _ => True)); [apply (to_float_overflow (Py.Int y)); reflexivity|].
    intros fy _. reflexivity.
Qed.

Lemma sub_overflow a b :
  Py.is_number a = true -> Py.is_number b = true ->
  fails_by_overflow (fun v => Py.is_number v = true) (Py.sub a b).
Proof.
  intros Ha Hb. destruct a as [x|x|s]; [| |discriminate];
    destruct b as [y|y|s]; try discriminate; unfold Py.sub; try reflexivity.
  - apply (overflow_bind (fun _ => True)); [apply to_float_overflow; reflexivity|].
    intros fx _. reflexivity.
  - cbn [Py.to_float bind].
    apply (overflow_bind (fun _ => True)); [apply (to_float_overflow (Py.Int y)); reflexivity|].
    intros fy _. reflexivity.
Qed.

(** One row update: the row [k] changes, the pivot row [i] does not. *)
Lemma update_cell_num n g i k j factor ri :
  num_grid n g -> (i < n)%nat -> (k < n)%nat -> (j < n)%nat -> k <> i ->
  g !! i = Some ri -> Py.is_number factor = true ->
  fails_by_overflow (fun g' => num_grid n g' /\ g' !! i = Some ri)
    (update_cell g i k j factor).
Proof.
  intros Hg Hi Hk Hj Hne Hri Hf. unfold update_cell.
  destruct (num_grid_cell n g k j Hg Hk Hj) as (rk & old & Hrk & _ & Hold & ->).
  cbn [bind].
  destruct (num_grid_cell n g i j Hg Hi Hj) as (_ & p & _ & _ & Hp & ->).
  cbn [bind].
  apply (overflow_bind (fun v => Py.is_number v = true)); [apply mul_overflow; assumption|].
  intros prod Hprod.
  apply (overflow_bind (fun v => Py.is_number v = true)); [apply sub_overflow; assumption|].
  intros new Hnew.
  destruct (num_grid_set_cell n g k j new Hg Hk Hj Hnew) as (r & Hr & -> & Hg').
  split; [exact Hg'|]. rewrite list_lookup_insert_ne by exact Hne. exact Hri.
Qed.

Lemma eliminate_column_num n g i ri p :
  num_grid n g -> (i < n)%nat ->
  g !! i = Some ri -> ri !! i = Some p -> Py.is_number p = true -> nonzero p ->
  fails_by_overflow (num_grid n)
    (for_each (range (i + 1) n) (fun k matrix_data =>
      let* c := to_eliminate matrix_data k i in
      if c then
        let* factor := get_factor matrix_data k i in
        for_each (range i n) (fun j matrix_data =>
          update_cell matrix_data i k j factor) matrix_data
      else Ok matrix_data) g).
Proof.
  intros Hg Hi Hri Hp Hnum Hnz.
  assert (H : fails_by_overflow (fun g => num_grid n g /\ g !! i = Some ri)
    (for_each (range (i + 1) n) (fun k matrix_data =>
      let* c := to_eliminate matrix_data k i in
      if c then
        let* factor := get_factor matrix_data k i in
        for_each (range i n) (fun j matrix_data =>
          update_cell matrix_data i k j factor) matrix_data
      else Ok matrix_data) g)).
  { apply overflow_for_each; [|auto].
    intros k g1 Hk [Hg1 Hri1]. apply in_range in Hk.
    unfold to_eliminate, get_factor.
    destruct (num_grid_cell n g1 k i Hg1) as (_ & a & _ & _ & Ha & Hca); [lia | lia|].
    rewrite Hca. cbn [bind].
    destruct (abs_number a Ha) as (a' & -> & Ha'). cbn [bind].
    destruct (gt_number a' (Py.Float Py.eps) Ha' eq_refl) as (c & ->). cbn [bind].
    destruct c; [|split; assumption].
    assert (Hcii : cell g1 i i = Ok p).
    { unfold cell, getitem. rewrite Hri1. cbn [bind]. rewrite Hp. reflexivity. }
    rewrite Hcii. cbn [bind].
    apply (overflow_bind (fun v => Py.is_number v = true));
      [apply truediv_guarded; assumption|].
    intros factor Hfac.
    apply overflow_for_each; [|auto].
    intros j g2 Hj [Hg2 Hri2]. apply in_range in Hj.
    apply (update_cell_num n g2 i k j factor ri); try assumption; lia. }
  destruct (for_each _ _ g); simpl in *; [exact (proj1 H) | exact H].
Qed.

Definition column_outcome (n : nat) (c : ctl state Py.value) : Prop :=
  match c with
  | Next (g', _) => num_grid n g'
  | Return r => r = Py.Float Py.zero
  end.

Lemma column_step_num n i g rs :
  num_grid n g -> (i < n)%nat ->
  fails_by_overflow (column_outcome n) (column_step n i (g, rs)).
Proof.
  intros Hg Hi. unfold column_step.
  destruct (select_pivot_num n g rs i Hg Hi) as (g1 & rs1 & -> & Hg1).
  cbn [bind].
  destruct (pivot_is_zero_num n g1 i Hg1 Hi)
    as (ri & p & b & Hri & Hp & Hnum & -> & Hz).
  cbn [bind]. destruct b; [reflexivity|].
  apply (overflow_bind (num_grid n)).
  - apply (eliminate_column_num n g1 i ri p); auto.
  - intros g2 Hg2. exact Hg2.
Qed.

Lemma column_loop_num n xs : forall g rs,
  num_grid n g -> (forall x, In x xs -> (x < n)%nat) ->
  fails_by_overflow (column_outcome n) (for_ xs (column_step n) (g, rs)).
Proof.
  induction xs as [|x xs IH]; intros g rs Hg Hxs; simpl.
  - exact Hg.
  - apply (overflow_bind (column_outcome n)).
    + apply column_step_num; [exact Hg|]. apply Hxs. left. reflexivity.
    + intros [[g1 rs1]|r] Hc.
      * apply IH; [exact Hc|]. intros y Hy. apply Hxs. right. exact Hy.
      * exact Hc.
Qed.

Lemma diagonal_product_num n g :
  num_grid n g ->
  fails_by_overflow (fun v => Py.is_number v = true) (diagonal_product g n).
Proof.
  intros Hg. unfold diagonal_product.
  apply overflow_for_each; [|reflexivity].
  intros i d Hi Hd. apply in_range in Hi.
  destruct (num_grid_cell n g i i Hg) as (_ & x & _ & _ & Hx & ->); [lia | lia|].
  cbn [bind]. apply mul_overflow; assumption.
Qed.

Lemma num_grid_to_list m :
  Matrix.is_square m = true -> shaped m -> numeric m ->
  num_grid (Matrix.rows m) (Matrix.to_list m).
Proof.
  intros Hsq [Hn Hall] Hf. apply Nat.eqb_eq in Hsq.
  unfold Matrix.to_list, Matrix.rows. rewrite map_id.
  split; [symmetry; exact Hn|]. apply Forall_forall. intros r Hr. split.
  - rewrite Hsq. exact (proj1 (Forall_forall _ _) Hall r Hr).
  - exact (proj1 (Forall_forall _ _) Hf r Hr).
Qed.

Lemma calculate_overflow m :
  Matrix.is_square m = true -> shaped m -> numeric m ->
  fails_by_overflow (fun v => Py.is_number v = true) (calculate m).
Proof.
  intros Hsq Hs Hf. pose proof (num_grid_to_list m Hsq Hs Hf) as Hg.
  unfold calculate. rewrite Hsq. cbn [negb].
  apply (overflow_bind (column_outcome (Matrix.rows m))).
  - apply column_loop_num; [exact Hg|]. intros x Hx. apply in_range in Hx. lia.
  - intros [[g1 rs1]|r] Hc; [|simpl in Hc; subst r; reflexivity].
    apply (overflow_bind (fun v => Py.is_number v = true)).
    + apply (diagonal_product_num _ g1 Hc).
    + intros d Hd. destruct (Nat.eqb (rs1 mod 2) 1); [|exact Hd].
      destruct d; [reflexivity | reflexivity | discriminate].
Qed.

End Overflow.

(** On a square matrix that the constructor built, [calculate] returns a
    number or raises [OverflowError], and nothing else: every index is in
    range, every operand is a number, and no division has a zero divisor,
    because a pivot that passes the singularity test is not zero and a
    nonzero int does not convert to a zero float. *)
Theorem calculate_fails_only_by_overflow (data : list item) (m : Matrix.t) :
  Matrix.__init__ data = Ok m -> Matrix.is_square m = true ->
  (exists d, DeterminantCalculator.calculate m = Ok d /\ Py.is_number d = true) \/
  DeterminantCalculator.calculate m = Raise OverflowError.
Proof.
  intros Hinit Hsq. destruct (init_invariant data m Hinit) as (_ & Hs & Hnum).
  pose proof (calculate_overflow m Hsq Hs Hnum) as H.
  destruct (DeterminantCalculator.calculate m) as [d|e]; simpl in H.
  - left. eauto.
  - right. rewrite H. reflexivity.
Qed.

Section OverflowSteps.

Import DeterminantCalculator.

Lemma format_f_overflow v :
  Py.is_number v = true -> fails_by_overflow (fun _ => True) (format_f v).
Proof.
  destruct v as [z|f|s]; [| exact (fun _ => Logic.I) | discriminate].
  intros _. exact (to_float_overflow (Py.Int z) eq_refl).
Qed.

Lemma format_row_overflow row :
  Forall (fun x => Py.is_number x = true) row ->
  fails_by_overflow (fun _ => True) (format_row row).
Proof.
  induction row as [|x row IH]; intros H; cbn [format_row]; [exact Logic.I|].
  apply (overflow_bind (fun _ => True)); [apply format_f_overflow, (Forall_inv H)|].
  intros f _. apply (overflow_bind (fun _ => True)); [apply IH, (Forall_inv_tail H)|].
  intros fs _. exact Logic.I.
Qed.

Lemma add_matrix_overflow (g : grid) : forall steps,
  Forall (Forall (fun x => Py.is_number x = true)) g ->
  fails_by_overflow (fun _ => True) (_add_matrix_to_steps steps g).
Proof.
  induction g as [|row g IH]; intros steps H; cbn [_add_matrix_to_steps];
    [exact Logic.I|].
  apply (overflow_bind (fun _ => True)); [apply format_row_overflow, (Forall_inv H)|].
  intros fs _. apply IH, (Forall_inv_tail H).
Qed.

Lemma num_grid_numbers n g :
  num_grid n g -> Forall (Forall (fun x => Py.is_number x = true)) g.
Proof.
  intros [_ H]. apply Forall_forall. intros r Hr.
  exact (proj2 (proj1 (Forall_forall _ _) H r Hr)).
Qed.

Lemma select_pivot_steps_num n g rs steps i :
  num_grid n g -> (i < n)%nat ->
  fails_by_overflow (fun st => num_grid n (fst (fst st)))
    (select_pivot_steps n i (g, rs, steps)).
Proof.
  intros Hg Hi. unfold select_pivot_steps.
  destruct (find_max_row_num n g i Hg Hi) as (r & -> & Hr). cbn [bind].
  destruct (negb (Nat.eqb r i)); [|exact Hg].
  destruct (swap_rows_num n g i r Hg Hi) as (g' & -> & Hg'); [lia|].
  cbn [bind]. apply (overflow_bind (fun _ => True)).
  - apply add_matrix_overflow, (num_grid_numbers n), Hg'.
  - intros steps' _. exact Hg'.
Qed.

Lemma eliminate_row_steps_num n g i k factor ri steps :
  num_grid n g -> (i < n)%nat -> (k < n)%nat -> k <> i ->
  g !! i = Some ri -> Py.is_number factor = true ->
  fails_by_overflow (fun ms => num_grid n (fst ms) /\ fst ms !! i = Some ri)
    (eliminate_row_steps i n k factor g steps).
Proof.
  intros Hg Hi Hk Hne Hri Hf. unfold eliminate_row_steps.
  apply (overflow_for_each (fun ms => num_grid n (fst ms) /\ fst ms !! i = Some ri));
    [|split; assumption].
  intros j [g1 st1] Hj [Hg1 Hri1]. cbn [fst] in *. apply in_range in Hj.
  destruct (num_grid_cell n g1 k j Hg1) as (_ & old & _ & _ & _ & ->); [lia | lia|].
  cbn [bind].
  apply (overflow_bind (fun g' => num_grid n g' /\ g' !! i = Some ri)).
  - apply (update_cell_num n g1 i k j factor ri); try assumption; lia.
  - intros g2 Hg2. destruct (Nat.eqb j i); [|exact Hg2].
    apply (overflow_bind (fun _ => True)); [apply format_f_overflow, Hf|].
    intros f _. exact Hg2.
Qed.

Definition column_outcome_steps (n : nat)
    (c : ctl state_steps (Py.value * list line)) : Prop :=
  match c with
  | Next st => num_grid n (fst (fst st))
  | Return r => fst r = Py.Float Py.zero
  end.

Lemma column_step_steps_num n i g rs steps :
  num_grid n g -> (i < n)%nat ->
  fails_by_overflow (column_outcome_steps n) (column_step_steps n i (g, rs, steps)).
Proof.
  intros Hg Hi. unfold column_step_steps.
  apply (overflow_bind (fun st => num_grid n (fst (fst st))));
    [apply select_pivot_steps_num; assumption|].
  intros [[g1 rs1] st1] Hg1. cbn [fst] in Hg1.
  destruct (pivot_is_zero_num n g1 i Hg1 Hi)
    as (ri & p & b & Hri & Hp & Hnum & -> & Hz).
  cbn [bind]. destruct b; [reflexivity|].
  assert (Hcii : forall g2, g2 !! i = Some ri -> cell g2 i i = Ok p).
  { intros g2 H2. unfold cell, getitem. rewrite H2. cbn [bind]. rewrite Hp. reflexivity. }
  rewrite (Hcii g1 Hri). cbn [bind].
  apply (overflow_bind (fun ms => num_grid n (fst ms) /\ fst ms !! i = Some ri)).
  - apply (overflow_for_each (fun ms => num_grid n (fst ms) /\ fst ms !! i = Some ri));
      [|split; assumption].
    intros k [g2 st2] Hk [Hg2 Hri2]. cbn [fst] in *. apply in_range in Hk.
    unfold to_eliminate, get_factor.
    destruct (num_grid_cell n g2 k i Hg2) as (_ & a & _ & _ & Ha & Hca); [lia | lia|].
    rewrite Hca. cbn [bind].
    destruct (abs_number a Ha) as (a' & -> & Ha'). cbn [bind].
    destruct (gt_number a' (Py.Float Py.eps) Ha' eq_refl) as (c & ->). cbn [bind].
    destruct c; [|split; assumption].
    rewrite (Hcii g2 Hri2). cbn [bind].
    apply (overflow_bind (fun v => Py.is_number v = true));
      [apply truediv_guarded; auto|].
    intros factor Hfac. cbn [bind].
    apply (overflow_bind (fun _ => True)); [apply format_f_overflow, Hfac|].
    intros f _.
    apply (overflow_bind (fun ms => num_grid n (fst ms) /\ fst ms !! i = Some ri)).
    + apply (eliminate_row_steps_num n g2 i k factor ri); try assumption; lia.
    + intros [g3 st3] [Hg3 Hri3]. cbn [fst] in *.
      apply (overflow_bind (fun _ => True)).
      * apply add_matrix_overflow, (num_grid_numbers n), Hg3.
      * intros st4 _. split; assumption.
  - intros [g2 st2] [Hg2 _]. exact Hg2.
Qed.

Lemma column_loop_steps_num n xs : forall g rs steps,
  num_grid n g -> (forall x, In x xs -> (x < n)%nat) ->
  fails_by_overflow (column_outcome_steps n)
    (for_ xs (column_step_steps n) (g, rs, steps)).
Proof.
  induction xs as [|x xs IH]; intros g rs steps Hg Hxs; simpl.
  - exact Hg.
  - apply (overflow_bind (column_outcome_steps n)).
    + apply column_step_steps_num; [exact Hg|]. apply Hxs. left. reflexivity.
    + intros [[[g1 rs1] st1]|r] Hc.
      * apply IH; [exact Hc|]. intros y Hy. apply Hxs. right. exact Hy.
      * exact Hc.
Qed.

Lemma collect_diagonal_num n g steps :
  num_grid n g ->
  fails_by_overflow (fun ds => Forall (fun x => Py.is_number x = true) (fst ds))
    (collect_diagonal g n steps).
Proof.
  intros Hg. unfold collect_diagonal.
  apply (overflow_for_each
           (fun ds => Forall (fun x => Py.is_number x = true) (fst ds)));
    [|constructor].
  intros i [ds st] Hi Hds. cbn [fst] in *. apply in_range in Hi.
  destruct (num_grid_cell n g i i Hg) as (_ & x & _ & _ & Hx & ->); [lia | lia|].
  cbn [bind fst fails_by_overflow]. apply Forall_app. split; [exact Hds|].
  constructor; [exact Hx | constructor].
Qed.

Lemma multiply_diagonal_num ds : forall i d steps,
  Forall (fun x => Py.is_number x = true) ds -> Py.is_number d = true ->
  fails_by_overflow (fun r => Py.is_number (fst r) = true)
    (multiply_diagonal i ds d steps).
Proof.
  induction ds as [|x ds IH]; intros i d steps Hds Hd; cbn [multiply_diagonal].
  - exact Hd.
  - apply (overflow_bind (fun v => Py.is_number v = true)).
    + apply mul_overflow; [exact Hd | exact (Forall_inv Hds)].
    + intros d' Hd'. apply IH; [exact (Forall_inv_tail Hds) | exact Hd'].
Qed.

Lemma calculate_with_steps_overflow m :
  Matrix.is_square m = true -> shaped m -> numeric m ->
  fails_by_overflow (fun r => Py.is_number (fst r) = true) (calculate_with_steps m).
Proof.
  intros Hsq Hs Hf. pose proof (num_grid_to_list m Hsq Hs Hf) as Hg.
  unfold calculate_with_steps. rewrite Hsq. cbn [negb]. rewrite map_id.
  apply (overflow_bind (fun _ => True)).
  { apply add_matrix_overflow, (num_grid_numbers (Matrix.rows m)), Hg. }
  intros st0 _.
  apply (overflow_bind (column_outcome_steps (Matrix.rows m))).
  { apply column_loop_steps_num; [exact Hg|]. intros x Hx. apply in_range in Hx. lia. }
  intros [[[g1 rs1] st1]|r] Hc; [|simpl in Hc |- *; rewrite Hc; reflexivity].
  cbn [column_outcome_steps fst] in Hc.
  apply (overflow_bind (fun _ => True)).
  { apply add_matrix_overflow, (num_grid_numbers (Matrix.rows m)), Hc. }
  intros st2 _.
  apply (overflow_bind (fun ds => Forall (fun x => Py.is_number x = true) (fst ds))).
  { apply collect_diagonal_num, Hc. }
  intros [ds st3] Hds. cbn [fst] in Hds.
  apply (overflow_bind (fun r => Py.is_number (fst r) = true)).
  { apply multiply_diagonal_num; [exact Hds | reflexivity]. }
  intros [d st4] Hd. cbn [fst] in Hd.
  destruct (Nat.eqb (rs1 mod 2) 1); [|exact Hd].
  destruct d as [z|f|s]; [| |discriminate]; reflexivity.
Qed.

End OverflowSteps.

Lemma calculate_fails_only_by_overflow_witness :
  (exists d, DeterminantCalculator.calculate example_2x2 = Ok d /\
             Py.is_number d = true) \/
  DeterminantCalculator.calculate example_2x2 = Raise OverflowError.
Proof.
  apply (calculate_fails_only_by_overflow
           [Row [Py.Int 1; Py.Int 2]; Row [Py.Int 3; Py.Int 4]] example_2x2).
  - reflexivity.
  - reflexivity.
Defined.

(** Once [validate_matrix_data] has answered [True] for the data,
    [execute] on the same data returns a number with its trace or raises
    [OverflowError]: validation rules out every other failure of the
    constructor, of the elimination and of the rendering of the trace. *)
Theorem execute_fails_only_by_overflow (data : list item) :
  fst (CalculateDeterminantUseCase.validate_matrix_data data) = true ->
  (exists d t, CalculateDeterminantUseCase.execute data = Ok (d, t) /\
               Py.is_number d = true) \/
  CalculateDeterminantUseCase.execute data = Raise OverflowError.
Proof.
  intros Hv. destruct (validate_true_inv data Hv) as [Hinit Hsq].
  destruct (init_invariant _ _ Hinit) as (_ & Hs & Hnum).
  unfold CalculateDeterminantUseCase.execute. rewrite Hinit. cbn [bind].
  pose proof (calculate_with_steps_overflow
                (Matrix.mk (map cells data) (length data) (first_len data))
                Hsq Hs Hnum) as H.
  destruct (DeterminantCalculator.calculate_with_steps _) as [[d t]|e]; simpl in H.
  - left. eauto.
  - right. rewrite H. reflexivity.
Qed.

Lemma execute_fails_only_by_overflow_witness :
  (exists d t,
     CalculateDeterminantUseCase.execute
       [Row [Py.Int 2; Py.Float Py.one]; Row [Py.Int 1; Py.Int 3]] = Ok (d, t) /\
     Py.is_number d = true) \/
  CalculateDeterminantUseCase.execute
    [Row [Py.Int 2; Py.Float Py.one]; Row [Py.Int 1; Py.Int 3]] = Raise OverflowError.
Proof.
  apply (execute_fails_only_by_overflow
           [Row [Py.Int 2; Py.Float Py.one]; Row [Py.Int 1; Py.Int 3]]).
  reflexivity.
Defined.

(** The overflow does happen: a one by one matrix of an int too large
    for a float passes the validation and makes [execute] raise. *)
Lemma execute_overflow_reachable :
  fst (CalculateDeterminantUseCase.validate_matrix_data [Row [Py.Int (10 ^ 400)]]) = true /\
  CalculateDeterminantUseCase.execute [Row [Py.Int (10 ^ 400)]] = Raise OverflowError.
Proof. split; vm_compute; reflexivity. Qed.

(** * The working copy as a shared, mutable object *)

(** The rows of a matrix are list objects, and the elimination updates
    them in place.  Here the lists live in a store, a matrix holds the
    address of its list of rows, and the code reads and writes through
    addresses, as Python does. *)

Module Store.

(** A list of numbers (a row), or a list of rows given by their
    addresses. *)
Inductive obj : Type :=
  | Cells (row : list Py.value)
  | Refs (rows : list nat).

Abbreviation heap := (list obj).

(** A computation on the store; an exception keeps the writes made
    before it. *)
Definition M (A : Type) : Type := heap -> result A * heap.

Definition ret {A : Type} (a : A) : M A := fun h => (Ok a, h).

Definition lift {A : Type} (r : result A) : M A := fun h => (r, h).

Definition bindM {A B : Type} (m : M A) (k : A -> M B) : M B :=
  fun h =>
    match m h with
    | (Ok a, h') => k a h'
    | (Raise e, h') => (Raise e, h')
    end.

Notation "'let!' x ':=' m 'in' k" := (bindM m (fun x => k))
  (at level 10, x pattern, m at level 100, k at level 200).

(** A new list object. *)
Definition alloc (o : obj) : M nat := fun h => (Ok (length h), h ++ [o]).

Definition read_cells (a : nat) : M (list Py.value) :=
  fun h =>
    match h !! a with
    | Some (Cells row) => (Ok row, h)
    | _ => (Raise TypeError, h)
    end.

Definition read_refs (a : nat) : M (list nat) :=
  fun h =>
    match h !! a with
    | Some (Refs rows) => (Ok rows, h)
    | _ => (Raise TypeError, h)
    end.

Definition write (a : nat) (o : obj) : M unit := fun h => (Ok tt, <[a:=o]> h).

Fixpoint for_each {S : Type} (xs : list nat) (body : nat -> S -> M S) (s : S) : M S :=
  match xs with
  | [] => ret s
  | x :: xs' => let! s' := body x s in for_each xs' body s'
  end.

Fixpoint for_ {S R : Type} (xs : list nat) (body : nat -> S -> M (ctl S R)) (s : S)
    : M (ctl S R) :=
  match xs with
  | [] => ret (Next s)
  | x :: xs' =>
      let! c := body x s in
      match c with
      | Next s' => for_ xs' body s'
      | Return r => ret (Return r)
      end
  end.

(** A [Matrix] object: [_data] is the address of its list of rows. *)
Record t : Type := mk { _data : nat; _rows : nat; _cols : nat }.

Definition is_square (m : t) : bool := Nat.eqb (_rows m) (_cols m).

(** [[row[:] for row in self._data]]: a new list of new rows. *)
Fixpoint copy_rows (rows : list nat) : M (list nat) :=
  match rows with
  | [] => ret []
  | a :: rest =>
      let! row := read_cells a in
      let! a' := alloc (Cells row) in
      let! rest' := copy_rows rest in
      ret (a' :: rest')
  end.

Definition to_list (m : t) : M nat :=
  let! rows := read_refs (_data m) in
  let! rows' := copy_rows rows in
  alloc (Refs rows').

(** [matrix_data[k][j]] *)
Definition cell (matrix_data k j : nat) : M Py.value :=
  let! rows := read_refs matrix_data in
  let! a := lift (getitem rows k) in
  let! row := read_cells a in
  lift (getitem row j).

(** [matrix_data[k][j] = v] *)
Definition set_cell (matrix_data k j : nat) (v : Py.value) : M unit :=
  let! rows := read_refs matrix_data in
  let! a := lift (getitem rows k) in
  let! row := read_cells a in
  let! row' := lift (setitem row j v) in
  write a (Cells row').

(** [matrix_data[i] = a] *)
Definition set_row (matrix_data i a : nat) : M unit :=
  let! rows := read_refs matrix_data in
  let! rows' := lift (setitem rows i a) in
  write matrix_data (Refs rows').

Definition find_max_row (matrix_data i n : nat) : M nat :=
  for_each (range (i + 1) n) (fun k max_row =>
    let! a := cell matrix_data k i in
    let! a := lift (Py.abs a) in
    let! b := cell matrix_data max_row i in
    let! b := lift (Py.abs b) in
    let! c := lift (Py.gt a b) in
    ret (if c then k else max_row)) i.

(** [matrix_data[i], matrix_data[max_row] = matrix_data[max_row], matrix_data[i]]:
    the two rows change places, no row is copied. *)
Definition swap_rows (matrix_data i max_row : nat) : M unit :=
  let! rows := read_refs matrix_data in
  let! a := lift (getitem rows max_row) in
  let! b := lift (getitem rows i) in
  let! _ := set_row matrix_data i a in
  set_row matrix_data max_row b.

Definition pivot_is_zero (matrix_data i : nat) : M bool :=
  let! p := cell matrix_data i i in
  let! p := lift (Py.abs p) in
  lift (Py.lt p (Py.Float Py.eps)).

Definition to_eliminate (matrix_data k i : nat) : M bool :=
  let! a := cell matrix_data k i in
  let! a := lift (Py.abs a) in
  lift (Py.gt a (Py.Float Py.eps)).

Definition get_factor (matrix_data k i : nat) : M Py.value :=
  let! a := cell matrix_data k i in
  let! p := cell matrix_data i i in
  lift (Py.truediv a p).

(** [matrix_data[k][j] -= factor * matrix_data[i][j]] *)
Definition update_cell (matrix_data i k j : nat) (factor : Py.value) : M unit :=
  let! old := cell matrix_data k j in
  let! p := cell matrix_data i j in
  let! prod := lift (Py.mul factor p) in
  let! new := lift (Py.sub old prod) in
  set_cell matrix_data k j new.

Definition select_pivot (matrix_data n i row_swaps : nat) : M nat :=
  let! max_row := find_max_row matrix_data i n in
  if negb (Nat.eqb max_row i) then
    let! _ := swap_rows matrix_data i max_row in
    ret (S row_swaps)
  else ret row_swaps.

Definition column_step (matrix_data n i row_swaps : nat) : M (ctl nat Py.value) :=
  let! row_swaps := select_pivot matrix_data n i row_swaps in
  let! singular := pivot_is_zero matrix_data i in
  if singular then ret (Return (Py.Float Py.zero))
  else
    let! _ :=
      for_each (range (i + 1) n) (fun k _ =>
        let! c := to_eliminate matrix_data k i in
        if c then
          let! factor := get_factor matrix_data k i in
          for_each (range i n) (fun j _ =>
            update_cell matrix_data i k j factor) tt
        else ret tt) tt in
    ret (Next row_swaps).

Definition diagonal_product (matrix_data n : nat) : M Py.value :=
  for_each (range 0 n) (fun i determinant =>
    let! d := cell matrix_data i i in
    lift (Py.mul determinant d)) (Py.Float Py.one).

Definition calculate (matrix : t) : M Py.value :=
  if negb (is_square matrix) then lift (Raise (ValueError msg_not_square))
  else
    let! matrix_data := to_list matrix in
    let n := _rows matrix in
    let! c := for_ (range 0 n) (column_step matrix_data n) O in
    match c with
    | Return r => ret r
    | Next row_swaps =>
        let! determinant := diagonal_product matrix_data n in
        if Nat.eqb (row_swaps mod 2) 1 then lift (Py.neg determinant)
        else ret determinant
    end.

(** The rows of the list object at [a], read out of the store. *)
Fixpoint rows_at (h : heap) (rows : list nat) : option (list (list Py.value)) :=
  match rows with
  | [] => Some []
  | a :: rest =>
      match h !! a, rows_at h rest with
      | Some (Cells row), Some g => Some (row :: g)
      | _, _ => None
      end
  end.

Definition contents (h : heap) (a : nat) : option (list (list Py.value)) :=
  match h !! a with
  | Some (Refs rows) => rows_at h rows
  | _ => None
  end.

Definition read_rows (rows : list nat) : M (list (list Py.value)) :=
  fun h =>
    match rows_at h rows with
    | Some g => (Ok g, h)
    | None => (Raise TypeError, h)
    end.

(** [Matrix(data)] for the list object at address [data].  The
    validation reads the rows; [self._data = [row[:] for row in data]]
    then makes a new list of new rows.  In this store every row of
    [data] is a list object; a row that is not a list is the business of
    the store-free constructor. *)
Definition __init__ (data : nat) : M t :=
  let! rows := read_refs data in
  let! g := read_rows rows in
  let! _ := lift (Matrix._validate_matrix (map Row g)) in
  let! rows' := copy_rows rows in
  let! a := alloc (Refs rows') in
  ret {| _data := a;
         _rows := length rows;
         _cols := match g with first :: _ => length first | [] => O end |}.

End Store.

Section PrivateCopy.

Import DeterminantCalculator.

(** The store before the call held [n0] objects; the working copy is the
    list object at address [md]. *)
Variable n0 : nat.
Variable md : nat.

(** The objects that were there before the call are as they were. *)
Definition framed (h h' : Store.heap) : Prop :=
  forall a, (a < n0)%nat -> h' !! a = h !! a.

(** The working copy [md] holds the grid [g] in rows that are distinct
    objects, all of them made after the call began. *)
Definition linked (h : Store.heap) (g : grid) : Prop :=
  exists refs,
    h !! md = Some (Store.Refs refs) /\ (n0 <= md)%nat /\ NoDup refs /\
    (forall i a, refs !! i = Some a -> (n0 <= a)%nat) /\
    Forall2 (fun a row => h !! a = Some (Store.Cells row)) refs g.

(** A read leaves the store as it is and finds what the grid holds. *)
Definition reads {A : Type} (p : result A) (m : Store.M A) (h : Store.heap) : Prop :=
  m h = (p, h).

(** An update of the working copy follows the update of the grid, and
    touches no object that was there before the call, also when it
    raises. *)
Definition updates (p : result grid) (m : Store.M unit) (h : Store.heap) : Prop :=
  exists h',
    m h = (let* _ := p in Ok tt, h') /\ framed h h' /\
    forall g', p = Ok g' -> linked h' g'.

Lemma framed_refl h : framed h h.
Proof. intros a _. reflexivity. Qed.

Lemma framed_trans h1 h2 h3 : framed h1 h2 -> framed h2 h3 -> framed h1 h3.
Proof. intros H1 H2 a Ha. rewrite (H2 a Ha). exact (H1 a Ha). Qed.

Lemma bindM_Ok {A B : Type} (m : Store.M A) (k : A -> Store.M B) h a h' :
  m h = (Ok a, h') -> Store.bindM m k h = k a h'.
Proof. intros H. unfold Store.bindM. rewrite H. reflexivity. Qed.

Lemma bindM_Raise {A B : Type} (m : Store.M A) (k : A -> Store.M B) h e h' :
  m h = (Raise e, h') -> Store.bindM m k h = (Raise e, h').
Proof. intros H. unfold Store.bindM. rewrite H. reflexivity. Qed.

Lemma bindM_reads {A B : Type} (p : result A) (m : Store.M A) (k : A -> Store.M B) h :
  reads p m h ->
  Store.bindM m k h = match p with Ok a => k a h | Raise e => (Raise e, h) end.
Proof. intros H. unfold Store.bindM. rewrite H. destruct p; reflexivity. Qed.

Lemma bindM_lift {A B : Type} (p : result A) (k : A -> Store.M B) h :
  Store.bindM (Store.lift p) k h =
  match p with Ok a => k a h | Raise e => (Raise e, h) end.
Proof. unfold Store.bindM, Store.lift. destruct p; reflexivity. Qed.

Lemma cell_reads h g k j :
  linked h g -> reads (cell g k j) (Store.cell md k j) h.
Proof.
  intros (refs & Hmd & _ & _ & _ & Hrows). unfold reads, Store.cell, cell.
  unfold Store.bindM at 1. unfold Store.read_refs. rewrite Hmd.
  rewrite bindM_lift. unfold getitem at 1 3.
  destruct (refs !! k) as [a|] eqn:Ha.
  - destruct (Forall2_lookup_l _ _ _ _ _ Hrows Ha) as (row & Hrow & Hcells).
    rewrite Hrow. cbn [bind]. unfold Store.bindM, Store.read_cells.
    rewrite Hcells. reflexivity.
  - assert (Hg : g !! k = None).
    { apply lookup_ge_None. rewrite <- (Forall2_length _ _ _ Hrows).
      apply lookup_ge_None. exact Ha. }
    rewrite Hg. reflexivity.
Qed.

Lemma for_each_reads {S : Type} (body : nat -> S -> result S)
    (bodyM : nat -> S -> Store.M S) h xs :
  (forall x s, reads (body x s) (bodyM x s) h) ->
  forall s, reads (for_each xs body s) (Store.for_each xs bodyM s) h.
Proof.
  intros Hb. induction xs as [|x xs IH]; intros s; [reflexivity|].
  unfold reads in *. cbn [Store.for_each for_each].
  rewrite (bindM_reads _ _ _ _ (Hb x s)). destruct (body x s) as [s'|e]; cbn [bind].
  - apply IH.
  - reflexivity.
Qed.

Ltac reads_step :=
  match goal with
  | |- context [Store.bindM (Store.cell md ?k ?j) ?f ?h] =>
      rewrite (bindM_reads _ (Store.cell md k j) f h (cell_reads h _ k j ltac:(eassumption)))
  | |- context [Store.bindM (Store.lift ?p) ?f ?h] => rewrite (bindM_lift p f h)
  | |- context [bind ?p _] => destruct p; cbn [bind]
  end.

Lemma find_max_row_reads h g i n :
  linked h g -> reads (find_max_row g i n) (Store.find_max_row md i n) h.
Proof.
  intros Hl. unfold find_max_row, Store.find_max_row.
  apply for_each_reads. intros k r. unfold reads.
  repeat reads_step; reflexivity.
Qed.

Lemma pivot_is_zero_reads h g i :
  linked h g -> reads (pivot_is_zero g i) (Store.pivot_is_zero md i) h.
Proof.
  intros Hl. unfold reads, pivot_is_zero, Store.pivot_is_zero.
  repeat reads_step; reflexivity.
Qed.

Lemma to_eliminate_reads h g k i :
  linked h g -> reads (to_eliminate g k i) (Store.to_eliminate md k i) h.
Proof.
  intros Hl. unfold reads, to_eliminate, Store.to_eliminate.
  repeat reads_step; reflexivity.
Qed.

Lemma get_factor_reads h g k i :
  linked h g -> reads (get_factor g k i) (Store.get_factor md k i) h.
Proof.
  intros Hl. unfold reads, get_factor, Store.get_factor.
  repeat reads_step; reflexivity.
Qed.

Lemma diagonal_product_reads h g n :
  linked h g -> reads (diagonal_product g n) (Store.diagonal_product md n) h.
Proof.
  intros Hl. unfold diagonal_product, Store.diagonal_product.
  apply for_each_reads. intros i d. unfold reads.
  repeat reads_step; reflexivity.
Qed.

Lemma linked_row (h : Store.heap) (g : grid) refs k a :
  h !! md = Some (Store.Refs refs) ->
  Forall2 (fun a row => h !! a = Some (Store.Cells row)) refs g ->
  refs !! k = Some a -> a <> md.
Proof.
  intros Hmd Hrows Ha ->.
  destruct (Forall2_lookup_l _ _ _ _ _ Hrows Ha) as (row & _ & Hc). congruence.
Qed.

Lemma set_cell_updates h g k j v :
  linked h g -> updates (set_cell g k j v) (Store.set_cell md k j v) h.
Proof.
  intros (refs & Hmd & Hn0 & Hnd & Hfresh & Hrows).
  unfold updates, set_cell, Store.set_cell.
  unfold Store.bindM at 1. unfold Store.read_refs. rewrite Hmd.
  rewrite bindM_lift. unfold getitem.
  destruct (refs !! k) as [a|] eqn:Ha.
  - destruct (Forall2_lookup_l _ _ _ _ _ Hrows Ha) as (row & Hrow & Hcells).
    rewrite Hrow. cbn [bind]. unfold Store.bindM at 1. unfold Store.read_cells.
    rewrite Hcells. rewrite bindM_lift.
    destruct (setitem row j v) as [row'|e] eqn:Hset; cbn [bind].
    + unfold setitem. rewrite (decide_True (P := (k < length g)%nat))
        by (eapply lookup_lt_Some; exact Hrow).
      unfold Store.write. eexists. split; [reflexivity|]. split.
      * intros b Hb. rewrite list_lookup_insert_ne; [reflexivity|].
        pose proof (Hfresh k a Ha). lia.
      * intros g' [= <-]. exists refs. split.
        { rewrite list_lookup_insert_ne by (eapply linked_row; eassumption). exact Hmd. }
        split; [exact Hn0|]. split; [exact Hnd|]. split; [exact Hfresh|].
        apply Forall2_same_length_lookup. split.
        { rewrite length_insert. exact (Forall2_length _ _ _ Hrows). }
        intros i a' row1 Ha' Hrow1.
        destruct (Nat.eq_dec i k) as [->|Hne].
        { rewrite list_lookup_insert_eq in Hrow1 by (eapply lookup_lt_Some; exact Hrow).
          assert (a' = a) by congruence. subst a'.
          rewrite list_lookup_insert_eq by (eapply lookup_lt_Some; exact Hcells).
          congruence. }
        { rewrite list_lookup_insert_ne in Hrow1 by congruence.
          rewrite list_lookup_insert_ne.
          - exact (Forall2_lookup_lr _ _ _ _ _ _ Hrows Ha' Hrow1).
          - intros ->. apply Hne. exact (NoDup_lookup _ _ _ _ Hnd Ha' Ha). }
    + eexists. split; [reflexivity|]. split; [apply framed_refl | discriminate].
  - assert (Hg : g !! k = None).
    { apply lookup_ge_None. rewrite <- (Forall2_length _ _ _ Hrows).
      apply lookup_ge_None. exact Ha. }
    rewrite Hg. cbn [bind]. eexists. split; [reflexivity|].
    split; [apply framed_refl | discriminate].
Qed.

Lemma set_row_step (h : Store.heap) refs i a :
  h !! md = Some (Store.Refs refs) ->
  Store.set_row md i a h =
  match setitem refs i a with
  | Ok refs' => (Ok tt, <[md := Store.Refs refs']> h)
  | Raise e => (Raise e, h)
  end.
Proof.
  intros Hmd. unfold Store.set_row. unfold Store.bindM at 1.
  unfold Store.read_refs. rewrite Hmd. rewrite bindM_lift.
  destruct (setitem refs i a); reflexivity.
Qed.

Lemma swap_rows_updates h g i r :
  linked h g -> updates (swap_rows g i r) (Store.swap_rows md i r) h.
Proof.
  intros (refs & Hmd & Hn0 & Hnd & Hfresh & Hrows).
  pose proof (Forall2_length _ _ _ Hrows) as Hlen.
  unfold updates, swap_rows, Store.swap_rows.
  unfold Store.bindM at 1. unfold Store.read_refs. rewrite Hmd.
  rewrite bindM_lift. unfold getitem.
  destruct (refs !! r) as [a|] eqn:Ha.
  2:{ assert (Hg : g !! r = None).
      { apply lookup_ge_None. rewrite <- Hlen. apply lookup_ge_None. exact Ha. }
      rewrite Hg. cbn [bind]. eexists. split; [reflexivity|].
      split; [apply framed_refl | discriminate]. }
  destruct (Forall2_lookup_l _ _ _ _ _ Hrows Ha) as (ra & Hra & Hca).
  rewrite Hra. cbn [bind]. rewrite bindM_lift.
  destruct (refs !! i) as [b|] eqn:Hb.
  2:{ assert (Hg : g !! i = None).
      { apply lookup_ge_None. rewrite <- Hlen. apply lookup_ge_None. exact Hb. }
      rewrite Hg. cbn [bind]. eexists. split; [reflexivity|].
      split; [apply framed_refl | discriminate]. }
  destruct (Forall2_lookup_l _ _ _ _ _ Hrows Hb) as (rb & Hrb & Hcb).
  rewrite Hrb. cbn [bind].
  pose proof (lookup_lt_Some _ _ _ Ha) as Hr.
  pose proof (lookup_lt_Some _ _ _ Hb) as Hi.
  pose proof (lookup_lt_Some _ _ _ Hmd) as Hmdlt.
  unfold Store.bindM. rewrite (set_row_step h refs i a Hmd).
  unfold setitem.
  rewrite (decide_True (P := (i < length refs)%nat)) by lia.
  rewrite (decide_True (P := (i < length g)%nat)) by lia. cbn [bind].
  rewrite (set_row_step _ (<[i:=a]> refs) r b)
    by (apply list_lookup_insert_eq; exact Hmdlt).
  unfold setitem.
  rewrite (decide_True (P := (r < length (<[i:=a]> refs))%nat))
    by (rewrite length_insert; lia).
  rewrite (decide_True (P := (r < length (<[i:=ra]> g))%nat))
    by (rewrite length_insert; lia).
  eexists. split; [reflexivity|]. split.
  { intros c Hc. rewrite !list_lookup_insert_ne by lia. reflexivity. }
  intros g' [= <-].
  - exists (<[r:=b]> (<[i:=a]> refs)).
    assert (Hlook : forall x c, <[r:=b]> (<[i:=a]> refs) !! x = Some c ->
              (x = r /\ c = b) \/ (x <> r /\ x = i /\ c = a) \/
              (x <> r /\ x <> i /\ refs !! x = Some c)).
    { intros x c Hx. destruct (Nat.eq_dec x r) as [->|Hxr].
      - rewrite list_lookup_insert_eq in Hx by (rewrite length_insert; lia).
        left. split; congruence.
      - rewrite list_lookup_insert_ne in Hx by congruence.
        destruct (Nat.eq_dec x i) as [->|Hxi].
        + rewrite list_lookup_insert_eq in Hx by lia. right. left.
          repeat split; congruence.
        + rewrite list_lookup_insert_ne in Hx by congruence. right. right. auto. }
    split.
    { rewrite list_insert_insert_eq. apply list_lookup_insert_eq. exact Hmdlt. }
    split; [exact Hn0|]. split.
    { apply NoDup_alt. intros x y c Hx Hy.
      pose proof (NoDup_lookup refs) as Hinj.
      destruct (Hlook x c Hx) as [[Hx1 Hx2]|[(Hxr & Hx1 & Hx2)|(Hxr & Hxi & Hx')]];
        destruct (Hlook y c Hy) as [[Hy1 Hy2]|[(Hyr & Hy1 & Hy2)|(Hyr & Hyi & Hy')]];
        subst;
        try (pose proof (Hinj _ _ _ Hnd Ha Hb));
        try (pose proof (Hinj _ _ _ Hnd Hx' Ha));
        try (pose proof (Hinj _ _ _ Hnd Hx' Hb));
        try (pose proof (Hinj _ _ _ Hnd Hy' Ha));
        try (pose proof (Hinj _ _ _ Hnd Hy' Hb));
        try (pose proof (Hinj _ _ _ Hnd Hx' Hy'));
        lia. }
    split.
    { intros x c Hx.
      destruct (Hlook x c Hx) as [[Hx1 Hx2]|[(Hxr & Hx1 & Hx2)|(Hxr & Hxi & Hx')]];
        subst; eapply Hfresh; eassumption. }
    apply Forall2_same_length_lookup. split; [rewrite !length_insert; exact Hlen|].
    intros x c row Hx Hrow.
    assert (Hcells : forall c' row', h !! c' = Some (Store.Cells row') ->
              <[md:=Store.Refs (<[r:=b]> (<[i:=a]> refs))]>
                (<[md:=Store.Refs (<[i:=a]> refs)]> h) !! c' = Some (Store.Cells row')).
    { intros c' row' Hc'. rewrite !list_lookup_insert_ne by congruence. exact Hc'. }
    apply Hcells.
    destruct (Hlook x c Hx) as [[Hx1 Hx2]|[(Hxr & Hx1 & Hx2)|(Hxr & Hxi & Hx')]].
    + subst x c. rewrite list_lookup_insert_eq in Hrow by (rewrite length_insert; lia).
      congruence.
    + subst x c. rewrite list_lookup_insert_ne in Hrow by congruence.
      rewrite list_lookup_insert_eq in Hrow by lia. congruence.
    + rewrite !list_lookup_insert_ne in Hrow by congruence.
      exact (Forall2_lookup_lr _ _ _ _ _ _ Hrows Hx' Hrow).
Qed.

Ltac raised :=
  eexists; split; [reflexivity|]; split; [apply framed_refl | discriminate].

Lemma update_cell_updates h g i k j factor :
  linked h g ->
  updates (update_cell g i k j factor) (Store.update_cell md i k j factor) h.
Proof.
  intros Hl. unfold update_cell, Store.update_cell.
  unfold updates at 1.
  rewrite (bindM_reads _ _ _ _ (cell_reads h g k j Hl)).
  destruct (cell g k j) as [old|e]; cbn [bind]; [|raised].
  rewrite (bindM_reads _ _ _ _ (cell_reads h g i j Hl)).
  destruct (cell g i j) as [p|e]; cbn [bind]; [|raised].
  rewrite bindM_lift. destruct (Py.mul factor p) as [prod|e]; cbn [bind]; [|raised].
  rewrite bindM_lift. destruct (Py.sub old prod) as [new|e]; cbn [bind]; [|raised].
  apply set_cell_updates. exact Hl.
Qed.

Lemma for_each_updates (body : nat -> grid -> result grid)
    (bodyM : nat -> unit -> Store.M unit) xs :
  (forall x g h, linked h g -> updates (body x g) (bodyM x tt) h) ->
  forall g h, linked h g ->
    updates (for_each xs body g) (Store.for_each xs bodyM tt) h.
Proof.
  intros Hb. induction xs as [|x xs IH]; intros g h Hl.
  - exists h. split; [reflexivity|]. split; [apply framed_refl|].
    intros g' [= <-]. exact Hl.
  - destruct (Hb x g h Hl) as (h1 & E & Hf & Hl1).
    unfold updates. cbn [for_each Store.for_each].
    destruct (body x g) as [g1|e]; cbn [bind] in *.
    + rewrite (bindM_Ok _ _ _ _ _ E).
      destruct (IH g1 h1 (Hl1 g1 eq_refl)) as (h2 & E2 & Hf2 & Hl2).
      exists h2. split; [exact E2|]. split; [|exact Hl2].
      exact (framed_trans _ _ _ Hf Hf2).
    + rewrite (bindM_Raise _ _ _ _ _ E). exists h1. split; [reflexivity|].
      split; [exact Hf | discriminate].
Qed.

(** The pivot search and the swap: the rows change places in the working
    copy only. *)
Definition updates_state (p : result state) (m : Store.M nat) (h : Store.heap) : Prop :=
  exists h',
    m h = (let* st := p in Ok (snd st), h') /\ framed h h' /\
    forall g' rs', p = Ok (g', rs') -> linked h' g'.

Lemma select_pivot_updates h g n i rs :
  linked h g ->
  updates_state (select_pivot n i (g, rs)) (Store.select_pivot md n i rs) h.
Proof.
  intros Hl. unfold updates_state, select_pivot, Store.select_pivot.
  rewrite (bindM_reads _ _ _ _ (find_max_row_reads h g i n Hl)).
  destruct (find_max_row g i n) as [r|e]; cbn [bind]; [|raised].
  destruct (negb (Nat.eqb r i)).
  - destruct (swap_rows_updates h g i r Hl) as (h1 & E & Hf & Hl1).
    destruct (swap_rows g i r) as [g1|e]; cbn [bind] in *.
    + rewrite (bindM_Ok _ _ _ _ _ E). exists h1. split; [reflexivity|].
      split; [exact Hf|]. intros g' rs' [= <- _]. apply Hl1. reflexivity.
    + rewrite (bindM_Raise _ _ _ _ _ E). exists h1. split; [reflexivity|].
      split; [exact Hf | discriminate].
  - exists h. split; [reflexivity|]. split; [apply framed_refl|].
    intros g' rs' [= <- _]. exact Hl.
Qed.

Definition erase_grid (c : ctl state Py.value) : ctl nat Py.value :=
  match c with
  | Next (_, row_swaps) => Next row_swaps
  | Return r => Return r
  end.

Definition updates_ctl (p : result (ctl state Py.value))
    (m : Store.M (ctl nat Py.value)) (h : Store.heap) : Prop :=
  exists h',
    m h = (let* c := p in Ok (erase_grid c), h') /\ framed h h' /\
    forall g' rs', p = Ok (Next (g', rs')) -> linked h' g'.

Lemma column_step_updates h g n i rs :
  linked h g ->
  updates_ctl (column_step n i (g, rs)) (Store.column_step md n i rs) h.
Proof.
  intros Hl. unfold updates_ctl, column_step, Store.column_step.
  destruct (select_pivot_updates h g n i rs Hl) as (h1 & E & Hf & Hl1).
  destruct (select_pivot n i (g, rs)) as [[g1 rs1]|e]; cbn [bind snd] in *.
  2:{ rewrite (bindM_Raise _ _ _ _ _ E). exists h1. split; [reflexivity|].
      split; [exact Hf | discriminate]. }
  rewrite (bindM_Ok _ _ _ _ _ E). specialize (Hl1 g1 rs1 eq_refl).
  rewrite (bindM_reads _ _ _ _ (pivot_is_zero_reads h1 g1 i Hl1)).
  destruct (pivot_is_zero g1 i) as [singular|e]; cbn [bind].
  2:{ exists h1. split; [reflexivity|]. split; [exact Hf | discriminate]. }
  destruct singular.
  { exists h1. split; [reflexivity|]. split; [exact Hf | discriminate]. }
  match goal with
  | |- context [Store.for_each (range (i + 1) n) ?bM tt] =>
      match goal with
      | |- context [for_each (range (i + 1) n) ?b g1] =>
          destruct (for_each_updates b bM (range (i + 1) n)) with (g := g1) (h := h1)
            as (h2 & E2 & Hf2 & Hl2)
      end
  end.
  - intros k g2 h2 Hl2. cbv beta.
    unfold updates.
    rewrite (bindM_reads _ _ _ _ (to_eliminate_reads h2 g2 k i Hl2)).
    destruct (to_eliminate g2 k i) as [c|e]; cbn [bind]; [|raised].
    destruct c.
    + rewrite (bindM_reads _ _ _ _ (get_factor_reads h2 g2 k i Hl2)).
      destruct (get_factor g2 k i) as [factor|e]; cbn [bind]; [|raised].
      apply (for_each_updates
               (fun j matrix_data => update_cell matrix_data i k j factor)
               (fun j _ => Store.update_cell md i k j factor)); [|exact Hl2].
      intros j g3 h3 Hl3. apply update_cell_updates. exact Hl3.
    + exists h2. split; [reflexivity|]. split; [apply framed_refl|].
      intros g' [= <-]. exact Hl2.
  - exact Hl1.
  - destruct (for_each _ _ g1) as [g2|e]; cbn [bind] in *.
    + rewrite (bindM_Ok _ _ _ _ _ E2). exists h2. split; [reflexivity|].
      split; [exact (framed_trans _ _ _ Hf Hf2)|].
      intros g' rs' [= <- _]. apply Hl2. reflexivity.
    + rewrite (bindM_Raise _ _ _ _ _ E2). exists h2. split; [reflexivity|].
      split; [exact (framed_trans _ _ _ Hf Hf2) | discriminate].
Qed.

Lemma column_loop_updates n xs : forall h g rs,
  linked h g ->
  updates_ctl (for_ xs (column_step n) (g, rs))
    (Store.for_ xs (Store.column_step md n) rs) h.
Proof.
  induction xs as [|x xs IH]; intros h g rs Hl.
  - exists h. split; [reflexivity|]. split; [apply framed_refl|].
    intros g' rs' [= <- _]. exact Hl.
  - destruct (column_step_updates h g n x rs Hl) as (h1 & E & Hf & Hl1).
    unfold updates_ctl. cbn [for_ Store.for_].
    destruct (column_step n x (g, rs)) as [[[g1 rs1]|r]|e]; cbn [bind erase_grid] in *.
    + rewrite (bindM_Ok _ _ _ _ _ E).
      destruct (IH h1 g1 rs1 (Hl1 g1 rs1 eq_refl)) as (h2 & E2 & Hf2 & Hl2).
      exists h2. split; [exact E2|]. split; [|exact Hl2].
      exact (framed_trans _ _ _ Hf Hf2).
    + rewrite (bindM_Ok _ _ _ _ _ E). exists h1. split; [reflexivity|].
      split; [exact Hf | discriminate].
    + rewrite (bindM_Raise _ _ _ _ _ E). exists h1. split; [reflexivity|].
      split; [exact Hf | discriminate].
Qed.

End PrivateCopy.

Lemma rows_at_app (h x : Store.heap) rows g :
  Store.rows_at h rows = Some g -> Store.rows_at (h ++ x) rows = Some g.
Proof.
  revert g. induction rows as [|a rest IH]; intros g; cbn [Store.rows_at]; [auto|].
  destruct (h !! a) as [[row|refs]|] eqn:Ha; try discriminate.
  destruct (Store.rows_at h rest) as [g'|]; [|discriminate].
  intros [= <-]. rewrite (lookup_app_l_Some _ _ _ _ Ha), (IH g' eq_refl). reflexivity.
Qed.

Lemma copy_rows_spec rows : forall (h : Store.heap) g,
  Store.rows_at h rows = Some g ->
  Store.copy_rows rows h =
  (Ok (seq (length h) (length g)), h ++ map Store.Cells g).
Proof.
  induction rows as [|a rest IH]; intros h g; cbn [Store.rows_at Store.copy_rows].
  - intros [= <-]. unfold Store.ret. simpl. rewrite app_nil_r. reflexivity.
  - destruct (h !! a) as [[row|refs]|] eqn:Ha; try discriminate.
    destruct (Store.rows_at h rest) as [g'|] eqn:Hrest; [|discriminate].
    intros [= <-]. unfold Store.bindM at 1. unfold Store.read_cells. rewrite Ha.
    unfold Store.bindM at 1. unfold Store.alloc.
    unfold Store.bindM.
    rewrite (IH (h ++ [Store.Cells row]) g' (rows_at_app h _ rest g' Hrest)).
    unfold Store.ret. rewrite length_app, <- app_assoc. cbn [length map app seq].
    rewrite Nat.add_1_r. reflexivity.
Qed.

Lemma to_list_linked (h : Store.heap) (m : Store.t) g :
  Store.contents h (Store._data m) = Some g ->
  exists md h',
    Store.to_list m h = (Ok md, h') /\ linked (length h) md h' g /\
    framed (length h) h h'.
Proof.
  unfold Store.contents.
  destruct (h !! Store._data m) as [[row|refs]|] eqn:Hm; try discriminate.
  intros Hrows. unfold Store.to_list. unfold Store.bindM at 1.
  unfold Store.read_refs. rewrite Hm. unfold Store.bindM.
  rewrite (copy_rows_spec refs h g Hrows). unfold Store.alloc.
  eexists. eexists. split; [reflexivity|]. split.
  - exists (seq (length h) (length g)). split.
    { apply list_lookup_middle. reflexivity. }
    split; [rewrite length_app; lia|]. split; [apply NoDup_seq|]. split.
    { intros i a Ha. apply lookup_seq in Ha. lia. }
    apply Forall2_same_length_lookup. split; [apply length_seq|].
    intros i a row Ha Hrow. apply lookup_seq in Ha as [-> Hi].
    rewrite lookup_app_l by (rewrite length_app, length_map; lia).
    rewrite lookup_app_r by lia.
    replace (length h + i - length h)%nat with i by lia.
    rewrite list_lookup_fmap, Hrow. reflexivity.
  - intros a Ha. rewrite lookup_app_l by (rewrite length_app; lia).
    apply lookup_app_l. exact Ha.
Qed.

Lemma rows_at_framed (h h' : Store.heap) rows g :
  framed (length h) h h' ->
  Store.rows_at h rows = Some g -> Store.rows_at h' rows = Some g.
Proof.
  intros Hf. revert g. induction rows as [|a rest IH]; intros g;
    cbn [Store.rows_at]; [auto|].
  destruct (h !! a) as [[row|refs]|] eqn:Ha; try discriminate.
  destruct (Store.rows_at h rest) as [g'|]; [|discriminate].
  intros [= <-]. rewrite (Hf a (lookup_lt_Some _ _ _ Ha)), Ha, (IH g' eq_refl).
  reflexivity.
Qed.

Lemma contents_framed (h h' : Store.heap) a g :
  framed (length h) h h' ->
  Store.contents h a = Some g -> Store.contents h' a = Some g.
Proof.
  intros Hf. unfold Store.contents.
  destruct (h !! a) as [[row|refs]|] eqn:Ha; try discriminate.
  rewrite (Hf a (lookup_lt_Some _ _ _ Ha)), Ha. apply rows_at_framed. exact Hf.
Qed.

(** Run on a matrix whose rows are in a store, [calculate] gives what it
    gives on the contents of the matrix, and when it is over, with a
    result or with an exception, every list that was there before the
    call holds what it held: the rows that the elimination swaps and
    overwrites are the copies that [to_list] made, and the matrix reads
    as before. *)
Theorem calculate_private_copy (h : Store.heap) (m : Store.t)
    (g : DeterminantCalculator.grid) :
  Store.contents h (Store._data m) = Some g ->
  exists h',
    Store.calculate m h =
      (DeterminantCalculator.calculate (Matrix.mk g (Store._rows m) (Store._cols m)), h') /\
    (forall a, (a < length h)%nat -> h' !! a = h !! a) /\
    Store.contents h' (Store._data m) = Some g.
Proof.
  intros Hc.
  assert (H : exists h',
    Store.calculate m h =
      (DeterminantCalculator.calculate (Matrix.mk g (Store._rows m) (Store._cols m)), h') /\
    framed (length h) h h').
  { unfold Store.calculate, DeterminantCalculator.calculate.
    change (Matrix.is_square (Matrix.mk g (Store._rows m) (Store._cols m)))
      with (Store.is_square m).
    destruct (Store.is_square m); cbn [negb].
    2:{ exists h. split; [reflexivity | apply framed_refl]. }
    destruct (to_list_linked h m g Hc) as (md & h1 & E1 & Hl1 & Hf1).
    rewrite (bindM_Ok _ _ _ _ _ E1).
    unfold Matrix.to_list, Matrix.rows. cbn [Matrix._data Matrix._rows].
    rewrite map_id.
    destruct (column_loop_updates (length h) md (Store._rows m)
                (range 0 (Store._rows m)) h1 g O Hl1) as (h2 & E2 & Hf2 & Hl2).
    destruct (for_ (range 0 (Store._rows m))
                (DeterminantCalculator.column_step (Store._rows m)) (g, O))
      as [[[g2 rs]|r]|e]; cbn [bind erase_grid] in *.
    - rewrite (bindM_Ok _ _ _ _ _ E2).
      rewrite (bindM_reads _ _ _ _
                 (diagonal_product_reads (length h) md h2 g2 (Store._rows m)
                    (Hl2 g2 rs eq_refl))).
      exists h2. split; [|exact (framed_trans _ _ _ _ Hf1 Hf2)].
      destruct (DeterminantCalculator.diagonal_product g2 (Store._rows m));
        cbn [bind]; [|reflexivity].
      destruct (Nat.eqb (rs mod 2) 1); reflexivity.
    - rewrite (bindM_Ok _ _ _ _ _ E2). exists h2.
      split; [reflexivity | exact (framed_trans _ _ _ _ Hf1 Hf2)].
    - rewrite (bindM_Raise _ _ _ _ _ E2). exists h2.
      split; [reflexivity | exact (framed_trans _ _ _ _ Hf1 Hf2)]. }
  destruct H as (h' & E & Hf). exists h'. split; [exact E|]. split; [exact Hf|].
  exact (contents_framed h h' _ g Hf Hc).
Qed.

(** A store with a two by two matrix: two rows and the list of them. *)
Definition example_store : Store.heap :=
  [Store.Cells [Py.Int 1; Py.Int 2]; Store.Cells [Py.Int 3; Py.Int 4];
   Store.Refs [0%nat; 1%nat]].

Lemma calculate_private_copy_witness :
  exists h',
    Store.calculate (Store.mk 2 2 2) example_store =
      (DeterminantCalculator.calculate
         (Matrix.mk [[Py.Int 1; Py.Int 2]; [Py.Int 3; Py.Int 4]] 2 2), h') /\
    (forall a, (a < length example_store)%nat -> h' !! a = example_store !! a) /\
    Store.contents h' 2 = Some [[Py.Int 1; Py.Int 2]; [Py.Int 3; Py.Int 4]].
Proof.
  apply (calculate_private_copy example_store (Store.mk 2 2 2)
           [[Py.Int 1; Py.Int 2]; [Py.Int 3; Py.Int 4]]).
  reflexivity.
Defined.

(** * The singular short-circuit *)








(** * The copy that the constructor makes *)

Lemma rows_at_length (h : Store.heap) rows g :
  Store.rows_at h rows = Some g -> length rows = length g.
Proof.
  revert g. induction rows as [|a rest IH]; intros g; cbn [Store.rows_at].
  - intros [= <-]. reflexivity.
  - destruct (h !! a) as [[row|refs]|]; try discriminate.
    destruct (Store.rows_at h rest) as [g'|]; [|discriminate].
    intros [= <-]. simpl. rewrite (IH g' eq_refl). reflexivity.
Qed.

Lemma linked_contents n0 md (h : Store.heap) g :
  linked n0 md h g -> Store.contents h md = Some g.
Proof.
  intros (refs & Hmd & _ & _ & _ & Hrows). unfold Store.contents. rewrite Hmd.
  clear Hmd. induction Hrows as [|a row refs' g' Ha Hrest IH]; [reflexivity|].
  cbn [Store.rows_at]. rewrite Ha, IH. reflexivity.
Qed.

Lemma linked_insert n0 md (h : Store.heap) g b o :
  linked n0 md h g -> (b < n0)%nat -> linked n0 md (<[b:=o]> h) g.
Proof.
  intros (refs & Hmd & Hn0 & Hnd & Hfresh & Hrows) Hb. exists refs.
  split; [rewrite list_lookup_insert_ne by lia; exact Hmd|].
  split; [exact Hn0|]. split; [exact Hnd|]. split; [exact Hfresh|].
  apply Forall2_same_length_lookup. split; [exact (Forall2_length _ _ _ Hrows)|].
  intros i a row Ha Hrow. pose proof (Hfresh i a Ha).
  rewrite list_lookup_insert_ne by lia.
  exact (Forall2_lookup_lr _ _ _ _ _ _ Hrows Ha Hrow).
Qed.

Lemma init_step (h : Store.heap) (d : nat) refs g :
  h !! d = Some (Store.Refs refs) -> Store.rows_at h refs = Some g ->
  Store.__init__ d h =
  match Matrix._validate_matrix (map Row g) with
  | Ok _ =>
      (Ok (Store.mk (length (h ++ map Store.Cells g)) (length refs)
             (match g with first :: _ => length first | [] => O end)),
       (h ++ map Store.Cells g) ++ [Store.Refs (seq (length h) (length g))])
  | Raise e => (Raise e, h)
  end.
Proof.
  intros Hd Hrows.
  unfold Store.__init__, Store.bindM, Store.read_refs, Store.read_rows, Store.lift.
  rewrite Hd, Hrows.
  destruct (Matrix._validate_matrix (map Row g)) as [[]|e]; [|reflexivity].
  rewrite (copy_rows_spec refs h g Hrows). reflexivity.
Qed.

(** The constructor on a list of rows in the store: it fails as the
    store-free constructor fails and then writes nothing; when it
    succeeds, the rows of the new matrix are the copies, new and
    distinct objects behind a new list. *)
Lemma init_copies (h : Store.heap) (d : nat) g :
  Store.contents h d = Some g ->
  match Matrix.__init__ (map Row g) with
  | Ok m =>
      exists a h',
        Store.__init__ d h
          = (Ok (Store.mk a (Matrix._rows m) (Matrix._cols m)), h') /\
        linked (length h) a h' g /\ framed (length h) h h'
  | Raise e => Store.__init__ d h = (Raise e, h)
  end.
Proof.
  unfold Store.contents.
  destruct (h !! d) as [[row|refs]|] eqn:Hd; try discriminate.
  intros Hrows. rewrite (init_step h d refs g Hd Hrows). unfold Matrix.__init__.
  destruct (Matrix._validate_matrix (map Row g)) as [[]|e]; cbn [bind];
    [|reflexivity].
  cbn [Matrix._rows Matrix._cols].
  rewrite length_map, (rows_at_length h refs g Hrows).
  assert (Hc : match g with first :: _ => length first | [] => O end
               = match map Row g with first :: _ => len first | [] => O end).
  { destruct g; reflexivity. }
  rewrite Hc. eexists. eexists. split; [reflexivity|]. split.
  - exists (seq (length h) (length g)). split.
    { apply list_lookup_middle. reflexivity. }
    split; [rewrite length_app; lia|]. split; [apply NoDup_seq|]. split.
    { intros i a Ha. apply lookup_seq in Ha. lia. }
    apply Forall2_same_length_lookup. split; [apply length_seq|].
    intros i a row Ha Hrow. apply lookup_seq in Ha as [-> Hi].
    rewrite lookup_app_l by (rewrite length_app, length_map; lia).
    rewrite lookup_app_r by lia.
    replace (length h + i - length h)%nat with i by lia.
    rewrite list_lookup_fmap, Hrow. reflexivity.
  - intros a Ha. rewrite lookup_app_l by (rewrite length_app; lia).
    apply lookup_app_l. exact Ha.
Qed.

(** C5: the constructor fails with a shape error on empty data, on a row
    that is not a list and on rows of unequal lengths; with an element
    error when the shape is right and some element is not a number; and
    otherwise succeeds with [len(data)] rows, [len(data[0])] columns and
    a deep copy of the data.  The copy is deep: with the rows of the data
    held as list objects, the list of rows of the new matrix and each of
    its rows are new objects, the rows distinct from one another; they
    hold what the data held; the objects of the caller are left as they
    were; and whatever is later written to an object of the caller, the
    matrix holds the same. *)
Theorem constructor_outcome (data : list item) :
  (shape_bad data ->
     exists e, Matrix.__init__ data = Raise e /\ InvalidShapeError e) /\
  (~ shape_bad data -> element_bad data ->
     exists e, Matrix.__init__ data = Raise e /\ InvalidElementError e) /\
  (~ shape_bad data -> ~ element_bad data ->
     exists m, Matrix.__init__ data = Ok m /\
       Matrix._data m = map cells data /\
       Matrix.rows m = length data /\
       Matrix.cols m = first_len data) /\
  (forall (h : Store.heap) (d : nat) (g : list (list Py.value)),
     Store.contents h d = Some g -> data = map Row g ->
     (forall e, Matrix.__init__ data = Raise e ->
        Store.__init__ d h = (Raise e, h)) /\
     (forall m, Matrix.__init__ data = Ok m ->
        exists a h' rows',
          Store.__init__ d h
            = (Ok (Store.mk a (Matrix.rows m) (Matrix.cols m)), h') /\
          Matrix._data m = g /\
          Store.contents h' a = Some g /\
          h' !! a = Some (Store.Refs rows') /\
          (length h <= a)%nat /\
          (forall r, In r rows' -> (length h <= r)%nat) /\
          NoDup rows' /\
          (forall b, (b < length h)%nat -> h' !! b = h !! b) /\
          (forall b o, (b < length h)%nat ->
             Store.contents (<[b:=o]> h') a = Some g))).
Proof.
  destruct (constructor_cases data) as (H1 & H2 & H3).
  split; [exact H1|]. split; [exact H2|]. split; [exact H3|].
  intros h d g Hc ->. pose proof (init_copies h d g Hc) as H.
  split.
  - intros e He. rewrite He in H. exact H.
  - intros m Hm. rewrite Hm in H. destruct H as (a & h' & E & Hl & Hf).
    pose proof Hl as (rows' & Ha & Hn0 & Hnd & Hfresh & Hrows).
    exists a, h', rows'. split; [exact E|]. split.
    { apply init_Ok_inv in Hm as (_ & _ & ->). cbn [Matrix._data].
      rewrite map_map. apply map_id. }
    split; [exact (linked_contents _ _ _ _ Hl)|]. split; [exact Ha|].
    split; [exact Hn0|]. split.
    { intros r Hr. apply list_elem_of_In, list_elem_of_lookup in Hr as (i & Hi).
      exact (Hfresh i r Hi). }
    split; [exact Hnd|]. split; [exact Hf|].
    intros b o Hb. apply (linked_contents (length h)).
    apply linked_insert; assumption.
Qed.

(** The constructor on the rows of [example_store]: the matrix is made of
    three new objects, after the three that were there. *)
Lemma constructor_copy_example :
  Store.__init__ 2 example_store =
  (Ok (Store.mk 5 2 2),
   example_store ++
     [Store.Cells [Py.Int 1; Py.Int 2]; Store.Cells [Py.Int 3; Py.Int 4];
      Store.Refs [3%nat; 4%nat]]).
Proof. reflexivity. Qed.

(** An int of 4301 digits is stored, and the call raises. *)
Lemma set_element_raises_after_storing :
  exists m',
    Matrix.set_element example_2x2 0 0 (Py.Int (10 ^ 4300))
      = (m', Raise (ValueError Py.msg_int_str)) /\
    Matrix.get_element m' 0 0 = Ok (Py.Int (10 ^ 4300)).
Proof.
  assert (Hstr : Py.str (Py.Int (10 ^ 4300)) = Raise (ValueError Py.msg_int_str)).
  { unfold Py.str, Py.max_str_digits.
    rewrite Z.abs_eq by (apply Z.pow_nonneg; lia).
    rewrite Z.ltb_irrefl. reflexivity. }
  set (z := 10 ^ 4300) in *. clearbody z.
  exists (Matrix.mk [[Py.Int z; Py.Int 2]; [Py.Int 3; Py.Int 4]] 2 2). split.
  - rewrite <- Hstr. reflexivity.
  - reflexivity.
Qed.
